(** * Nazara Engine, Graphics module: the forward render queue

    A shallow embedding of [src/Nazara/Graphics/ForwardRenderQueue.cpp]
    (class [Nz::ForwardRenderQueue]) and the properties of its batching,
    sorting, clearing and invalidation code; then of [Sprite], which
    submits to the queue ([src/Nazara/Graphics/Sprite.cpp]), and of the
    text drawer of the Utility module
    ([src/Nazara/Utility/SimpleTextDrawer.cpp]).

    Conventions of the embedding.
    - A [float] is an exact rational ([Q]): the queue only copies, adds,
      multiplies and compares these values, and the one conversion to an
      integer (the alpha channel of a billboard) is written out.  Rounding
      of the float operations, infinities and NaN are outside the model.
    - A pointer to a resource the queue does not own ([const Material*],
      [const Texture*], buffers, drawables, vertices) is its address, a
      [positive]; a pointer that the code allows to be null is an [option].
      Every [Add*] function that takes a material starts with
      [NazaraAssert(material, ...)], so a material argument is never null.
    - The [std::map]s of a layer are finite maps on the identity of the key.
      The three comparators on materials end on the pointer value, so two
      materials are equivalent keys exactly when they are the same pointer.
      The comparator on mesh data compares the storage of the index buffer,
      the storage of the vertex buffer and the primitive mode; a buffer is
      identified with its storage ([GetBuffer()] is taken to be one to one
      on the buffers in use), so two mesh data are equivalent keys exactly
      when their three fields are equal.  The order in which a map is
      walked is not part of the model.
    - A [NazaraSlot] is the address of the resource whose release signal it
      is connected to, [None] while it is not connected. *)

From Stdlib Require Import QArith Qround.
From stdpp Require Import gmap list sorting.

Abbreviation float := Q (only parsing).
Abbreviation MaterialPtr := positive (only parsing).
Abbreviation TexturePtr := positive (only parsing).
Abbreviation IndexBufferPtr := positive (only parsing).
Abbreviation VertexBufferPtr := positive (only parsing).
Abbreviation DrawablePtr := positive (only parsing).
Abbreviation VerticesPtr := positive (only parsing).

(** ** The math types the queue stores and reads

    The math and core modules of the engine ([Vector2], [Vector3], [Box],
    [Sphere], [Plane], [Matrix4], [Color]) are not among the sources.  The
    queue uses a handful of their members, which are written here from
    what the specification says of them. *)

Module Vector2f.
(** Modelled from the spec: [Vector2f], the "half-extent size" and the
    "sin/cos rotation pair" of a billboard: two floats. *)
Record t := Build { x : float; y : float }.

(** Modelled from the spec: [Vector2<T>::Set(T scale)], which gives both
    components the one value; the overloads of [AddBillboards] with one
    size per billboard call it. *)
Definition Set1 (scale : float) : t := Build scale scale.
End Vector2f.

Module Vector3f.
(** Modelled from the spec: [Vector3f], a position or a direction: three
    floats. *)
Record t := Build { x : float; y : float; z : float }.

(** Modelled from the spec: [operator+] of [Vector3<T>], by component. *)
Definition add (a b : t) : t := Build (x a + x b) (y a + y b) (z a + z b).

(** Modelled from the spec: [operator-] of [Vector3<T>], by component. *)
Definition sub (a b : t) : t := Build (x a - x b) (y a - y b) (z a - z b).

(** Modelled from the spec: [operator*] of [Vector3<T>] by a scalar. *)
Definition scale (a : t) (k : float) : t := Build (x a * k) (y a * k) (z a * k).

(** Modelled from the spec: [Vector3<T>::DotProduct]. *)
Definition DotProduct (a b : t) : float := x a * x b + y a * y b + z a * z b.

(** Modelled from the spec: [Vector3<T>::GetSquaredLength]. *)
Definition GetSquaredLength (a : t) : float := x a * x a + y a * y a + z a * z a.

(** Modelled from the spec: [Vector3<T>::SquaredDistance], the "squared
    distance" between two points. *)
Definition SquaredDistance (a b : t) : float := GetSquaredLength (sub a b).
End Vector3f.

Module Color.
(** Modelled from the spec: [Color], an "RGBA color": four [UInt8]
    channels. *)
Record t := Build { r : Z; g : Z; b : Z; a : Z }.

(** Modelled from the spec: [Color::White], "opaque white". *)
Definition White : t := Build 255 255 255 255.
End Color.

Module Boxf.
(** Modelled from the spec: [Boxf], the local axis-aligned bounding box of
    a mesh: a corner and three lengths. *)
Record t := Build { x : float; y : float; z : float;
                    width : float; height : float; depth : float }.

(** Modelled from the spec: [Box<T>::GetPosition], the corner. *)
Definition GetPosition (b : t) : Vector3f.t := Vector3f.Build (x b) (y b) (z b).

(** Modelled from the spec: [Box<T>::GetLengths], the three lengths. *)
Definition GetLengths (b : t) : Vector3f.t :=
  Vector3f.Build (width b) (height b) (depth b).

(** Modelled from the spec: [Box<T>::GetCenter], the "AABB center". *)
Definition GetCenter (b : t) : Vector3f.t :=
  Vector3f.add (GetPosition b) (Vector3f.scale (GetLengths b) (1 # 2)).

(** Modelled from the spec: [Box<T>::GetSquaredRadius], the "AABB's
    squared bounding radius": the squared length of the half diagonal. *)
Definition GetSquaredRadius (b : t) : float :=
  Vector3f.GetSquaredLength (Vector3f.scale (GetLengths b) (1 # 2)).
End Boxf.

Module Spheref.
(** Modelled from the spec: [Spheref], a "bounding sphere": a center and a
    radius.  The queue stores the squared radius of a box in the place of
    the radius (its fields are named [squaredBoundingSphere]). *)
Record t := Build { x : float; y : float; z : float; radius : float }.

(** Modelled from the spec: the constructor [Sphere(center, radius)]. *)
Definition make (center : Vector3f.t) (r : float) : t :=
  Build (Vector3f.x center) (Vector3f.y center) (Vector3f.z center) r.

(** Modelled from the spec: [Sphere<T>::GetPosition], the center. *)
Definition GetPosition (s : t) : Vector3f.t := Vector3f.Build (x s) (y s) (z s).

(** Modelled from the spec: [Sphere<T>::GetNegativeVertex], the "negative
    vertex" of the sphere relative to a direction: the center moved
    against [normal] by the stored radius. *)
Definition GetNegativeVertex (s : t) (normal : Vector3f.t) : Vector3f.t :=
  Vector3f.sub (GetPosition s) (Vector3f.scale normal (radius s)).
End Spheref.

(** Modelled from the spec: [Box<T>::GetSquaredBoundingSphere], the sphere
    made of the center and the squared radius of a box. *)
Definition GetSquaredBoundingSphere (b : Boxf.t) : Spheref.t :=
  Spheref.make (Boxf.GetCenter b) (Boxf.GetSquaredRadius b).

Module Planef.
(** Modelled from the spec: [Planef], "a plane equation": a normal and a
    distance. *)
Record t := Build { normal : Vector3f.t; distance : float }.

(** Modelled from the spec: [Plane<T>::Distance], the "signed distance"
    from the plane to a point. *)
Definition Distance (p : t) (point : Vector3f.t) : float :=
  Vector3f.DotProduct (normal p) point - distance p.
End Planef.

Module Matrix4f.
(** Modelled from the spec: [Matrix4f], a "world transform": sixteen
    floats. *)
Record t := Build {
  m11 : float; m12 : float; m13 : float; m14 : float;
  m21 : float; m22 : float; m23 : float; m24 : float;
  m31 : float; m32 : float; m33 : float; m34 : float;
  m41 : float; m42 : float; m43 : float; m44 : float }.

(** Modelled from the spec: [Matrix4<T>::GetTranslation], the
    "worldTransform's translation": the first three entries of the last
    row. *)
Definition GetTranslation (m : t) : Vector3f.t := Vector3f.Build (m41 m) (m42 m) (m43 m).

(** Modelled from the spec: [Matrix4<T>::MakeTranslation], the transform
    that only translates. *)
Definition MakeTranslation (v : Vector3f.t) : t :=
  Build 1 0 0 0  0 1 0 0  0 0 1 0  (Vector3f.x v) (Vector3f.y v) (Vector3f.z v) 1.
End Matrix4f.

(** [a > b] on floats, as a boolean. *)
Definition float_gt (a b : float) : bool :=
  match (b ?= a)%Q with Lt => true | _ => false end.

(** [static_cast<UInt8>(x)]: the fractional part is discarded (truncation
    toward zero); the value is then taken in the range of [UInt8] (C++
    leaves the conversion undefined when the truncated value is outside
    0..255). *)
Definition float_to_UInt8 (x : float) : Z :=
  (Z.quot (Qnum x) (Zpos (Qden x))) mod 256.

(** ** What the queue reads through the pointers it is given *)

Module Material.
(** Modelled from the spec: the state of a [Material] the queue asks for,
    its "participates in alpha blending" flag
    ([IsEnabled(RendererParameter_Blend)]) and its "depth-sort for
    billboards" flag ([IsDepthSortingEnabled()]). *)
Record t := Build { blend : bool; depthSorting : bool }.
End Material.

(** The memory the material pointers point into. *)
Abbreviation Materials := (MaterialPtr -> Material.t) (only parsing).

Module Viewer.
(** Modelled from the spec: what the queue asks an [AbstractViewer] for,
    [GetFrustum().GetPlane(FrustumPlane_Near)], [GetEyePosition()] and
    [GetForward()]. *)
Record t := Build { nearPlane : Planef.t;
                    eyePosition : Vector3f.t;
                    forward : Vector3f.t }.
End Viewer.

Module MeshData.
(** Modelled from the spec: [MeshData], "references to a vertex buffer and
    (optionally) an index buffer plus a primitive topology". *)
Record t := Build { indexBuffer : option IndexBufferPtr;
                    vertexBuffer : VertexBufferPtr;
                    primitiveMode : nat }.

#[global] Instance eq_dec : EqDecision t.
Proof. solve_decision. Defined.

#[global] Instance countable : Countable t :=
  inj_countable'
    (fun m => (indexBuffer m, vertexBuffer m, primitiveMode m))
    (fun p => Build p.1.1 p.1.2 p.2)
    (fun m => match m with Build _ _ _ => eq_refl end).
End MeshData.

(** Modelled from the spec: [SparsePtr<const T>], a pointer with a stride
    over "parallel arrays ... each independently optional": [None] is the
    null pointer; [Some f] points to a sequence whose element [i] strides
    further is [f i]. *)
Definition SparsePtr (T : Type) : Type := option (nat -> T).

(** ** The build configuration and the C library *)

(** Modelled from the spec: the macro
    [NAZARA_GRAPHICS_INSTANCING_MIN_INSTANCES_COUNT] (the "fixed
    minimum-instances-for-batching threshold", defined in a configuration
    header that is not among the sources), and [std::sin], [std::cos] and
    [ToRadians], which the overloads of [AddBillboards] taking angles call.
    They are parameters of the development.  Of the sine and the cosine
    the development knows what they are at the default angle, "angle 0
    i.e. sin=0,cos=1": [ToRadians(0.f)] is 0, whose sine is 0 and whose
    cosine is 1, all three exactly. *)
Class Platform := {
  NAZARA_GRAPHICS_INSTANCING_MIN_INSTANCES_COUNT : nat;
  std_sin : float -> float;
  std_cos : float -> float;
  ToRadians : float -> float;
  std_sin_ToRadians_0 : std_sin (ToRadians 0) = 0%Q;
  std_cos_ToRadians_0 : std_cos (ToRadians 0) = 1%Q
}.

(** ** The structures of a layer

    The class declaration ([ForwardRenderQueue.hpp]) is not among the
    sources.  The fields of a structure are those [ForwardRenderQueue.cpp]
    reads and writes; a structure that is default-constructed has empty
    containers, disconnected slots, flags that are false and a clear count
    of zero. *)

Module BillboardData.
(** Modelled from the spec: [BillboardData], "{center, half-extent size,
    sin/cos rotation pair, color}". *)
Record t := Build { color : Color.t; center : Vector3f.t;
                    size : Vector2f.t; sinCos : Vector2f.t }.

(** The value of the elements [std::vector::resize] adds, before the
    caller writes to them. *)
Definition blank : t :=
  Build (Color.Build 0 0 0 0) (Vector3f.Build 0 0 0)
        (Vector2f.Build 0 0) (Vector2f.Build 0 0).
End BillboardData.

Module BatchedBillboardEntry.
(** Modelled from the spec: [BatchedBillboardEntry], the value of
    "billboardBatches: mapping material handle → flat list", with its
    subscription to the release of the material. *)
Record t := Build { materialReleaseSlot : option MaterialPtr;
                    billboards : list BillboardData.t }.

Definition with_billboards (v : list BillboardData.t) (e : t) : t :=
  Build (materialReleaseSlot e) v.
End BatchedBillboardEntry.

Module SpriteChain.
(** Modelled from the spec: [SpriteChain_XYZ_Color_UV], a "reference to a
    contiguous run of pre-expanded quad vertices plus a count". *)
Record t := Build { vertices : VerticesPtr; spriteCount : nat }.
End SpriteChain.

Module BatchedSpriteEntry.
(** Modelled from the spec: [BatchedSpriteEntry], the bucket of an overlay
    texture: a "list of vertex chains", with its subscription to the
    release of the texture. *)
Record t := Build { textureReleaseSlot : option TexturePtr;
                    spriteChains : list SpriteChain.t }.
End BatchedSpriteEntry.

Module BatchedBasicSpriteEntry.
(** Modelled from the spec: [BatchedBasicSpriteEntry], the value of
    "spriteBatches: mapping material handle → mapping overlay-texture
    handle → list of vertex chains", with its subscription to the release
    of the material and the flag [enabled] that [AddSprites] sets. *)
Record t := Build { materialReleaseSlot : option MaterialPtr;
                    overlayMap : gmap (option TexturePtr) BatchedSpriteEntry.t;
                    enabled : bool }.
End BatchedBasicSpriteEntry.

Module MeshInstanceEntry.
(** Modelled from the spec: [MeshInstanceEntry], the "list of per-instance
    transforms" and the "bounding-sphere-radius-squared per mesh-handle
    entry", with its subscriptions to the release of the buffers. *)
Record t := Build { indexBufferReleaseSlot : option IndexBufferPtr;
                    vertexBufferReleaseSlot : option VertexBufferPtr;
                    instances : list Matrix4f.t;
                    squaredBoundingSphere : Spheref.t }.
End MeshInstanceEntry.

Module BatchedModelEntry.
(** Modelled from the spec: [BatchedModelEntry], the value of
    "opaqueBatches: mapping from material handle → mesh-handle-keyed
    mapping", with its subscription to the release of the material, the
    flag [enabled] and the flag "instancing eligible"
    ([instancingEnabled]), both of which [AddMesh] writes on this entry. *)
Record t := Build { materialReleaseSlot : option MaterialPtr;
                    meshMap : gmap MeshData.t MeshInstanceEntry.t;
                    enabled : bool;
                    instancingEnabled : bool }.

Definition with_meshMap (m : gmap MeshData.t MeshInstanceEntry.t) (e : t) : t :=
  Build (materialReleaseSlot e) m (enabled e) (instancingEnabled e).
End BatchedModelEntry.

Module TransparentModelData.
(** Modelled from the spec: [TransparentModelData], "{material handle,
    mesh data, world transform, bounding sphere}". *)
Record t := Build { transformMatrix : Matrix4f.t;
                    meshData : MeshData.t;
                    squaredBoundingSphere : Spheref.t;
                    material : MaterialPtr }.
End TransparentModelData.

Module Layer.
(** Modelled from the spec: [Layer], a "render-order bucket": the three
    batch maps, the transparent list ([transparentModels], indices into
    [transparentModelData]), the custom drawables and the count of
    lightweight clears ("idleClears", [clearCount]). *)
Record t := Build {
  billboards : gmap MaterialPtr BatchedBillboardEntry.t;
  basicSprites : gmap MaterialPtr BatchedBasicSpriteEntry.t;
  opaqueModels : gmap MaterialPtr BatchedModelEntry.t;
  transparentModels : list nat;
  transparentModelData : list TransparentModelData.t;
  otherDrawables : list DrawablePtr;
  clearCount : nat }.

(** [Layer()] *)
Definition new : t := Build ∅ ∅ ∅ [] [] [] 0.

Definition with_billboards (m : gmap MaterialPtr BatchedBillboardEntry.t) (l : t) : t :=
  Build m (basicSprites l) (opaqueModels l) (transparentModels l)
        (transparentModelData l) (otherDrawables l) (clearCount l).

Definition with_basicSprites (m : gmap MaterialPtr BatchedBasicSpriteEntry.t) (l : t) : t :=
  Build (billboards l) m (opaqueModels l) (transparentModels l)
        (transparentModelData l) (otherDrawables l) (clearCount l).

Definition with_opaqueModels (m : gmap MaterialPtr BatchedModelEntry.t) (l : t) : t :=
  Build (billboards l) (basicSprites l) m (transparentModels l)
        (transparentModelData l) (otherDrawables l) (clearCount l).

Definition with_transparentModels (v : list nat) (l : t) : t :=
  Build (billboards l) (basicSprites l) (opaqueModels l) v
        (transparentModelData l) (otherDrawables l) (clearCount l).

Definition with_clearCount (n : nat) (l : t) : t :=
  Build (billboards l) (basicSprites l) (opaqueModels l) (transparentModels l)
        (transparentModelData l) (otherDrawables l) n.
End Layer.

(** The state of the queue is its member [layers], a [std::map<int, Layer>].
    (The light lists of the base class [AbstractRenderQueue], which
    [Clear] also empties through [AbstractRenderQueue::Clear], belong to
    another class and are left out.) *)
Abbreviation Layers := (gmap Z Layer.t) (only parsing).

(** ** The operations of the queue *)

(** [b] does not have to come before [a] for the comparator [comp]. *)
Definition not_after {A : Type} (comp : A -> A -> bool) : relation A :=
  fun a b => comp b a = false.

#[global] Instance not_after_dec {A : Type} (comp : A -> A -> bool) (a b : A) :
  Decision (not_after comp a b).
Proof. unfold not_after. apply _. Defined.

(** [std::sort(first, last, comp)]: the standard fixes the result up to the
    order of the elements that [comp] does not separate; the model is the
    merge sort of stdpp, which puts [a] before [b] unless [comp(b, a)].
    The properties below use of it only what the standard guarantees: the
    result is a permutation of the input and is ordered for [comp]. *)
Definition std_sort {A : Type} (comp : A -> A -> bool) (l : list A) : list A :=
  merge_sort (not_after comp) l.

(** [if (!ptr) ptr.Reset(&x, 0);] and the reads [*ptr++] that follow: the
    value read at iteration [i]. *)
Definition reset_if_null {T : Type} (ptr : SparsePtr T) (x : T) : nat -> T :=
  match ptr with
  | None => fun _ => x
  | Some f => f
  end.

(** [GetLayer(i)]: finds the layer or inserts [Layer()], resets its clear
    count, and returns a reference to it: here the layer and the map that
    holds it, to which the caller writes the layer back. *)
Definition GetLayer (i : Z) (layers : Layers) : Layer.t * Layers :=
  let layer := Layer.with_clearCount 0 (default Layer.new (layers !! i)) in
  (layer, <[i := layer]> layers).

Definition AddBillboard (renderOrder : Z) (material : MaterialPtr)
    (position : Vector3f.t) (size sinCos : Vector2f.t) (color : Color.t)
    (layers : Layers) : Layers :=
  let '(layer, layers) := GetLayer renderOrder layers in
  let billboards := Layer.billboards layer in
  let entry :=
    match billboards !! material with
    | Some entry => entry
    | None => BatchedBillboardEntry.Build (Some material) []
    end in
  let billboardVector :=
    BatchedBillboardEntry.billboards entry
      ++ [BillboardData.Build color position size sinCos] in
  <[renderOrder :=
      Layer.with_billboards
        (<[material := BatchedBillboardEntry.with_billboards billboardVector entry]> billboards)
        layer]> layers.

(** [GetBillboardData(renderOrder, material, count)]: returns the queue
    with the vector of the entry grown by [count] elements, and [prevSize],
    the place in that vector the returned pointer points to. *)
Definition GetBillboardData (renderOrder : Z) (material : MaterialPtr) (count : nat)
    (layers : Layers) : Layers * nat :=
  let '(layer, layers) := GetLayer renderOrder layers in
  let billboards := Layer.billboards layer in
  let entry :=
    match billboards !! material with
    | Some entry => entry
    | None => BatchedBillboardEntry.Build (Some material) []
    end in
  let billboardVector := BatchedBillboardEntry.billboards entry in
  let prevSize := length billboardVector in
  let billboardVector := billboardVector ++ replicate count BillboardData.blank in
  (<[renderOrder :=
       Layer.with_billboards
         (<[material := BatchedBillboardEntry.with_billboards billboardVector entry]> billboards)
         layer]> layers,
   prevSize).

(** A write through [billboardData], a pointer to element [index] of the
    vector of the billboard entry of [material] in layer [renderOrder]. *)
Definition store_billboard (renderOrder : Z) (material : MaterialPtr) (index : nat)
    (data : BillboardData.t) (layers : Layers) : Layers :=
  alter
    (fun layer =>
       Layer.with_billboards
         (alter
            (fun entry =>
               BatchedBillboardEntry.with_billboards
                 (<[index := data]> (BatchedBillboardEntry.billboards entry)) entry)
            material (Layer.billboards layer))
         layer)
    renderOrder layers.

(** The loop all the overloads of [AddBillboards] share,
    [for (i = 0; i < count; ++i) { *billboardData = item(i); billboardData++; }]
    where [item i] is what iteration [i] reads from the sparse pointers. *)
Definition fill_billboards (renderOrder : Z) (material : MaterialPtr)
    (count : nat) (item : nat -> BillboardData.t) (layers : Layers) : Layers :=
  let '(layers, prevSize) := GetBillboardData renderOrder material count layers in
  foldl (fun layers i => store_billboard renderOrder material (prevSize + i) (item i) layers)
        layers (seq 0 count).

Section Operations.
Context `{Platform}.

(** The eight overloads of [AddBillboards].  [positionPtr] and [sizePtr]
    are read without a test, so they are not null: they are given as the
    sequences they point to.  The suffix of a name tells the overload:
    [_size] for one [float] size per billboard, [_angle] for angles in the
    place of (sin, cos) pairs, [_alpha] for alpha values in the place of
    colors. *)

Definition AddBillboards (renderOrder : Z) (material : MaterialPtr) (count : nat)
    (positionPtr : nat -> Vector3f.t) (sizePtr : nat -> Vector2f.t)
    (sinCosPtr : SparsePtr Vector2f.t) (colorPtr : SparsePtr Color.t)
    (layers : Layers) : Layers :=
  let defaultSinCos := Vector2f.Build 0 1 in
  let sinCosPtr := reset_if_null sinCosPtr defaultSinCos in
  let colorPtr := reset_if_null colorPtr Color.White in
  fill_billboards renderOrder material count
    (fun i => BillboardData.Build (colorPtr i) (positionPtr i) (sizePtr i) (sinCosPtr i))
    layers.

Definition AddBillboards_alpha (renderOrder : Z) (material : MaterialPtr) (count : nat)
    (positionPtr : nat -> Vector3f.t) (sizePtr : nat -> Vector2f.t)
    (sinCosPtr : SparsePtr Vector2f.t) (alphaPtr : SparsePtr float)
    (layers : Layers) : Layers :=
  let defaultSinCos := Vector2f.Build 0 1 in
  let sinCosPtr := reset_if_null sinCosPtr defaultSinCos in
  let defaultAlpha := 1%Q in
  let alphaPtr := reset_if_null alphaPtr defaultAlpha in
  fill_billboards renderOrder material count
    (fun i => BillboardData.Build
                (Color.Build 255 255 255 (float_to_UInt8 (255 * alphaPtr i)))
                (positionPtr i) (sizePtr i) (sinCosPtr i))
    layers.

Definition AddBillboards_angle (renderOrder : Z) (material : MaterialPtr) (count : nat)
    (positionPtr : nat -> Vector3f.t) (sizePtr : nat -> Vector2f.t)
    (anglePtr : SparsePtr float) (colorPtr : SparsePtr Color.t)
    (layers : Layers) : Layers :=
  let defaultRotation := 0%Q in
  let anglePtr := reset_if_null anglePtr defaultRotation in
  let colorPtr := reset_if_null colorPtr Color.White in
  fill_billboards renderOrder material count
    (fun i =>
       let sin := std_sin (ToRadians (anglePtr i)) in
       let cos := std_cos (ToRadians (anglePtr i)) in
       BillboardData.Build (colorPtr i) (positionPtr i) (sizePtr i) (Vector2f.Build sin cos))
    layers.

Definition AddBillboards_angle_alpha (renderOrder : Z) (material : MaterialPtr) (count : nat)
    (positionPtr : nat -> Vector3f.t) (sizePtr : nat -> Vector2f.t)
    (anglePtr : SparsePtr float) (alphaPtr : SparsePtr float)
    (layers : Layers) : Layers :=
  let defaultRotation := 0%Q in
  let anglePtr := reset_if_null anglePtr defaultRotation in
  let defaultAlpha := 1%Q in
  let alphaPtr := reset_if_null alphaPtr defaultAlpha in
  fill_billboards renderOrder material count
    (fun i =>
       let sin := std_sin (ToRadians (anglePtr i)) in
       let cos := std_cos (ToRadians (anglePtr i)) in
       BillboardData.Build
         (Color.Build 255 255 255 (float_to_UInt8 (255 * alphaPtr i)))
         (positionPtr i) (sizePtr i) (Vector2f.Build sin cos))
    layers.

Definition AddBillboards_size (renderOrder : Z) (material : MaterialPtr) (count : nat)
    (positionPtr : nat -> Vector3f.t) (sizePtr : nat -> float)
    (sinCosPtr : SparsePtr Vector2f.t) (colorPtr : SparsePtr Color.t)
    (layers : Layers) : Layers :=
  let defaultSinCos := Vector2f.Build 0 1 in
  let sinCosPtr := reset_if_null sinCosPtr defaultSinCos in
  let colorPtr := reset_if_null colorPtr Color.White in
  fill_billboards renderOrder material count
    (fun i => BillboardData.Build (colorPtr i) (positionPtr i)
                (Vector2f.Set1 (sizePtr i)) (sinCosPtr i))
    layers.

Definition AddBillboards_size_alpha (renderOrder : Z) (material : MaterialPtr) (count : nat)
    (positionPtr : nat -> Vector3f.t) (sizePtr : nat -> float)
    (sinCosPtr : SparsePtr Vector2f.t) (alphaPtr : SparsePtr float)
    (layers : Layers) : Layers :=
  let defaultSinCos := Vector2f.Build 0 1 in
  let sinCosPtr := reset_if_null sinCosPtr defaultSinCos in
  let defaultAlpha := 1%Q in
  let alphaPtr := reset_if_null alphaPtr defaultAlpha in
  fill_billboards renderOrder material count
    (fun i => BillboardData.Build
                (Color.Build 255 255 255 (float_to_UInt8 (255 * alphaPtr i)))
                (positionPtr i) (Vector2f.Set1 (sizePtr i)) (sinCosPtr i))
    layers.

Definition AddBillboards_size_angle (renderOrder : Z) (material : MaterialPtr) (count : nat)
    (positionPtr : nat -> Vector3f.t) (sizePtr : nat -> float)
    (anglePtr : SparsePtr float) (colorPtr : SparsePtr Color.t)
    (layers : Layers) : Layers :=
  let defaultRotation := 0%Q in
  let anglePtr := reset_if_null anglePtr defaultRotation in
  let colorPtr := reset_if_null colorPtr Color.White in
  fill_billboards renderOrder material count
    (fun i =>
       let sin := std_sin (ToRadians (anglePtr i)) in
       let cos := std_cos (ToRadians (anglePtr i)) in
       BillboardData.Build (colorPtr i) (positionPtr i)
         (Vector2f.Set1 (sizePtr i)) (Vector2f.Build sin cos))
    layers.

Definition AddBillboards_size_angle_alpha (renderOrder : Z) (material : MaterialPtr)
    (count : nat)
    (positionPtr : nat -> Vector3f.t) (sizePtr : nat -> float)
    (anglePtr : SparsePtr float) (alphaPtr : SparsePtr float)
    (layers : Layers) : Layers :=
  let defaultRotation := 0%Q in
  let anglePtr := reset_if_null anglePtr defaultRotation in
  let defaultAlpha := 1%Q in
  let alphaPtr := reset_if_null alphaPtr defaultAlpha in
  fill_billboards renderOrder material count
    (fun i =>
       let sin := std_sin (ToRadians (anglePtr i)) in
       let cos := std_cos (ToRadians (anglePtr i)) in
       BillboardData.Build
         (Color.Build 255 255 255 (float_to_UInt8 (255 * alphaPtr i)))
         (positionPtr i) (Vector2f.Set1 (sizePtr i)) (Vector2f.Build sin cos))
    layers.

(** [AddDrawable], as built with [NAZARA_GRAPHICS_SAFE]: a null drawable is
    reported and the call returns before it touches any layer. *)
Definition AddDrawable (renderOrder : Z) (drawable : option DrawablePtr)
    (layers : Layers) : Layers :=
  match drawable with
  | None => layers
  | Some drawable =>
      let '(layer, layers) := GetLayer renderOrder layers in
      <[renderOrder :=
          Layer.Build (Layer.billboards layer) (Layer.basicSprites layer)
            (Layer.opaqueModels layer) (Layer.transparentModels layer)
            (Layer.transparentModelData layer)
            (Layer.otherDrawables layer ++ [drawable]) (Layer.clearCount layer)]> layers
  end.

(** [AddMesh]; [materials] is the memory read by
    [material->IsEnabled(RendererParameter_Blend)].  The mesh map is keyed
    by the mesh data: it is the map of the code where [MeshDataComparator]
    separates any two different mesh data, that is where no two buffers in
    use share a storage and no index buffer in use has a null storage. *)
Definition AddMesh (materials : Materials) (renderOrder : Z) (material : MaterialPtr)
    (meshData : MeshData.t) (meshAABB : Boxf.t) (transformMatrix : Matrix4f.t)
    (layers : Layers) : Layers :=
  if Material.blend (materials material) then
    let '(currentLayer, layers) := GetLayer renderOrder layers in
    let transparentModels := Layer.transparentModels currentLayer in
    let transparentModelData := Layer.transparentModelData currentLayer in
    let index := length transparentModelData in
    let data :=
      TransparentModelData.Build transformMatrix meshData
        (Spheref.make
           (Vector3f.add (Matrix4f.GetTranslation transformMatrix)
                         (Boxf.GetCenter meshAABB))
           (Boxf.GetSquaredRadius meshAABB))
        material in
    <[renderOrder :=
        Layer.Build (Layer.billboards currentLayer) (Layer.basicSprites currentLayer)
          (Layer.opaqueModels currentLayer)
          (transparentModels ++ [index])
          (transparentModelData ++ [data])
          (Layer.otherDrawables currentLayer) (Layer.clearCount currentLayer)]> layers
  else
    let '(currentLayer, layers) := GetLayer renderOrder layers in
    let opaqueModels := Layer.opaqueModels currentLayer in
    let entry :=
      match opaqueModels !! material with
      | Some entry => entry
      | None => BatchedModelEntry.Build (Some material) ∅ false false
      end in
    let meshMap := BatchedModelEntry.meshMap entry in
    let instanceEntry :=
      match meshMap !! meshData with
      | Some instanceEntry => instanceEntry
      | None =>
          MeshInstanceEntry.Build
            (MeshData.indexBuffer meshData)
            (Some (MeshData.vertexBuffer meshData))
            []
            (GetSquaredBoundingSphere meshAABB)
      end in
    let instances := MeshInstanceEntry.instances instanceEntry ++ [transformMatrix] in
    let instanceEntry :=
      MeshInstanceEntry.Build
        (MeshInstanceEntry.indexBufferReleaseSlot instanceEntry)
        (MeshInstanceEntry.vertexBufferReleaseSlot instanceEntry)
        instances
        (MeshInstanceEntry.squaredBoundingSphere instanceEntry) in
    let instancingEnabled :=
      if (NAZARA_GRAPHICS_INSTANCING_MIN_INSTANCES_COUNT <=? length instances)%nat
      then true
      else BatchedModelEntry.instancingEnabled entry in
    let entry :=
      BatchedModelEntry.Build
        (BatchedModelEntry.materialReleaseSlot entry)
        (<[meshData := instanceEntry]> meshMap)
        true
        instancingEnabled in
    <[renderOrder :=
        Layer.with_opaqueModels (<[material := entry]> opaqueModels) currentLayer]> layers.

Definition AddSprites (renderOrder : Z) (material : MaterialPtr)
    (vertices : VerticesPtr) (spriteCount : nat) (overlay : option TexturePtr)
    (layers : Layers) : Layers :=
  let '(currentLayer, layers) := GetLayer renderOrder layers in
  let basicSprites := Layer.basicSprites currentLayer in
  let entry :=
    match basicSprites !! material with
    | Some entry => entry
    | None => BatchedBasicSpriteEntry.Build (Some material) ∅ false
    end in
  let overlayMap := BatchedBasicSpriteEntry.overlayMap entry in
  let overlayEntry :=
    match overlayMap !! overlay with
    | Some overlayEntry => overlayEntry
    | None => BatchedSpriteEntry.Build overlay []
    end in
  let spriteVector :=
    BatchedSpriteEntry.spriteChains overlayEntry
      ++ [SpriteChain.Build vertices spriteCount] in
  let overlayEntry :=
    BatchedSpriteEntry.Build (BatchedSpriteEntry.textureReleaseSlot overlayEntry)
      spriteVector in
  let entry :=
    BatchedBasicSpriteEntry.Build
      (BatchedBasicSpriteEntry.materialReleaseSlot entry)
      (<[overlay := overlayEntry]> overlayMap)
      true in
  <[renderOrder :=
      Layer.with_basicSprites (<[material := entry]> basicSprites) currentLayer]> layers.

(** [Clear(fully)].  In the loop, [layer.clearCount++ >= 100] tests the
    count before the increment; a layer that stays has been incremented. *)
Definition Clear (fully : bool) (layers : Layers) : Layers :=
  if fully then ∅
  else
    omap
      (fun layer =>
         if (100 <=? Layer.clearCount layer)%nat then None
         else
           Some (Layer.Build (Layer.billboards layer) (Layer.basicSprites layer)
                   (Layer.opaqueModels layer) [] [] []
                   (S (Layer.clearCount layer))))
      layers.

(** The comparator of the first [std::sort] of [Sort]. *)
Definition transparent_distance (nearPlane : Planef.t) (viewerNormal : Vector3f.t)
    (layer : Layer.t) (index : nat) : float :=
  match Layer.transparentModelData layer !! index with
  | Some data =>
      Planef.Distance nearPlane
        (Spheref.GetNegativeVertex
           (TransparentModelData.squaredBoundingSphere data) viewerNormal)
  | None => 0%Q
  end.

Definition transparent_comp (nearPlane : Planef.t) (viewerNormal : Vector3f.t)
    (layer : Layer.t) (index1 index2 : nat) : bool :=
  float_gt (transparent_distance nearPlane viewerNormal layer index1)
           (transparent_distance nearPlane viewerNormal layer index2).

(** The comparator of the second. *)
Definition billboard_comp (viewerPos : Vector3f.t) (data1 data2 : BillboardData.t) : bool :=
  float_gt (Vector3f.SquaredDistance viewerPos (BillboardData.center data1))
           (Vector3f.SquaredDistance viewerPos (BillboardData.center data2)).

(** [Sort(viewer)]; [materials] is the memory read by
    [mat->IsDepthSortingEnabled()]. *)
Definition Sort (materials : Materials) (viewer : Viewer.t) (layers : Layers) : Layers :=
  let nearPlane := Viewer.nearPlane viewer in
  let viewerPos := Viewer.eyePosition viewer in
  let viewerNormal := Viewer.forward viewer in
  (fun layer =>
     let transparentModels :=
       std_sort (transparent_comp nearPlane viewerNormal layer)
                (Layer.transparentModels layer) in
     let billboards :=
       map_imap
         (fun mat entry =>
            Some (if Material.depthSorting (materials mat)
                  then BatchedBillboardEntry.with_billboards
                         (std_sort (billboard_comp viewerPos)
                                   (BatchedBillboardEntry.billboards entry))
                         entry
                  else entry))
         (Layer.billboards layer) in
     Layer.with_billboards billboards
       (Layer.with_transparentModels transparentModels layer))
  <$> layers.

Definition OnIndexBufferInvalidation (indexBuffer : option IndexBufferPtr)
    (layers : Layers) : Layers :=
  (fun layer =>
     Layer.with_opaqueModels
       ((fun entry =>
           BatchedModelEntry.with_meshMap
             (filter (fun kv => MeshData.indexBuffer kv.1 <> indexBuffer)
                     (BatchedModelEntry.meshMap entry))
             entry)
        <$> Layer.opaqueModels layer)
       layer)
  <$> layers.

Definition OnMaterialInvalidation (material : MaterialPtr) (layers : Layers) : Layers :=
  (fun layer =>
     Layer.Build (delete material (Layer.billboards layer))
       (delete material (Layer.basicSprites layer))
       (delete material (Layer.opaqueModels layer))
       (Layer.transparentModels layer) (Layer.transparentModelData layer)
       (Layer.otherDrawables layer) (Layer.clearCount layer))
  <$> layers.

Definition OnTextureInvalidation (texture : option TexturePtr) (layers : Layers) : Layers :=
  (fun layer =>
     Layer.with_basicSprites
       ((fun entry =>
           BatchedBasicSpriteEntry.Build
             (BatchedBasicSpriteEntry.materialReleaseSlot entry)
             (delete texture (BatchedBasicSpriteEntry.overlayMap entry))
             (BatchedBasicSpriteEntry.enabled entry))
        <$> Layer.basicSprites layer)
       layer)
  <$> layers.

Definition OnVertexBufferInvalidation (vertexBuffer : VertexBufferPtr)
    (layers : Layers) : Layers :=
  (fun layer =>
     Layer.with_opaqueModels
       ((fun entry =>
           BatchedModelEntry.with_meshMap
             (filter (fun kv => MeshData.vertexBuffer kv.1 <> vertexBuffer)
                     (BatchedModelEntry.meshMap entry))
             entry)
        <$> Layer.opaqueModels layer)
       layer)
  <$> layers.

End Operations.

(** ** Calls and runs

    The three pointer parameters of [AddBillboards] that choose among its
    eight overloads. *)
Inductive BillboardSizes :=
| SizeVectors (sizePtr : nat -> Vector2f.t)
| SizeFloats (sizePtr : nat -> float).

Inductive BillboardRotations :=
| SinCosPairs (sinCosPtr : SparsePtr Vector2f.t)
| Angles (anglePtr : SparsePtr float).

Inductive BillboardTints :=
| Colors (colorPtr : SparsePtr Color.t)
| Alphas (alphaPtr : SparsePtr float).

(** A call of a member function of the queue.  A call that reads the
    materials carries the memory it finds them in. *)
Inductive Call :=
| CallAddBillboard (renderOrder : Z) (material : MaterialPtr) (position : Vector3f.t)
    (size sinCos : Vector2f.t) (color : Color.t)
| CallAddBillboards (renderOrder : Z) (material : MaterialPtr) (count : nat)
    (positionPtr : nat -> Vector3f.t) (sizes : BillboardSizes)
    (rotations : BillboardRotations) (tints : BillboardTints)
| CallAddDrawable (renderOrder : Z) (drawable : option DrawablePtr)
| CallAddMesh (materials : Materials) (renderOrder : Z) (material : MaterialPtr)
    (meshData : MeshData.t) (meshAABB : Boxf.t) (transformMatrix : Matrix4f.t)
| CallAddSprites (renderOrder : Z) (material : MaterialPtr) (vertices : VerticesPtr)
    (spriteCount : nat) (overlay : option TexturePtr)
| CallClear (fully : bool)
| CallSort (materials : Materials) (viewer : Viewer.t)
| CallOnIndexBufferInvalidation (indexBuffer : option IndexBufferPtr)
| CallOnMaterialInvalidation (material : MaterialPtr)
| CallOnTextureInvalidation (texture : option TexturePtr)
| CallOnVertexBufferInvalidation (vertexBuffer : VertexBufferPtr).

Section Runs.
Context `{Platform}.

(** Overload resolution of [AddBillboards]. *)
Definition AddBillboards_overload (renderOrder : Z) (material : MaterialPtr) (count : nat)
    (positionPtr : nat -> Vector3f.t) (sizes : BillboardSizes)
    (rotations : BillboardRotations) (tints : BillboardTints)
    (layers : Layers) : Layers :=
  match sizes, rotations, tints with
  | SizeVectors s, SinCosPairs r, Colors c =>
      AddBillboards renderOrder material count positionPtr s r c layers
  | SizeVectors s, SinCosPairs r, Alphas a =>
      AddBillboards_alpha renderOrder material count positionPtr s r a layers
  | SizeVectors s, Angles r, Colors c =>
      AddBillboards_angle renderOrder material count positionPtr s r c layers
  | SizeVectors s, Angles r, Alphas a =>
      AddBillboards_angle_alpha renderOrder material count positionPtr s r a layers
  | SizeFloats s, SinCosPairs r, Colors c =>
      AddBillboards_size renderOrder material count positionPtr s r c layers
  | SizeFloats s, SinCosPairs r, Alphas a =>
      AddBillboards_size_alpha renderOrder material count positionPtr s r a layers
  | SizeFloats s, Angles r, Colors c =>
      AddBillboards_size_angle renderOrder material count positionPtr s r c layers
  | SizeFloats s, Angles r, Alphas a =>
      AddBillboards_size_angle_alpha renderOrder material count positionPtr s r a layers
  end.

Definition exec (c : Call) (layers : Layers) : Layers :=
  match c with
  | CallAddBillboard renderOrder material position size sinCos color =>
      AddBillboard renderOrder material position size sinCos color layers
  | CallAddBillboards renderOrder material count positionPtr sizes rotations tints =>
      AddBillboards_overload renderOrder material count positionPtr sizes rotations tints
        layers
  | CallAddDrawable renderOrder drawable => AddDrawable renderOrder drawable layers
  | CallAddMesh materials renderOrder material meshData meshAABB transformMatrix =>
      AddMesh materials renderOrder material meshData meshAABB transformMatrix layers
  | CallAddSprites renderOrder material vertices spriteCount overlay =>
      AddSprites renderOrder material vertices spriteCount overlay layers
  | CallClear fully => Clear fully layers
  | CallSort materials viewer => Sort materials viewer layers
  | CallOnIndexBufferInvalidation indexBuffer => OnIndexBufferInvalidation indexBuffer layers
  | CallOnMaterialInvalidation material => OnMaterialInvalidation material layers
  | CallOnTextureInvalidation texture => OnTextureInvalidation texture layers
  | CallOnVertexBufferInvalidation vertexBuffer =>
      OnVertexBufferInvalidation vertexBuffer layers
  end.

(** The calls of a list made one after the other. *)
Definition run (calls : list Call) (layers : Layers) : Layers :=
  foldl (fun layers c => exec c layers) layers calls.

End Runs.

(** ** Views of the state the statements use *)

(** The billboards batched for a material in a layer. *)
Definition billboards_of (layers : Layers) (renderOrder : Z) (material : MaterialPtr)
    : list BillboardData.t :=
  match layers !! renderOrder with
  | Some layer =>
      match Layer.billboards layer !! material with
      | Some entry => BatchedBillboardEntry.billboards entry
      | None => []
      end
  | None => []
  end.

(** The opaque batch entry of a material in a layer. *)
Definition opaque_entry (layers : Layers) (renderOrder : Z) (material : MaterialPtr)
    : option BatchedModelEntry.t :=
  match layers !! renderOrder with
  | Some layer => Layer.opaqueModels layer !! material
  | None => None
  end.

(** An entry of a layer that holds a pointer to [material]: a key of one
    of the three batch maps, or the material of a transparent model. *)
Definition references (material : MaterialPtr) (layer : Layer.t) : Prop :=
  is_Some (Layer.opaqueModels layer !! material)
  \/ is_Some (Layer.basicSprites layer !! material)
  \/ is_Some (Layer.billboards layer !! material)
  \/ Exists (fun data => TransparentModelData.material data = material)
            (Layer.transparentModelData layer).

(** Modelled from the spec: "alpha = round(255×alpha)", rounding to the
    nearest integer. *)
Definition round_nearest (x : float) : Z := Qfloor (x + (1 # 2))%Q.

(** A platform to run examples on: a threshold of 10 instances, and
    polynomials, in lowest terms, in the place of the sine and the
    cosine. *)
Definition example_platform : Platform := {|
  NAZARA_GRAPHICS_INSTANCING_MIN_INSTANCES_COUNT := 10;
  std_sin := fun x => Qred x;
  std_cos := fun x => Qred (1 - x * x * (1 # 2));
  ToRadians := fun d => Qred (d * (355 # 20340));
  std_sin_ToRadians_0 := eq_refl;
  std_cos_ToRadians_0 := eq_refl
|}.

(** ** Definitions the statements and the proofs use *)

(** A comparator of the shape both sorts of [Sort] use: greater key first. *)
Definition key_comp {A : Type} (key : A -> float) (a b : A) : bool :=
  float_gt (key a) (key b).

(** The order of a list sorted by descending key: [a] may come before [b]. *)
Definition descending {A : Type} (key : A -> float) : relation A :=
  fun a b => (key b <= key a)%Q.

Section Statements.
Context `{Platform}.

(** *** What the statements speak of *)

(** The billboard batch entry of a material in a layer. *)
Definition billboard_entry (layers : Layers) (renderOrder : Z) (material : MaterialPtr)
    : option BatchedBillboardEntry.t :=
  match layers !! renderOrder with
  | Some layer => Layer.billboards layer !! material
  | None => None
  end.

(** The distance [Sort] compares for a transparent model of a layer: the
    signed distance from the near plane of the viewer to the center of the
    stored sphere moved back, along the forward direction of the viewer,
    by the value stored as its radius, which is the squared radius of the
    box of the mesh. *)
Definition compared_distance (viewer : Viewer.t) (layer : Layer.t) (index : nat)
    : float :=
  transparent_distance (Viewer.nearPlane viewer) (Viewer.forward viewer) layer index.

(** [radius] is the radius of the bounding sphere of a transparent model,
    of which the queue stores the square. *)
Definition bounding_radius (data : TransparentModelData.t) (radius : float) : Prop :=
  (0 <= radius)%Q
  /\ (radius * radius
      == Spheref.radius (TransparentModelData.squaredBoundingSphere data))%Q.

(** The signed distance from the near plane of the viewer to the negative
    vertex, relative to the forward direction of the viewer, of the
    bounding sphere of a transparent model: the sphere of the stored
    center and of radius [radius]. *)
Definition negative_vertex_distance (viewer : Viewer.t) (data : TransparentModelData.t)
    (radius : float) : float :=
  Planef.Distance (Viewer.nearPlane viewer)
    (Spheref.GetNegativeVertex
       (Spheref.make
          (Spheref.GetPosition (TransparentModelData.squaredBoundingSphere data))
          radius)
       (Viewer.forward viewer)).

(** The squared distance from the eye of the viewer to a billboard. *)
Definition eye_distance (viewer : Viewer.t) (data : BillboardData.t) : float :=
  Vector3f.SquaredDistance (Viewer.eyePosition viewer) (BillboardData.center data).

(** The distances [Sort] compares, of the transparent models of a layer,
    in the order of the list, in lowest terms. *)
Definition yielded_distances (viewer : Viewer.t) (layers : Layers) (k : Z) : list float :=
  match layers !! k with
  | Some layer => Qred <$> (compared_distance viewer layer <$> Layer.transparentModels layer)
  | None => []
  end.

(** A call of [AddMesh] whose material does not blend. *)
Definition opaque_AddMesh (c : Call) : Prop :=
  match c with
  | CallAddMesh materials _ material _ _ _ => Material.blend (materials material) = false
  | _ => False
  end.

(** Some mesh entry of the batch has reached the threshold. *)
Definition some_mesh_reached (entry : BatchedModelEntry.t) : Prop :=
  exists (meshData : MeshData.t) (instanceEntry : MeshInstanceEntry.t),
    BatchedModelEntry.meshMap entry !! meshData = Some instanceEntry
    /\ (NAZARA_GRAPHICS_INSTANCING_MIN_INSTANCES_COUNT
        <= length (MeshInstanceEntry.instances instanceEntry))%nat.

(** The flag of every opaque batch tells whether one of its meshes has. *)
Definition flags_follow_counts (layers : Layers) : Prop :=
  forall (k : Z) (m : MaterialPtr) (entry : BatchedModelEntry.t),
    opaque_entry layers k m = Some entry ->
    BatchedModelEntry.instancingEnabled entry = true <-> some_mesh_reached entry.

(** The indices of the transparent list of a layer are the positions of
    its data, each once. *)
Definition transparent_indexed (layer : Layer.t) : Prop :=
  Layer.transparentModels layer ≡ₚ seq 0 (length (Layer.transparentModelData layer)).

(** ... in every layer of the queue. *)
Definition all_indexed (layers : Layers) : Prop :=
  forall (k : Z) (layer : Layer.t), layers !! k = Some layer -> transparent_indexed layer.

(** *** What a call amounts to *)

(** The entry a billboard call finds, or makes, for its material. *)
Definition found_billboards (layers : Layers) (k : Z) (m : MaterialPtr)
    : BatchedBillboardEntry.t :=
  match Layer.billboards (default Layer.new (layers !! k)) !! m with
  | Some entry => entry
  | None => BatchedBillboardEntry.Build (Some m) []
  end.

(** What iteration [i] of the loop of an overload writes. *)
Definition overload_item (positionPtr : nat -> Vector3f.t) (sizes : BillboardSizes)
    (rotations : BillboardRotations) (tints : BillboardTints) (i : nat)
    : BillboardData.t :=
  BillboardData.Build
    match tints with
    | Colors colorPtr => reset_if_null colorPtr Color.White i
    | Alphas alphaPtr =>
        Color.Build 255 255 255 (float_to_UInt8 (255 * reset_if_null alphaPtr 1%Q i))
    end
    (positionPtr i)
    match sizes with
    | SizeVectors sizePtr => sizePtr i
    | SizeFloats sizePtr => Vector2f.Set1 (sizePtr i)
    end
    match rotations with
    | SinCosPairs sinCosPtr => reset_if_null sinCosPtr (Vector2f.Build 0 1) i
    | Angles anglePtr =>
        Vector2f.Build (std_sin (ToRadians (reset_if_null anglePtr 0%Q i)))
                       (std_cos (ToRadians (reset_if_null anglePtr 0%Q i)))
    end.

(** The sphere [AddMesh] gives a transparent model. *)
Definition transparent_sphere (meshAABB : Boxf.t) (transformMatrix : Matrix4f.t)
    : Spheref.t :=
  Spheref.make
    (Vector3f.add (Matrix4f.GetTranslation transformMatrix) (Boxf.GetCenter meshAABB))
    (Boxf.GetSquaredRadius meshAABB).

(** The opaque batch entry [AddMesh] finds, or makes, for its material. *)
Definition found_opaque (layers : Layers) (k : Z) (m : MaterialPtr) : BatchedModelEntry.t :=
  match opaque_entry layers k m with
  | Some entry => entry
  | None => BatchedModelEntry.Build (Some m) ∅ false false
  end.

(** The mesh entry it finds, or makes, in that batch. *)
Definition found_instances (layers : Layers) (k : Z) (m : MaterialPtr)
    (meshData : MeshData.t) (meshAABB : Boxf.t) : MeshInstanceEntry.t :=
  match BatchedModelEntry.meshMap (found_opaque layers k m) !! meshData with
  | Some instanceEntry => instanceEntry
  | None =>
      MeshInstanceEntry.Build (MeshData.indexBuffer meshData)
        (Some (MeshData.vertexBuffer meshData)) []
        (GetSquaredBoundingSphere meshAABB)
  end.

(** The opaque batch entry as [AddMesh] leaves it. *)
Definition added_opaque (layers : Layers) (k : Z) (m : MaterialPtr)
    (meshData : MeshData.t) (meshAABB : Boxf.t) (transformMatrix : Matrix4f.t)
    : BatchedModelEntry.t :=
  let entry := found_opaque layers k m in
  let instanceEntry := found_instances layers k m meshData meshAABB in
  let instances := MeshInstanceEntry.instances instanceEntry ++ [transformMatrix] in
  BatchedModelEntry.Build
    (BatchedModelEntry.materialReleaseSlot entry)
    (<[meshData :=
         MeshInstanceEntry.Build
           (MeshInstanceEntry.indexBufferReleaseSlot instanceEntry)
           (MeshInstanceEntry.vertexBufferReleaseSlot instanceEntry)
           instances
           (MeshInstanceEntry.squaredBoundingSphere instanceEntry)]>
       (BatchedModelEntry.meshMap entry))
    true
    (if (NAZARA_GRAPHICS_INSTANCING_MIN_INSTANCES_COUNT <=? length instances)%nat
     then true else BatchedModelEntry.instancingEnabled entry).

(** What [Sort] makes of a layer, for a viewer. *)
Definition sorted_layer (materials : Materials) (viewer : Viewer.t) (layer : Layer.t)
    : Layer.t :=
  Layer.with_billboards
    (map_imap
       (fun mat entry =>
          Some (if Material.depthSorting (materials mat)
                then BatchedBillboardEntry.with_billboards
                       (std_sort (billboard_comp (Viewer.eyePosition viewer))
                                 (BatchedBillboardEntry.billboards entry))
                       entry
                else entry))
       (Layer.billboards layer))
    (Layer.with_transparentModels
       (std_sort
          (transparent_comp (Viewer.nearPlane viewer) (Viewer.forward viewer) layer)
          (Layer.transparentModels layer))
       layer).

End Statements.

(** ** Inputs for the examples *)

(** A box of side 2 around the origin of the mesh (its squared radius is
    3), two meshes, and the transform that places a mesh at height [z]. *)
Definition cube : Boxf.t := Boxf.Build (-1) (-1) (-1) 2 2 2.
Definition mesh_a : MeshData.t := MeshData.Build None 1%positive 0%nat.
Definition mesh_b : MeshData.t := MeshData.Build (Some 5%positive) 6%positive 0%nat.
Definition at_height (z : Z) : Matrix4f.t :=
  Matrix4f.MakeTranslation (Vector3f.Build 0 0 (inject_Z z)).

(** A viewer at the origin that looks along +z, with its near plane at
    z = 1.  For the box above placed at height z, the negative vertex of
    the sphere is at height z - 3, at distance z - 4 from the plane. *)
Definition example_viewer : Viewer.t :=
  Viewer.Build (Planef.Build (Vector3f.Build 0 0 1) 1)
               (Vector3f.Build 0 0 0) (Vector3f.Build 0 0 1).

(** Every material blends. *)
Definition blending_materials : Materials := fun _ => Material.Build true false.

(** A transparent submission of the box at height [z], in layer 0. *)
Definition submit_transparent_at (z : Z) : Call :=
  CallAddMesh blending_materials 0 1%positive mesh_a cube (at_height z).

(** Two boxes around the origin of their mesh, of half diagonal 1/2 (of
    square 1/4) and of half diagonal 2 (of square 4). *)
Definition small_box : Boxf.t :=
  Boxf.Build (-1 # 6) (-1 # 3) (-1 # 3) (1 # 3) (2 # 3) (2 # 3).
Definition large_box : Boxf.t :=
  Boxf.Build (-2 # 3) (-4 # 3) (-4 # 3) (4 # 3) (8 # 3) (8 # 3).

(** Two transparent submissions to layer 0: the small box at height 10,
    then the large box at height 12.  For the viewer above the nearest
    points of their bounding spheres are at heights 19/2 and 10, at
    distances 17/2 and 9 from the near plane. *)
Definition near_small_far_large : list Call :=
  [CallAddMesh blending_materials 0 1%positive mesh_a small_box (at_height 10);
   CallAddMesh blending_materials 0 1%positive mesh_b large_box (at_height 12)].

(** No material blends; every material asks for depth sorting. *)
Definition opaque_materials : Materials := fun _ => Material.Build false true.

(** Ten instances of one mesh and one instance of another, all with
    material 2, which does not blend, in layer 0. *)
Definition ten_and_one : list Call :=
  replicate 10 (CallAddMesh opaque_materials 0 2%positive mesh_a cube (at_height 1))
  ++ [CallAddMesh opaque_materials 0 2%positive mesh_b cube (at_height 1)].

(** Material 3 asks for depth sorting, the others do not. *)
Definition sorting_materials : Materials :=
  fun material => Material.Build false (Pos.eqb material 3).

(** Three billboards of a material, at heights 1, 3 and 2, in layer 0. *)
Definition three_billboards (material : MaterialPtr) : Call :=
  CallAddBillboards 0 material 3
    (fun i => Vector3f.Build 0 0 (inject_Z (nth i [1; 3; 2]%Z 0%Z)))
    (SizeFloats (fun _ => 1%Q)) (SinCosPairs None) (Colors None).

(** The heights of the billboards of a batch, in the order of its vector. *)
Definition heights (entry : BatchedBillboardEntry.t) : list float :=
  (fun data => Vector3f.z (BillboardData.center data))
  <$> BatchedBillboardEntry.billboards entry.

(** Sprites of one material with two overlay textures, 7 and 8. *)
Definition two_overlays : list Call :=
  [CallAddSprites 0 2%positive 20%positive 4 (Some 7%positive);
   CallAddSprites 0 2%positive 21%positive 6 (Some 8%positive)].

(** ** The comparators of the batch maps *)

(** Modelled from the spec: the values of the shader flags (an enumeration
    of the renderer, not among the sources); [ShaderFlags_None] is the
    default argument of [Material::GetShaderInstance]. *)
Class ShaderFlags := {
  ShaderFlags_None : N;
  ShaderFlags_Billboard : N;
  ShaderFlags_VertexColor : N
}.

Module MaterialIdentity.
(** Modelled from the spec: what a [Material] "exposes" to the comparators,
    its "shader program identity" ([GetShader()]), its "shader-instance
    identity" ([GetShaderInstance(flags)->GetShader()], for each value of
    the flags) and its "primary texture identity" ([GetDiffuseMap()]).
    Each is a pointer, given by its address (0 for a null pointer). *)
Record t := Build { GetShader : N;
                    GetShaderInstance : N -> N;
                    GetDiffuseMap : N }.
End MaterialIdentity.

Module BufferStorage.
(** Modelled from the spec: what the comparator of mesh data reads through
    the buffers of a mesh, "index-buffer identity" and "vertex-buffer
    identity": [IndexBuffer::GetBuffer()] and [VertexBuffer::GetBuffer()],
    the address of the storage of each buffer. *)
Record t := Build { ofIndexBuffer : IndexBufferPtr -> N;
                    ofVertexBuffer : VertexBufferPtr -> N }.
End BufferStorage.

Section Comparators.
Context `{ShaderFlags}.

(** [BatchedBillboardComparator::operator()]; [materials] is the memory
    the two pointers are read through. *)
Definition BatchedBillboardComparator (materials : MaterialPtr -> MaterialIdentity.t)
    (mat1 mat2 : MaterialPtr) : bool :=
  let uberShader1 := MaterialIdentity.GetShader (materials mat1) in
  let uberShader2 := MaterialIdentity.GetShader (materials mat2) in
  if negb (uberShader1 =? uberShader2)%N then (uberShader1 <? uberShader2)%N
  else
    let shader1 :=
      MaterialIdentity.GetShaderInstance (materials mat1)
        (N.lor ShaderFlags_Billboard ShaderFlags_VertexColor) in
    let shader2 :=
      MaterialIdentity.GetShaderInstance (materials mat2)
        (N.lor ShaderFlags_Billboard ShaderFlags_VertexColor) in
    if negb (shader1 =? shader2)%N then (shader1 <? shader2)%N
    else
      let diffuseMap1 := MaterialIdentity.GetDiffuseMap (materials mat1) in
      let diffuseMap2 := MaterialIdentity.GetDiffuseMap (materials mat2) in
      if negb (diffuseMap1 =? diffuseMap2)%N then (diffuseMap1 <? diffuseMap2)%N
      else (mat1 <? mat2)%positive.

(** [BatchedModelMaterialComparator::operator()] *)
Definition BatchedModelMaterialComparator (materials : MaterialPtr -> MaterialIdentity.t)
    (mat1 mat2 : MaterialPtr) : bool :=
  let uberShader1 := MaterialIdentity.GetShader (materials mat1) in
  let uberShader2 := MaterialIdentity.GetShader (materials mat2) in
  if negb (uberShader1 =? uberShader2)%N then (uberShader1 <? uberShader2)%N
  else
    let shader1 := MaterialIdentity.GetShaderInstance (materials mat1) ShaderFlags_None in
    let shader2 := MaterialIdentity.GetShaderInstance (materials mat2) ShaderFlags_None in
    if negb (shader1 =? shader2)%N then (shader1 <? shader2)%N
    else
      let diffuseMap1 := MaterialIdentity.GetDiffuseMap (materials mat1) in
      let diffuseMap2 := MaterialIdentity.GetDiffuseMap (materials mat2) in
      if negb (diffuseMap1 =? diffuseMap2)%N then (diffuseMap1 <? diffuseMap2)%N
      else (mat1 <? mat2)%positive.

(** [BatchedSpriteMaterialComparator::operator()] *)
Definition BatchedSpriteMaterialComparator (materials : MaterialPtr -> MaterialIdentity.t)
    (mat1 mat2 : MaterialPtr) : bool :=
  let uberShader1 := MaterialIdentity.GetShader (materials mat1) in
  let uberShader2 := MaterialIdentity.GetShader (materials mat2) in
  if negb (uberShader1 =? uberShader2)%N then (uberShader1 <? uberShader2)%N
  else
    let shader1 := MaterialIdentity.GetShaderInstance (materials mat1) ShaderFlags_None in
    let shader2 := MaterialIdentity.GetShaderInstance (materials mat2) ShaderFlags_None in
    if negb (shader1 =? shader2)%N then (shader1 <? shader2)%N
    else
      let diffuseMap1 := MaterialIdentity.GetDiffuseMap (materials mat1) in
      let diffuseMap2 := MaterialIdentity.GetDiffuseMap (materials mat2) in
      if negb (diffuseMap1 =? diffuseMap2)%N then (diffuseMap1 <? diffuseMap2)%N
      else (mat1 <? mat2)%positive.

End Comparators.

(** [MeshDataComparator::operator()]; [storage] is the memory the buffers
    are read through. *)
Definition MeshDataComparator (storage : BufferStorage.t) (data1 data2 : MeshData.t)
    : bool :=
  let buffer1 :=
    match MeshData.indexBuffer data1 with
    | Some indexBuffer => BufferStorage.ofIndexBuffer storage indexBuffer
    | None => 0%N
    end in
  let buffer2 :=
    match MeshData.indexBuffer data2 with
    | Some indexBuffer => BufferStorage.ofIndexBuffer storage indexBuffer
    | None => 0%N
    end in
  if negb (buffer1 =? buffer2)%N then (buffer1 <? buffer2)%N
  else
    let buffer1 := BufferStorage.ofVertexBuffer storage (MeshData.vertexBuffer data1) in
    let buffer2 := BufferStorage.ofVertexBuffer storage (MeshData.vertexBuffer data2) in
    if negb (buffer1 =? buffer2)%N then (buffer1 <? buffer2)%N
    else (MeshData.primitiveMode data1 <? MeshData.primitiveMode data2)%nat.

(** A comparator that orders any two different keys: what a [std::map]
    needs of it, with no two different keys equivalent. *)
Definition strict_total_order {A : Type} (comp : A -> A -> bool) : Prop :=
  (forall a, comp a a = false)
  /\ (forall a b c, comp a b = true -> comp b c = true -> comp a c = true)
  /\ (forall a b, comp a b = false -> comp b a = false -> a = b).

(** The keys a comparator does not separate. *)
Definition equivalent_keys {A : Type} (comp : A -> A -> bool) (a b : A) : Prop :=
  comp a b = false /\ comp b a = false.

(** What [MeshDataComparator] compares of a mesh. *)
Definition mesh_storage (storage : BufferStorage.t) (data : MeshData.t) : N * N * nat :=
  (match MeshData.indexBuffer data with
   | Some indexBuffer => BufferStorage.ofIndexBuffer storage indexBuffer
   | None => 0%N
   end,
   BufferStorage.ofVertexBuffer storage (MeshData.vertexBuffer data),
   MeshData.primitiveMode data).

(** ** Submissions, layer by layer *)

(** The layer a submission finds under a render order: the layer of the
    map, or [Layer()]. *)
Definition layer_or_new (layers : Layers) (k : Z) : Layer.t :=
  default Layer.new (layers !! k).

(** The calls that submit to the queue: the [Add*] functions. *)
Definition submission (c : Call) : Prop :=
  match c with
  | CallAddBillboard _ _ _ _ _ _ | CallAddBillboards _ _ _ _ _ _ _
  | CallAddDrawable _ _ | CallAddMesh _ _ _ _ _ _ | CallAddSprites _ _ _ _ _ => True
  | _ => False
  end.

(** The layer a submission calls [GetLayer] for; a null drawable is
    refused before any layer is asked for. *)
Definition target (c : Call) : option Z :=
  match c with
  | CallAddBillboard renderOrder _ _ _ _ _ => Some renderOrder
  | CallAddBillboards renderOrder _ _ _ _ _ _ => Some renderOrder
  | CallAddDrawable renderOrder (Some _) => Some renderOrder
  | CallAddMesh _ renderOrder _ _ _ _ => Some renderOrder
  | CallAddSprites renderOrder _ _ _ _ => Some renderOrder
  | _ => None
  end.

(** The mesh entry of a mesh in the opaque batch of a material. *)
Definition mesh_entry_in (layer : Layer.t) (material : MaterialPtr) (meshData : MeshData.t)
    : option MeshInstanceEntry.t :=
  match Layer.opaqueModels layer !! material with
  | Some entry => BatchedModelEntry.meshMap entry !! meshData
  | None => None
  end.

Definition mesh_entry (layers : Layers) (renderOrder : Z) (material : MaterialPtr)
    (meshData : MeshData.t) : option MeshInstanceEntry.t :=
  mesh_entry_in (layer_or_new layers renderOrder) material meshData.

(** The instances batched for a mesh. *)
Definition instances_of (layers : Layers) (renderOrder : Z) (material : MaterialPtr)
    (meshData : MeshData.t) : list Matrix4f.t :=
  match mesh_entry layers renderOrder material meshData with
  | Some instanceEntry => MeshInstanceEntry.instances instanceEntry
  | None => []
  end.

(** The bucket of an overlay texture in the sprite batch of a material. *)
Definition sprite_bucket_in (layer : Layer.t) (material : MaterialPtr)
    (overlay : option TexturePtr) : option BatchedSpriteEntry.t :=
  match Layer.basicSprites layer !! material with
  | Some entry => BatchedBasicSpriteEntry.overlayMap entry !! overlay
  | None => None
  end.

Definition sprite_bucket (layers : Layers) (renderOrder : Z) (material : MaterialPtr)
    (overlay : option TexturePtr) : option BatchedSpriteEntry.t :=
  sprite_bucket_in (layer_or_new layers renderOrder) material overlay.

(** The billboards batched for a material. *)
Definition billboards_in (layer : Layer.t) (material : MaterialPtr) : list BillboardData.t :=
  match Layer.billboards layer !! material with
  | Some entry => BatchedBillboardEntry.billboards entry
  | None => []
  end.

(** The custom drawables of a layer. *)
Definition drawables_of (layers : Layers) (renderOrder : Z) : list DrawablePtr :=
  Layer.otherDrawables (layer_or_new layers renderOrder).

(** What a call submits to the opaque batch of a mesh: the box and the
    transform of an [AddMesh] for that layer, material and mesh whose
    material does not blend. *)
Definition mesh_submission (k : Z) (m : MaterialPtr) (md : MeshData.t) (c : Call)
    : list (Boxf.t * Matrix4f.t) :=
  match c with
  | CallAddMesh materials renderOrder material meshData meshAABB transformMatrix =>
      if bool_decide (renderOrder = k /\ material = m /\ meshData = md)
         && negb (Material.blend (materials material))
      then [(meshAABB, transformMatrix)]
      else []
  | _ => []
  end.

(** What a call submits to the mesh entry that [MeshDataComparator] finds
    for a mesh: the box and the transform of an [AddMesh] for that layer
    and material, with a material that does not blend and a mesh that the
    comparator does not separate from the mesh. *)
Definition equivalent_mesh_submission (storage : BufferStorage.t) (k : Z) (m : MaterialPtr)
    (md : MeshData.t) (c : Call) : list (Boxf.t * Matrix4f.t) :=
  match c with
  | CallAddMesh materials renderOrder material meshData meshAABB transformMatrix =>
      if bool_decide (renderOrder = k /\ material = m
                      /\ equivalent_keys (MeshDataComparator storage) meshData md)
         && negb (Material.blend (materials material))
      then [(meshAABB, transformMatrix)]
      else []
  | _ => []
  end.

(** The mesh entry a list of submissions makes: the slots connected to the
    buffers of the mesh, the transforms in the order of submission, and the
    squared bounding sphere of the box of the first one. *)
Definition batch_of (md : MeshData.t) (submitted : list (Boxf.t * Matrix4f.t))
    : option MeshInstanceEntry.t :=
  match submitted with
  | [] => None
  | (meshAABB, _) :: _ =>
      Some (MeshInstanceEntry.Build (MeshData.indexBuffer md)
              (Some (MeshData.vertexBuffer md))
              (snd <$> submitted)
              (GetSquaredBoundingSphere meshAABB))
  end.

(** A mesh entry with one more submission: the entry found with the
    transform at the end of its instances, or a new entry for the box. *)
Definition extend_batch (md : MeshData.t) (found : option MeshInstanceEntry.t)
    (meshAABB : Boxf.t) (transformMatrix : Matrix4f.t) : MeshInstanceEntry.t :=
  let instanceEntry :=
    match found with
    | Some instanceEntry => instanceEntry
    | None =>
        MeshInstanceEntry.Build (MeshData.indexBuffer md)
          (Some (MeshData.vertexBuffer md)) []
          (GetSquaredBoundingSphere meshAABB)
    end in
  MeshInstanceEntry.Build
    (MeshInstanceEntry.indexBufferReleaseSlot instanceEntry)
    (MeshInstanceEntry.vertexBufferReleaseSlot instanceEntry)
    (MeshInstanceEntry.instances instanceEntry ++ [transformMatrix])
    (MeshInstanceEntry.squaredBoundingSphere instanceEntry).

(** A mesh entry after more submissions. *)
Definition extend_with (md : MeshData.t) (found : option MeshInstanceEntry.t)
    (submitted : list (Boxf.t * Matrix4f.t)) : option MeshInstanceEntry.t :=
  foldl (fun found s => Some (extend_batch md found s.1 s.2)) found submitted.

(** A bucket after more chains. *)
Definition extend_bucket (o : option TexturePtr) (found : option BatchedSpriteEntry.t)
    (submitted : list SpriteChain.t) : option BatchedSpriteEntry.t :=
  match submitted with
  | [] => found
  | _ =>
      Some (BatchedSpriteEntry.Build
              match found with
              | Some overlayEntry => BatchedSpriteEntry.textureReleaseSlot overlayEntry
              | None => o
              end
              (match found with
               | Some overlayEntry => BatchedSpriteEntry.spriteChains overlayEntry
               | None => []
               end ++ submitted))
  end.

(** What a call submits to the bucket of an overlay texture. *)
Definition sprite_submission (k : Z) (m : MaterialPtr) (o : option TexturePtr) (c : Call)
    : list SpriteChain.t :=
  match c with
  | CallAddSprites renderOrder material vertices spriteCount overlay =>
      if bool_decide (renderOrder = k /\ material = m /\ overlay = o)
      then [SpriteChain.Build vertices spriteCount]
      else []
  | _ => []
  end.

(** The bucket a list of chains makes: the slot connected to the overlay
    texture (to nothing where there is no overlay), the chains in the order
    of submission. *)
Definition bucket_of (o : option TexturePtr) (submitted : list SpriteChain.t)
    : option BatchedSpriteEntry.t :=
  match submitted with
  | [] => None
  | _ => Some (BatchedSpriteEntry.Build o submitted)
  end.

(** What a call submits to the custom drawables of a layer. *)
Definition drawable_submission (k : Z) (c : Call) : list DrawablePtr :=
  match c with
  | CallAddDrawable renderOrder (Some drawable) =>
      if bool_decide (renderOrder = k) then [drawable] else []
  | _ => []
  end.

Section Submissions.
Context `{Platform}.

(** What a submission makes of the layer [GetLayer] gives it. *)
Definition submit_layer (c : Call) (layer : Layer.t) : Layer.t :=
  match c with
  | CallAddBillboard _ material position size sinCos color =>
      let billboards := Layer.billboards layer in
      let entry :=
        match billboards !! material with
        | Some entry => entry
        | None => BatchedBillboardEntry.Build (Some material) []
        end in
      Layer.with_billboards
        (<[material :=
             BatchedBillboardEntry.with_billboards
               (BatchedBillboardEntry.billboards entry
                  ++ [BillboardData.Build color position size sinCos])
               entry]> billboards)
        layer
  | CallAddBillboards _ material count positionPtr sizes rotations tints =>
      let billboards := Layer.billboards layer in
      let entry :=
        match billboards !! material with
        | Some entry => entry
        | None => BatchedBillboardEntry.Build (Some material) []
        end in
      Layer.with_billboards
        (<[material :=
             BatchedBillboardEntry.Build
               (BatchedBillboardEntry.materialReleaseSlot entry)
               (BatchedBillboardEntry.billboards entry
                  ++ (overload_item positionPtr sizes rotations tints <$> seq 0 count))]>
           billboards)
        layer
  | CallAddDrawable _ (Some drawable) =>
      Layer.Build (Layer.billboards layer) (Layer.basicSprites layer)
        (Layer.opaqueModels layer) (Layer.transparentModels layer)
        (Layer.transparentModelData layer)
        (Layer.otherDrawables layer ++ [drawable]) (Layer.clearCount layer)
  | CallAddMesh materials _ material meshData meshAABB transformMatrix =>
      if Material.blend (materials material) then
        Layer.Build (Layer.billboards layer) (Layer.basicSprites layer)
          (Layer.opaqueModels layer)
          (Layer.transparentModels layer ++ [length (Layer.transparentModelData layer)])
          (Layer.transparentModelData layer
             ++ [TransparentModelData.Build transformMatrix meshData
                   (transparent_sphere meshAABB transformMatrix) material])
          (Layer.otherDrawables layer) (Layer.clearCount layer)
      else
        let opaqueModels := Layer.opaqueModels layer in
        let entry :=
          match opaqueModels !! material with
          | Some entry => entry
          | None => BatchedModelEntry.Build (Some material) ∅ false false
          end in
        let meshMap := BatchedModelEntry.meshMap entry in
        let instanceEntry :=
          extend_batch meshData (meshMap !! meshData) meshAABB transformMatrix in
        Layer.with_opaqueModels
          (<[material :=
               BatchedModelEntry.Build
                 (BatchedModelEntry.materialReleaseSlot entry)
                 (<[meshData := instanceEntry]> meshMap)
                 true
                 (if (NAZARA_GRAPHICS_INSTANCING_MIN_INSTANCES_COUNT
                      <=? length (MeshInstanceEntry.instances instanceEntry))%nat
                  then true
                  else BatchedModelEntry.instancingEnabled entry)]> opaqueModels)
          layer
  | CallAddSprites _ material vertices spriteCount overlay =>
      let basicSprites := Layer.basicSprites layer in
      let entry :=
        match basicSprites !! material with
        | Some entry => entry
        | None => BatchedBasicSpriteEntry.Build (Some material) ∅ false
        end in
      let overlayMap := BatchedBasicSpriteEntry.overlayMap entry in
      let overlayEntry :=
        match overlayMap !! overlay with
        | Some overlayEntry => overlayEntry
        | None => BatchedSpriteEntry.Build overlay []
        end in
      Layer.with_basicSprites
        (<[material :=
             BatchedBasicSpriteEntry.Build
               (BatchedBasicSpriteEntry.materialReleaseSlot entry)
               (<[overlay :=
                    BatchedSpriteEntry.Build
                      (BatchedSpriteEntry.textureReleaseSlot overlayEntry)
                      (BatchedSpriteEntry.spriteChains overlayEntry
                         ++ [SpriteChain.Build vertices spriteCount])]> overlayMap)
               true]> basicSprites)
        layer
  | _ => layer
  end.

(** What a call submits to the billboard batch of a material. *)
Definition billboard_submission (k : Z) (m : MaterialPtr) (c : Call) : list BillboardData.t :=
  match c with
  | CallAddBillboard renderOrder material position size sinCos color =>
      if bool_decide (renderOrder = k /\ material = m)
      then [BillboardData.Build color position size sinCos]
      else []
  | CallAddBillboards renderOrder material count positionPtr sizes rotations tints =>
      if bool_decide (renderOrder = k /\ material = m)
      then overload_item positionPtr sizes rotations tints <$> seq 0 count
      else []
  | _ => []
  end.

End Submissions.

(** ** Pointers moved forward *)

(** [ptr + n] on the sequence a pointer points to. *)
Definition advance {T : Type} (n : nat) (ptr : nat -> T) : nat -> T :=
  fun i => ptr (n + i)%nat.

(** [ptr + n] on a sparse pointer that may be null (a null pointer is
    given as it is to the next call). *)
Definition advance_sparse {T : Type} (n : nat) (ptr : SparsePtr T) : SparsePtr T :=
  advance n <$> ptr.

Definition advance_sizes (n : nat) (sizes : BillboardSizes) : BillboardSizes :=
  match sizes with
  | SizeVectors sizePtr => SizeVectors (advance n sizePtr)
  | SizeFloats sizePtr => SizeFloats (advance n sizePtr)
  end.

Definition advance_rotations (n : nat) (rotations : BillboardRotations)
    : BillboardRotations :=
  match rotations with
  | SinCosPairs sinCosPtr => SinCosPairs (advance_sparse n sinCosPtr)
  | Angles anglePtr => Angles (advance_sparse n anglePtr)
  end.

Definition advance_tints (n : nat) (tints : BillboardTints) : BillboardTints :=
  match tints with
  | Colors colorPtr => Colors (advance_sparse n colorPtr)
  | Alphas alphaPtr => Alphas (advance_sparse n alphaPtr)
  end.

(** ** Resources the queue has not indexed *)

(** No batch of the queue is keyed by the material. *)
Definition material_unknown (material : MaterialPtr) (layers : Layers) : Prop :=
  forall (k : Z) (layer : Layer.t),
    layers !! k = Some layer ->
    Layer.billboards layer !! material = None
    /\ Layer.basicSprites layer !! material = None
    /\ Layer.opaqueModels layer !! material = None.

(** No bucket of a sprite batch is keyed by the texture. *)
Definition texture_unknown (texture : option TexturePtr) (layers : Layers) : Prop :=
  forall (k : Z) (layer : Layer.t) (m : MaterialPtr) (entry : BatchedBasicSpriteEntry.t),
    layers !! k = Some layer ->
    Layer.basicSprites layer !! m = Some entry ->
    BatchedBasicSpriteEntry.overlayMap entry !! texture = None.

(** No mesh entry of an opaque batch is keyed by a mesh of the property. *)
Definition no_mesh_with (P : MeshData.t -> Prop) (layers : Layers) : Prop :=
  forall (k : Z) (m : MaterialPtr) (entry : BatchedModelEntry.t) (md : MeshData.t),
    opaque_entry layers k m = Some entry ->
    is_Some (BatchedModelEntry.meshMap entry !! md) ->
    ~ P md.

(** ** More inputs for the examples *)

(** A frame of submissions to layers 0 and 1: two instances of one mesh and
    one of another under material 2, which does not blend; two chains of
    sprites with the overlay texture 7 and one with none; three billboards
    of material 3 and one more; a drawable and a null drawable. *)
Definition mixed_frame : list Call :=
  [CallAddMesh opaque_materials 0 2%positive mesh_a cube (at_height 1);
   CallAddSprites 0 2%positive 20%positive 4 (Some 7%positive);
   CallAddMesh opaque_materials 0 2%positive mesh_b cube (at_height 2);
   CallAddDrawable 1 (Some 9%positive);
   three_billboards 3%positive;
   CallAddSprites 0 2%positive 22%positive 1 None;
   CallAddMesh opaque_materials 0 2%positive mesh_a cube (at_height 3);
   CallAddDrawable 1 None;
   CallAddBillboard 0 3%positive (Vector3f.Build 0 0 5) (Vector2f.Build 1 1)
     (Vector2f.Build 0 1) Color.White;
   CallAddSprites 0 2%positive 21%positive 6 (Some 7%positive)].

(** Every buffer in a storage of its own, none of them null. *)
Definition own_storage : BufferStorage.t := BufferStorage.Build N.pos N.pos.

(** ** Keys and the resources they watch *)

(** Every entry of the batch maps of a layer is connected to the release
    of what keys it: an entry of a material to the material, the bucket of
    an overlay texture to the texture (to nothing, for the sprites without
    overlay), the entry of a mesh to its index buffer, if it has one, and
    to its vertex buffer. *)
Definition layer_watched (layer : Layer.t) : Prop :=
  map_Forall
    (fun material entry =>
       BatchedBillboardEntry.materialReleaseSlot entry = Some material)
    (Layer.billboards layer)
  /\ map_Forall
       (fun material entry =>
          BatchedBasicSpriteEntry.materialReleaseSlot entry = Some material
          /\ map_Forall
               (fun overlay overlayEntry =>
                  BatchedSpriteEntry.textureReleaseSlot overlayEntry = overlay)
               (BatchedBasicSpriteEntry.overlayMap entry))
       (Layer.basicSprites layer)
  /\ map_Forall
       (fun material entry =>
          BatchedModelEntry.materialReleaseSlot entry = Some material
          /\ map_Forall
               (fun meshData instanceEntry =>
                  MeshInstanceEntry.indexBufferReleaseSlot instanceEntry
                  = MeshData.indexBuffer meshData
                  /\ MeshInstanceEntry.vertexBufferReleaseSlot instanceEntry
                     = Some (MeshData.vertexBuffer meshData))
               (BatchedModelEntry.meshMap entry))
       (Layer.opaqueModels layer).

(** ... in every layer of the queue. *)
Definition watched (layers : Layers) : Prop :=
  map_Forall (fun (_ : Z) (layer : Layer.t) => layer_watched layer) layers.

(** ** Sprites (Sprite.cpp) *)

Module InstanceData.
(** What [Sprite::AddToRenderQueue] reads of the instance data of a
    renderable: the render order, and the address of its buffer
    ([data.data()]), which holds the four vertices of the sprite. *)
Record t := Build { renderOrder : Z; data : VerticesPtr }.
End InstanceData.

Module Sprite.
(** What [Sprite::AddToRenderQueue] reads of a sprite: its material, a
    reference that may be null. *)
Record t := Build { m_material : option MaterialPtr }.

(** [Sprite::AddToRenderQueue], for a render queue that is a
    [ForwardRenderQueue].  The call gives [AddSprites] four arguments, so
    the overlay is the default one of the declaration, a null pointer. *)
Definition AddToRenderQueue (sprite : t) (instanceData : InstanceData.t)
    (renderQueue : Layers) : Layers :=
  match m_material sprite with
  | None => renderQueue
  | Some material =>
      let vertices := InstanceData.data instanceData in
      AddSprites (InstanceData.renderOrder instanceData) material vertices 1 None renderQueue
  end.
End Sprite.

(** ** The text drawer (SimpleTextDrawer.cpp)

    The drawer lays out a text with a font: one glyph for each character
    that is not blank and that the font could load.  Its glyphs and bounds
    are computed when they are read, if a setter has flagged them out of
    date.  The header of the class and the classes it uses ([Font],
    [Rect], [Vector2], [String]) are not among the sources: what the
    drawer calls of them is a parameter ([TextPlatform]), and a record has
    the members the drawer reads or writes. *)

Abbreviation FontPtr := positive (only parsing).
Abbreviation ImagePtr := positive (only parsing).

(** A [String], as the sequence of its code points ([GetUtf32String()]);
    [Append] is [++], and the empty string and the string that has no
    code points are one. *)
Abbreviation NzString := (list N) (only parsing).

Module Rectf.
Record t := Build { x : float; y : float; width : float; height : float }.
Definition with_x (x' : float) (rect : t) : t := Build x' (y rect) (width rect) (height rect).
Definition with_y (y' : float) (rect : t) : t := Build (x rect) y' (width rect) (height rect).
Definition with_width (width' : float) (rect : t) : t :=
  Build (x rect) (y rect) width' (height rect).
Definition with_height (height' : float) (rect : t) : t :=
  Build (x rect) (y rect) (width rect) height'.
End Rectf.

Module Recti.
Record t := Build { x : Z; y : Z; width : Z; height : Z }.
End Recti.

Module Vector2ui.
(** The draw position, [m_drawPos]; what an assignment keeps of a value is
    [wrap], below. *)
Record t := Build { x : Z; y : Z }.
Definition with_x (x' : Z) (v : t) : t := Build x' (y v).
End Vector2ui.

Module SizeInfo.
(** [Font::SizeInfo], the two members the drawer reads. *)
Record t := Build { lineHeight : Z; spaceAdvance : Z }.
End SizeInfo.

Module FontGlyph.
(** [Font::Glyph] *)
Record t := Build {
  aabb : Recti.t;
  atlasRect : Recti.t;
  advance : Z;
  flipped : bool;
  requireFauxBold : bool;
  requireFauxItalic : bool;
  valid : bool;
  layerIndex : N
}.
End FontGlyph.

Module Font.
(** A font, by what it answers: [IsValid()], [GetSizeInfo(characterSize)],
    [GetKerning(characterSize, first, second)],
    [GetGlyph(characterSize, style, character)], and [GetAtlas()], a
    pointer that may be null, by the layers [GetLayer(layerIndex)] gives. *)
Record t := Build {
  IsValid : bool;
  GetSizeInfo : N -> SizeInfo.t;
  GetKerning : N -> N -> N -> Z;
  GetGlyph : N -> N -> N -> FontGlyph.t;
  GetAtlas : option (N -> option ImagePtr)
}.
End Font.

Module Glyph.
(** [AbstractTextDrawer::Glyph]; [corners] is an array of four. *)
Record t := Build {
  atlas : option ImagePtr;
  atlasRect : Recti.t;
  color : Color.t;
  corners : list Vector2f.t;
  flipped : bool
}.
Definition with_atlas (atlas' : option ImagePtr) (glyph : t) : t :=
  Build atlas' (atlasRect glyph) (color glyph) (corners glyph) (flipped glyph).
Definition with_color (color' : Color.t) (glyph : t) : t :=
  Build (atlas glyph) (atlasRect glyph) color' (corners glyph) (flipped glyph).
End Glyph.

(** What the drawer uses and the sources do not have: the memory the font
    pointers are read through; whether [NAZARA_DEBUG] is defined and
    whether [NazaraAssert] is compiled in; what the type of a component of
    the draw position keeps of an integer; and the members of [Rect] and
    [Vector2] the drawer calls. *)
Class TextPlatform := {
  fonts : FontPtr -> Font.t;
  NAZARA_DEBUG : bool;
  NazaraAssert_enabled : bool;
  wrap : Z -> Z;
  Recti_MakeZero : Recti.t;
  Recti_Set : Rectf.t -> Recti.t;
  Rectf_MakeZero : Rectf.t;
  Rectf_of_Recti : Recti.t -> Rectf.t;
  Rectf_GetCenter : Rectf.t -> Vector2f.t;
  Rectf_GetMaximum : Rectf.t -> Vector2f.t;
  Rectf_IsValid : Rectf.t -> bool;
  Rectf_Set : Rectf.t -> Vector2f.t -> Rectf.t;
  Rectf_ExtendTo : Rectf.t -> Vector2f.t -> Rectf.t;
  Vector2f_minus : Vector2f.t -> Vector2f.t -> Vector2f.t
}.

Module SimpleTextDrawer.

Record t := Build {
  m_atlasChangedSlot : option FontPtr;
  m_atlasLayerChangedSlot : option FontPtr;
  m_fontReleaseSlot : option FontPtr;
  m_glyphCacheClearedSlot : option FontPtr;
  m_bounds : Recti.t;
  m_color : Color.t;
  m_font : option FontPtr;
  m_glyphs : list Glyph.t;
  m_text : NzString;
  m_style : N;
  m_drawPos : Vector2ui.t;
  m_previousCharacter : N;
  m_workingBounds : Rectf.t;
  m_colorUpdated : bool;
  m_glyphUpdated : bool;
  m_characterSize : N
}.

Definition with_bounds (bounds : Recti.t) (drawer : t) : t :=
  Build (m_atlasChangedSlot drawer) (m_atlasLayerChangedSlot drawer)
    (m_fontReleaseSlot drawer) (m_glyphCacheClearedSlot drawer) bounds (m_color drawer)
    (m_font drawer) (m_glyphs drawer) (m_text drawer) (m_style drawer)
    (m_drawPos drawer) (m_previousCharacter drawer) (m_workingBounds drawer)
    (m_colorUpdated drawer) (m_glyphUpdated drawer) (m_characterSize drawer).

Definition with_color (color : Color.t) (drawer : t) : t :=
  Build (m_atlasChangedSlot drawer) (m_atlasLayerChangedSlot drawer)
    (m_fontReleaseSlot drawer) (m_glyphCacheClearedSlot drawer) (m_bounds drawer) color
    (m_font drawer) (m_glyphs drawer) (m_text drawer) (m_style drawer)
    (m_drawPos drawer) (m_previousCharacter drawer) (m_workingBounds drawer)
    (m_colorUpdated drawer) (m_glyphUpdated drawer) (m_characterSize drawer).

Definition with_font (font : option FontPtr) (drawer : t) : t :=
  Build (m_atlasChangedSlot drawer) (m_atlasLayerChangedSlot drawer)
    (m_fontReleaseSlot drawer) (m_glyphCacheClearedSlot drawer) (m_bounds drawer)
    (m_color drawer) font (m_glyphs drawer) (m_text drawer) (m_style drawer)
    (m_drawPos drawer) (m_previousCharacter drawer) (m_workingBounds drawer)
    (m_colorUpdated drawer) (m_glyphUpdated drawer) (m_characterSize drawer).

Definition with_glyphs (glyphs : list Glyph.t) (drawer : t) : t :=
  Build (m_atlasChangedSlot drawer) (m_atlasLayerChangedSlot drawer)
    (m_fontReleaseSlot drawer) (m_glyphCacheClearedSlot drawer) (m_bounds drawer)
    (m_color drawer) (m_font drawer) glyphs (m_text drawer) (m_style drawer)
    (m_drawPos drawer) (m_previousCharacter drawer) (m_workingBounds drawer)
    (m_colorUpdated drawer) (m_glyphUpdated drawer) (m_characterSize drawer).

Definition with_text (text : NzString) (drawer : t) : t :=
  Build (m_atlasChangedSlot drawer) (m_atlasLayerChangedSlot drawer)
    (m_fontReleaseSlot drawer) (m_glyphCacheClearedSlot drawer) (m_bounds drawer)
    (m_color drawer) (m_font drawer) (m_glyphs drawer) text (m_style drawer)
    (m_drawPos drawer) (m_previousCharacter drawer) (m_workingBounds drawer)
    (m_colorUpdated drawer) (m_glyphUpdated drawer) (m_characterSize drawer).

Definition with_style (style : N) (drawer : t) : t :=
  Build (m_atlasChangedSlot drawer) (m_atlasLayerChangedSlot drawer)
    (m_fontReleaseSlot drawer) (m_glyphCacheClearedSlot drawer) (m_bounds drawer)
    (m_color drawer) (m_font drawer) (m_glyphs drawer) (m_text drawer) style
    (m_drawPos drawer) (m_previousCharacter drawer) (m_workingBounds drawer)
    (m_colorUpdated drawer) (m_glyphUpdated drawer) (m_characterSize drawer).

Definition with_drawPos (drawPos : Vector2ui.t) (drawer : t) : t :=
  Build (m_atlasChangedSlot drawer) (m_atlasLayerChangedSlot drawer)
    (m_fontReleaseSlot drawer) (m_glyphCacheClearedSlot drawer) (m_bounds drawer)
    (m_color drawer) (m_font drawer) (m_glyphs drawer) (m_text drawer) (m_style drawer)
    drawPos (m_previousCharacter drawer) (m_workingBounds drawer)
    (m_colorUpdated drawer) (m_glyphUpdated drawer) (m_characterSize drawer).

Definition with_previousCharacter (character : N) (drawer : t) : t :=
  Build (m_atlasChangedSlot drawer) (m_atlasLayerChangedSlot drawer)
    (m_fontReleaseSlot drawer) (m_glyphCacheClearedSlot drawer) (m_bounds drawer)
    (m_color drawer) (m_font drawer) (m_glyphs drawer) (m_text drawer) (m_style drawer)
    (m_drawPos drawer) character (m_workingBounds drawer) (m_colorUpdated drawer)
    (m_glyphUpdated drawer) (m_characterSize drawer).

Definition with_workingBounds (bounds : Rectf.t) (drawer : t) : t :=
  Build (m_atlasChangedSlot drawer) (m_atlasLayerChangedSlot drawer)
    (m_fontReleaseSlot drawer) (m_glyphCacheClearedSlot drawer) (m_bounds drawer)
    (m_color drawer) (m_font drawer) (m_glyphs drawer) (m_text drawer) (m_style drawer)
    (m_drawPos drawer) (m_previousCharacter drawer) bounds (m_colorUpdated drawer)
    (m_glyphUpdated drawer) (m_characterSize drawer).

Definition with_colorUpdated (updated : bool) (drawer : t) : t :=
  Build (m_atlasChangedSlot drawer) (m_atlasLayerChangedSlot drawer)
    (m_fontReleaseSlot drawer) (m_glyphCacheClearedSlot drawer) (m_bounds drawer)
    (m_color drawer) (m_font drawer) (m_glyphs drawer) (m_text drawer) (m_style drawer)
    (m_drawPos drawer) (m_previousCharacter drawer) (m_workingBounds drawer) updated
    (m_glyphUpdated drawer) (m_characterSize drawer).

Definition with_glyphUpdated (updated : bool) (drawer : t) : t :=
  Build (m_atlasChangedSlot drawer) (m_atlasLayerChangedSlot drawer)
    (m_fontReleaseSlot drawer) (m_glyphCacheClearedSlot drawer) (m_bounds drawer)
    (m_color drawer) (m_font drawer) (m_glyphs drawer) (m_text drawer) (m_style drawer)
    (m_drawPos drawer) (m_previousCharacter drawer) (m_workingBounds drawer)
    (m_colorUpdated drawer) updated (m_characterSize drawer).

Definition with_characterSize (characterSize : N) (drawer : t) : t :=
  Build (m_atlasChangedSlot drawer) (m_atlasLayerChangedSlot drawer)
    (m_fontReleaseSlot drawer) (m_glyphCacheClearedSlot drawer) (m_bounds drawer)
    (m_color drawer) (m_font drawer) (m_glyphs drawer) (m_text drawer) (m_style drawer)
    (m_drawPos drawer) (m_previousCharacter drawer) (m_workingBounds drawer)
    (m_colorUpdated drawer) (m_glyphUpdated drawer) characterSize.

Definition with_slots (signals : option FontPtr) (drawer : t) : t :=
  Build signals signals signals signals (m_bounds drawer) (m_color drawer)
    (m_font drawer) (m_glyphs drawer) (m_text drawer) (m_style drawer)
    (m_drawPos drawer) (m_previousCharacter drawer) (m_workingBounds drawer)
    (m_colorUpdated drawer) (m_glyphUpdated drawer) (m_characterSize drawer).

(** The argument of [AppendText], a reference to a [String]: a string that
    is not the text of the drawer, or the text of the drawer itself, as
    [GetText()] returns it. *)
Inductive StringArgument :=
| OtherString (str : NzString)
| DrawerText.

(** The string a reference points to, as the drawer is. *)
Definition read (str : StringArgument) (drawer : t) : NzString :=
  match str with
  | OtherString str => str
  | DrawerText => m_text drawer
  end.

Section Drawer.
Context `{TextPlatform}.

(** [ClearGlyphs] *)
Definition ClearGlyphs (drawer : t) : t :=
  let drawer := with_bounds Recti_MakeZero drawer in
  let drawer := with_colorUpdated true drawer in
  let drawer :=
    with_drawPos (Vector2ui.Build (wrap 0) (wrap (Z.of_N (m_characterSize drawer))))
      drawer in
  let drawer := with_glyphs [] drawer in
  let drawer := with_glyphUpdated true drawer in
  let drawer := with_previousCharacter 0 drawer in
  with_workingBounds Rectf_MakeZero drawer.

(** [ConnectFontSlots], where [m_font] points to [font]: the four slots
    are connected to the signals of the font. *)
Definition ConnectFontSlots (font : FontPtr) (drawer : t) : t :=
  with_slots (Some font) drawer.

(** [DisconnectFontSlots] *)
Definition DisconnectFontSlots (drawer : t) : t := with_slots None drawer.

(** The body of the loop of [GenerateGlyphs], for one character.  It has
    no result where the font has no atlas to give the layer of a glyph. *)
Definition GenerateGlyphs_character (font : Font.t) (sizeInfo : SizeInfo.t)
    (character : N) (drawer : t) : option t :=
  let drawer :=
    if negb (m_previousCharacter drawer =? 0)%N then
      with_drawPos
        (Vector2ui.with_x
           (wrap (Vector2ui.x (m_drawPos drawer)
                  + Font.GetKerning font (m_characterSize drawer)
                      (m_previousCharacter drawer) character))
           (m_drawPos drawer))
        drawer
    else drawer in
  let drawer := with_previousCharacter character drawer in
  if (character =? 32)%N then
    Some (with_drawPos
            (Vector2ui.with_x
               (wrap (Vector2ui.x (m_drawPos drawer) + SizeInfo.spaceAdvance sizeInfo))
               (m_drawPos drawer))
            drawer)
  else if (character =? 10)%N then
    Some (with_drawPos
            (Vector2ui.Build (wrap 0)
               (wrap (Vector2ui.y (m_drawPos drawer) + SizeInfo.lineHeight sizeInfo)))
            drawer)
  else if (character =? 9)%N then
    Some (with_drawPos
            (Vector2ui.with_x
               (wrap (Vector2ui.x (m_drawPos drawer) + SizeInfo.spaceAdvance sizeInfo * 4))
               (m_drawPos drawer))
            drawer)
  else
    let fontGlyph :=
      Font.GetGlyph font (m_characterSize drawer) (m_style drawer) character in
    if negb (FontGlyph.valid fontGlyph) then Some drawer
    else
      atlas ← Font.GetAtlas font;
      let advance := FontGlyph.advance fontGlyph in
      let bounds := Rectf_of_Recti (FontGlyph.aabb fontGlyph) in
      let bounds :=
        Rectf.with_x (Rectf.x bounds + inject_Z (Vector2ui.x (m_drawPos drawer)))%Q
          bounds in
      let bounds :=
        Rectf.with_y (Rectf.y bounds + inject_Z (Vector2ui.y (m_drawPos drawer)))%Q
          bounds in
      let '(bounds, advance) :=
        if FontGlyph.requireFauxBold fontGlyph then
          let center := Rectf_GetCenter bounds in
          let bounds := Rectf.with_width (Rectf.width bounds * (11 # 10))%Q bounds in
          let bounds := Rectf.with_height (Rectf.height bounds * (11 # 10))%Q bounds in
          let offset := Vector2f_minus (Rectf_GetCenter bounds) center in
          let bounds := Rectf.with_y (Rectf.y bounds - Vector2f.y offset)%Q bounds in
          (bounds, (advance + advance ÷ 10)%Z)
        else (bounds, advance) in
      let italic : float :=
        if FontGlyph.requireFauxItalic fontGlyph then (208 # 1000)%Q else 0%Q in
      let italicTop := (italic * Rectf.y bounds)%Q in
      let italicBottom := (italic * Vector2f.y (Rectf_GetMaximum bounds))%Q in
      let corner0 := Vector2f.Build (Rectf.x bounds - italicTop)%Q (Rectf.y bounds) in
      let corners :=
        [corner0;
         Vector2f.Build (Rectf.x bounds + Rectf.width bounds - italicTop)%Q
           (Rectf.y bounds);
         Vector2f.Build (Rectf.x bounds - italicBottom)%Q
           (Rectf.y bounds + Rectf.height bounds)%Q;
         Vector2f.Build (Rectf.x bounds + Rectf.width bounds - italicBottom)%Q
           (Rectf.y bounds + Rectf.height bounds)%Q] in
      let glyph :=
        Glyph.Build (atlas (FontGlyph.layerIndex fontGlyph))
          (FontGlyph.atlasRect fontGlyph) (m_color drawer) corners
          (FontGlyph.flipped fontGlyph) in
      let workingBounds := m_workingBounds drawer in
      let workingBounds :=
        if negb (Rectf_IsValid workingBounds) then Rectf_Set workingBounds corner0
        else workingBounds in
      let workingBounds := foldl Rectf_ExtendTo workingBounds corners in
      let drawer := with_workingBounds workingBounds drawer in
      let drawer :=
        with_drawPos
          (Vector2ui.with_x (wrap (Vector2ui.x (m_drawPos drawer) + advance))
             (m_drawPos drawer))
          drawer in
      Some (with_glyphs (m_glyphs drawer ++ [glyph]) drawer).

(** The loop of [GenerateGlyphs]. *)
Fixpoint GenerateGlyphs_characters (font : Font.t) (sizeInfo : SizeInfo.t)
    (characters : NzString) (drawer : t) : option t :=
  match characters with
  | [] => Some drawer
  | character :: characters =>
      drawer ← GenerateGlyphs_character font sizeInfo character drawer;
      GenerateGlyphs_characters font sizeInfo characters drawer
  end.

(** [GenerateGlyphs].  It has no result where it reads a null font. *)
Definition GenerateGlyphs (text : NzString) (drawer : t) : option t :=
  match text with
  | [] => Some drawer
  | _ =>
      font ← m_font drawer;
      let sizeInfo := Font.GetSizeInfo (fonts font) (m_characterSize drawer) in
      drawer ← GenerateGlyphs_characters (fonts font) sizeInfo text drawer;
      let workingBounds := m_workingBounds drawer in
      Some (with_bounds
              (Recti_Set
                 (Rectf.Build (inject_Z (Qfloor (Rectf.x workingBounds)))
                    (inject_Z (Qfloor (Rectf.y workingBounds)))
                    (inject_Z (Qceiling (Rectf.width workingBounds)))
                    (inject_Z (Qceiling (Rectf.height workingBounds)))))
              drawer)
  end.

(** [UpdateGlyphColor] *)
Definition UpdateGlyphColor (drawer : t) : t :=
  let drawer :=
    with_glyphs (Glyph.with_color (m_color drawer) <$> m_glyphs drawer) drawer in
  with_colorUpdated true drawer.

(** [UpdateGlyphs].  It has no result where the assertion on the font
    fails. *)
Definition UpdateGlyphs (drawer : t) : option t :=
  let font_is_valid :=
    match m_font drawer with
    | Some font => Font.IsValid (fonts font)
    | None => false
    end in
  if NazaraAssert_enabled && negb font_is_valid then None
  else
    let drawer := ClearGlyphs drawer in
    GenerateGlyphs (m_text drawer) drawer.

(** [AppendText].  The string is read through its reference when it is
    appended and again, after that, when its glyphs are generated: where
    it is the text of the drawer, the glyphs are generated for the text
    as it is once appended to itself ([m_text.Append(m_text)] is taken to
    double the text). *)
Definition AppendText (str : StringArgument) (drawer : t) : option t :=
  let drawer := with_text (m_text drawer ++ read str drawer) drawer in
  if m_glyphUpdated drawer then GenerateGlyphs (read str drawer) drawer else Some drawer.

(** [Clear] *)
Definition Clear (drawer : t) : t :=
  let drawer := with_text [] drawer in
  ClearGlyphs drawer.

(** [GetBounds]: the bounds, and the drawer with its members brought up
    to date. *)
Definition GetBounds (drawer : t) : option (Recti.t * t) :=
  drawer ← (if negb (m_glyphUpdated drawer) then UpdateGlyphs drawer else Some drawer);
  Some (m_bounds drawer, drawer).

(** [GetGlyph].  It has no result where the index is out of range. *)
Definition GetGlyph (index : nat) (drawer : t) : option (Glyph.t * t) :=
  drawer ←
    (if negb (m_glyphUpdated drawer) then UpdateGlyphs drawer
     else if negb (m_colorUpdated drawer) then Some (UpdateGlyphColor drawer)
     else Some drawer);
  glyph ← m_glyphs drawer !! index;
  Some (glyph, drawer).

(** [GetGlyphCount] *)
Definition GetGlyphCount (drawer : t) : option (nat * t) :=
  drawer ← (if negb (m_glyphUpdated drawer) then UpdateGlyphs drawer else Some drawer);
  Some (length (m_glyphs drawer), drawer).

(** [SetCharacterSize] *)
Definition SetCharacterSize (characterSize : N) (drawer : t) : t :=
  let drawer := with_characterSize characterSize drawer in
  with_glyphUpdated false drawer.

(** [SetColor] *)
Definition SetColor (color : Color.t) (drawer : t) : t :=
  let drawer := with_color color drawer in
  with_colorUpdated false drawer.

(** [SetFont] *)
Definition SetFont (font : option FontPtr) (drawer : t) : t :=
  if decide (m_font drawer <> font) then
    let drawer := with_font font drawer in
    let drawer :=
      match m_font drawer with
      | Some font => ConnectFontSlots font drawer
      | None => DisconnectFontSlots drawer
      end in
    with_glyphUpdated false drawer
  else drawer.

(** [SetStyle] *)
Definition SetStyle (style : N) (drawer : t) : t :=
  let drawer := with_style style drawer in
  with_glyphUpdated false drawer.

(** [SetText] *)
Definition SetText (str : NzString) (drawer : t) : t :=
  let drawer := with_text str drawer in
  with_glyphUpdated false drawer.

(** [operator=], the copy: [this] is assigned [drawer]. *)
Definition assign (drawer this : t) : t :=
  let this := with_characterSize (m_characterSize drawer) this in
  let this := with_color (m_color drawer) this in
  let this := with_style (m_style drawer) this in
  let this := with_text (m_text drawer) this in
  let this := with_colorUpdated false this in
  let this := with_glyphUpdated false this in
  SetFont (m_font drawer) this.

(** A handler that, with [NAZARA_DEBUG], refuses the signal of a font that
    is not the font of the drawer. *)
Definition not_listening (font : option FontPtr) (drawer : t) : bool :=
  NAZARA_DEBUG && negb (bool_decide (m_font drawer = font)).

(** [OnFontAtlasLayerChanged] *)
Definition OnFontAtlasLayerChanged (font : option FontPtr)
    (oldLayer newLayer : option ImagePtr) (drawer : t) : t :=
  if not_listening font drawer then drawer
  else
    with_glyphs
      ((fun glyph =>
          if bool_decide (Glyph.atlas glyph = oldLayer)
          then Glyph.with_atlas newLayer glyph
          else glyph) <$> m_glyphs drawer)
      drawer.

(** [OnFontInvalidated] *)
Definition OnFontInvalidated (font : option FontPtr) (drawer : t) : t :=
  if not_listening font drawer then drawer else with_glyphUpdated false drawer.

(** [OnFontRelease] *)
Definition OnFontRelease (font : option FontPtr) (drawer : t) : t :=
  if not_listening font drawer then drawer else SetFont None drawer.

End Drawer.

(** The calls a drawer gets: from its user, and from the signals of its
    font. *)
Inductive Call :=
| CallAppendText (str : StringArgument)
| CallClear
| CallGetBounds
| CallGetGlyph (index : nat)
| CallGetGlyphCount
| CallSetCharacterSize (characterSize : N)
| CallSetColor (color : Color.t)
| CallSetFont (font : option FontPtr)
| CallSetStyle (style : N)
| CallSetText (str : NzString)
| CallAssign (drawer : t)
| CallOnFontAtlasLayerChanged (font : option FontPtr) (oldLayer newLayer : option ImagePtr)
| CallOnFontInvalidated (font : option FontPtr)
| CallOnFontRelease (font : option FontPtr).

Section Calls.
Context `{TextPlatform}.

(** A call on a drawer: the drawer it leaves, if the call has a result. *)
Definition exec (c : Call) (drawer : t) : option t :=
  match c with
  | CallAppendText str => AppendText str drawer
  | CallClear => Some (Clear drawer)
  | CallGetBounds => snd <$> GetBounds drawer
  | CallGetGlyph index => snd <$> GetGlyph index drawer
  | CallGetGlyphCount => snd <$> GetGlyphCount drawer
  | CallSetCharacterSize characterSize => Some (SetCharacterSize characterSize drawer)
  | CallSetColor color => Some (SetColor color drawer)
  | CallSetFont font => Some (SetFont font drawer)
  | CallSetStyle style => Some (SetStyle style drawer)
  | CallSetText str => Some (SetText str drawer)
  | CallAssign other => Some (assign other drawer)
  | CallOnFontAtlasLayerChanged font oldLayer newLayer =>
      Some (OnFontAtlasLayerChanged font oldLayer newLayer drawer)
  | CallOnFontInvalidated font => Some (OnFontInvalidated font drawer)
  | CallOnFontRelease font => Some (OnFontRelease font drawer)
  end.

(** A sequence of calls, each on the drawer the one before left. *)
Fixpoint run (calls : list Call) (drawer : t) : option t :=
  match calls with
  | [] => Some drawer
  | c :: calls => drawer ← exec c drawer; run calls drawer
  end.

End Calls.

Section Statements.
Context `{TextPlatform}.

(** The drawer with the color and every glyph of one color. *)
Definition paint (color : Color.t) (drawer : t) : t :=
  with_glyphs (Glyph.with_color color <$> m_glyphs drawer) (with_color color drawer).

(** The drawer with the glyphs, the draw position, the previous character
    and the working bounds of another. *)
Definition relayout (layout drawer : t) : t :=
  with_glyphs (m_glyphs layout)
    (with_drawPos (m_drawPos layout)
       (with_previousCharacter (m_previousCharacter layout)
          (with_workingBounds (m_workingBounds layout) drawer))).

(** The glyphs and the bounds of the drawer made again from its text, as
    [UpdateGlyphs] makes them once the font is found valid. *)
Definition regenerated (drawer : t) : option t :=
  GenerateGlyphs (m_text drawer) (ClearGlyphs drawer).

(** What the drawer holds is what its text gives: where the glyphs are
    flagged up to date they are, but for their colors, those made again
    from the text, and where the colors are flagged up to date as well,
    every glyph has the color of the drawer. *)
Definition coherent (drawer : t) : Prop :=
  m_glyphUpdated drawer = true ->
  regenerated drawer = Some (UpdateGlyphColor drawer)
  /\ (m_colorUpdated drawer = true -> UpdateGlyphColor drawer = drawer).

(** The calls during which the font answers what it answered: all but the
    signal that a layer of its atlas was replaced. *)
Definition font_unchanged (c : Call) : Prop :=
  match c with
  | CallOnFontAtlasLayerChanged _ _ _ => False
  | _ => True
  end.

(** The calls that do not append the text of the drawer to itself. *)
Definition appends_other (c : Call) : Prop :=
  match c with
  | CallAppendText DrawerText => False
  | _ => True
  end.

(** The characters that move the draw position and give no glyph. *)
Definition blank (character : N) : bool :=
  (character =? 32)%N || (character =? 10)%N || (character =? 9)%N.

(** The characters that give a glyph: not blank, and loaded by the font. *)
Definition visible (font : Font.t) (characterSize style character : N) : bool :=
  negb (blank character)
  && FontGlyph.valid (Font.GetGlyph font characterSize style character).

(** The four slots are connected to the signals of the font of the drawer,
    to nothing if it has none. *)
Definition listening (drawer : t) : Prop :=
  m_atlasChangedSlot drawer = m_font drawer
  /\ m_atlasLayerChangedSlot drawer = m_font drawer
  /\ m_fontReleaseSlot drawer = m_font drawer
  /\ m_glyphCacheClearedSlot drawer = m_font drawer.

(** What a glyph shows of the font: the layer of the atlas, the rectangle
    in it, the color, and whether the glyph is flipped. *)
Definition shown (glyph : Glyph.t) : option ImagePtr * Recti.t * Color.t * bool :=
  (Glyph.atlas glyph, Glyph.atlasRect glyph, Glyph.color glyph, Glyph.flipped glyph).

(** The same, as the font and its atlas give them for a character. *)
Definition loaded (font : Font.t) (atlas : N -> option ImagePtr)
    (characterSize style : N) (color : Color.t) (character : N)
    : option ImagePtr * Recti.t * Color.t * bool :=
  let fontGlyph := Font.GetGlyph font characterSize style character in
  (atlas (FontGlyph.layerIndex fontGlyph), FontGlyph.atlasRect fontGlyph, color,
   FontGlyph.flipped fontGlyph).

End Statements.

End SimpleTextDrawer.

(** ** A font and a platform for the examples of the text drawer *)

(** A font that loads the characters below 128: every glyph is 8 by 10,
    advances by 9 and lies in the one layer of the atlas, image 5, at the
    column of its code; the style asks for faux bold by its bit 0 and for
    faux italics by its bit 1. *)
Definition example_font : Font.t :=
  Font.Build true
    (fun characterSize => SizeInfo.Build (Z.of_N characterSize) 6)
    (fun _ _ _ => 1%Z)
    (fun _ style character =>
       FontGlyph.Build (Recti.Build 0 (-10) 8 10) (Recti.Build (Z.of_N character) 0 8 10)
         9 false (N.testbit style 0) (N.testbit style 1) (character <? 128)%N 0)
    (Some (fun _ => Some 5%positive)).

(** Every font pointer reads that font; assertions are compiled in, the
    debug checks are not; the draw position is of 32 bits, unsigned; and
    the rectangles are those of a corner and two lengths. *)
Definition example_text_platform : TextPlatform := {|
  fonts := fun _ => example_font;
  NAZARA_DEBUG := false;
  NazaraAssert_enabled := true;
  wrap := fun z => (z mod 2 ^ 32)%Z;
  Recti_MakeZero := Recti.Build 0 0 0 0;
  Recti_Set := fun rect =>
    Recti.Build (Qfloor (Rectf.x rect)) (Qfloor (Rectf.y rect))
      (Qfloor (Rectf.width rect)) (Qfloor (Rectf.height rect));
  Rectf_MakeZero := Rectf.Build 0 0 0 0;
  Rectf_of_Recti := fun rect =>
    Rectf.Build (inject_Z (Recti.x rect)) (inject_Z (Recti.y rect))
      (inject_Z (Recti.width rect)) (inject_Z (Recti.height rect));
  Rectf_GetCenter := fun rect =>
    Vector2f.Build (Rectf.x rect + Rectf.width rect / 2)%Q
      (Rectf.y rect + Rectf.height rect / 2)%Q;
  Rectf_GetMaximum := fun rect =>
    Vector2f.Build (Rectf.x rect + Rectf.width rect)%Q
      (Rectf.y rect + Rectf.height rect)%Q;
  Rectf_IsValid := fun rect =>
    float_gt (Rectf.width rect) 0 && float_gt (Rectf.height rect) 0;
  Rectf_Set := fun _ point => Rectf.Build (Vector2f.x point) (Vector2f.y point) 0 0;
  Rectf_ExtendTo := fun rect point =>
    let left := if float_gt (Rectf.x rect) (Vector2f.x point)
                then Vector2f.x point else Rectf.x rect in
    let top := if float_gt (Rectf.y rect) (Vector2f.y point)
               then Vector2f.y point else Rectf.y rect in
    let right := if float_gt (Vector2f.x point) (Rectf.x rect + Rectf.width rect)%Q
                 then Vector2f.x point else (Rectf.x rect + Rectf.width rect)%Q in
    let bottom := if float_gt (Vector2f.y point) (Rectf.y rect + Rectf.height rect)%Q
                  then Vector2f.y point else (Rectf.y rect + Rectf.height rect)%Q in
    Rectf.Build left top (right - left)%Q (bottom - top)%Q;
  Vector2f_minus := fun a b =>
    Vector2f.Build (Vector2f.x a - Vector2f.x b)%Q (Vector2f.y a - Vector2f.y b)%Q
|}.

(** A drawer as a copy leaves it: the text "Hi", the font 1 and its four
    signals, white, of size 24, glyphs and colors flagged out of date. *)
Definition example_drawer : SimpleTextDrawer.t :=
  SimpleTextDrawer.Build (Some 1%positive) (Some 1%positive) (Some 1%positive)
    (Some 1%positive) (Recti.Build 0 0 0 0) Color.White (Some 1%positive) []
    [72; 105]%N 0 (Vector2ui.Build 0 0) 0 (Rectf.Build 0 0 0 0) false false 24.

(** Calls on it: a read, an appended " !", a change of color, a read. *)
Definition example_text_calls : list SimpleTextDrawer.Call :=
  [SimpleTextDrawer.CallGetGlyphCount;
   SimpleTextDrawer.CallAppendText (SimpleTextDrawer.OtherString [32; 33]%N);
   SimpleTextDrawer.CallSetColor (Color.Build 255 0 0 255);
   SimpleTextDrawer.CallGetBounds].

(** ** Properties *)

(** *** Comparing floats, and what [std::sort] guarantees *)

Lemma float_gt_true (a b : float) : float_gt a b = true <-> (b < a)%Q.
Proof.
  unfold float_gt. rewrite Qlt_alt.
  destruct (b ?= a)%Q; split; intros; congruence.
Qed.

Lemma float_gt_false (a b : float) : float_gt a b = false <-> (a <= b)%Q.
Proof.
  split.
  - intros Hc. apply Qnot_lt_le. intros Hlt. apply float_gt_true in Hlt. congruence.
  - intros Hle. destruct (float_gt a b) eqn:Hc; trivial.
    apply float_gt_true in Hc. exfalso. exact (Qle_not_lt _ _ Hle Hc).
Qed.

Lemma std_sort_Permutation {A : Type} (comp : A -> A -> bool) (l : list A) :
  std_sort comp l ≡ₚ l.
Proof. apply merge_sort_Permutation. Qed.

Section SortByKey.
Context {A : Type} (key : A -> float).

Lemma not_after_key_comp (a b : A) : not_after (key_comp key) a b <-> descending key a b.
Proof. unfold not_after, key_comp, descending. apply float_gt_false. Qed.

#[local] Instance not_after_key_comp_trans : Transitive (not_after (key_comp key)).
Proof.
  intros a b c. rewrite !not_after_key_comp. unfold descending.
  intros Hab Hbc. exact (Qle_trans _ _ _ Hbc Hab).
Qed.

#[local] Instance not_after_key_comp_total : Total (not_after (key_comp key)).
Proof.
  intros a b. rewrite !not_after_key_comp. unfold descending.
  destruct (Qlt_le_dec (key a) (key b)) as [Hlt | Hle]; [right | left]; trivial.
  apply Qlt_le_weak, Hlt.
Qed.

Lemma std_sort_descending (l : list A) :
  StronglySorted (descending key) (std_sort (key_comp key) l).
Proof.
  pose proof (StronglySorted_merge_sort (not_after (key_comp key)) l) as Hs.
  unfold std_sort. induction Hs as [| a l' Hs IH Hall]; constructor; trivial.
  eapply Forall_impl; [exact Hall |]. intros b. apply not_after_key_comp.
Qed.

End SortByKey.

(** *** Layers, looked up and written back *)

Lemma GetLayer_eq (i : Z) (layers : Layers) :
  GetLayer i layers =
    (Layer.with_clearCount 0 (default Layer.new (layers !! i)),
     <[i := Layer.with_clearCount 0 (default Layer.new (layers !! i))]> layers).
Proof. reflexivity. Qed.

Lemma opaque_entry_insert (layers : Layers) (k k' : Z) (layer : Layer.t)
    (material : MaterialPtr) :
  opaque_entry (<[k := layer]> layers) k' material =
    if decide (k = k') then Layer.opaqueModels layer !! material
    else opaque_entry layers k' material.
Proof.
  unfold opaque_entry. rewrite lookup_insert. destruct (decide (k = k')); reflexivity.
Qed.

(** Writing back a layer whose opaque batches are those the layer had (or
    those of a new layer) leaves every opaque entry of the queue as it was. *)
Lemma opaque_entry_insert_same (layers : Layers) (k k' : Z) (layer : Layer.t)
    (material : MaterialPtr) :
  Layer.opaqueModels layer = Layer.opaqueModels (default Layer.new (layers !! k)) ->
  opaque_entry (<[k := layer]> layers) k' material = opaque_entry layers k' material.
Proof.
  intros Heq. rewrite opaque_entry_insert. destruct (decide (k = k')) as [<- |]; trivial.
  rewrite Heq. unfold opaque_entry. destruct (layers !! k); reflexivity.
Qed.

(** *** The loop of [AddBillboards] *)

Lemma fill_vector (item : nat -> BillboardData.t) (old : list BillboardData.t)
    (n s : nat) :
  foldl (fun v i => <[length old + i := item i]> v)
        (old ++ (item <$> seq 0 s) ++ replicate n BillboardData.blank)
        (seq s n)
  = old ++ (item <$> seq 0 (s + n)).
Proof.
  revert s. induction n as [| n IH]; intros s; simpl.
  - rewrite Nat.add_0_r, app_nil_r. reflexivity.
  - rewrite insert_app_r.
    replace s with (length (item <$> seq 0 s) + 0)%nat at 1
      by (rewrite length_fmap, length_seq; lia).
    rewrite insert_app_r. simpl.
    replace (s + S n)%nat with (S s + n)%nat by lia.
    rewrite <- IH. f_equal. f_equal.
    rewrite seq_S, fmap_app, <- app_assoc. reflexivity.
Qed.

Lemma store_billboard_insert (k : Z) (m : MaterialPtr) (index : nat)
    (data : BillboardData.t) (slot : option MaterialPtr) (v : list BillboardData.t)
    (B : gmap MaterialPtr BatchedBillboardEntry.t) (layer : Layer.t) (layers : Layers) :
  store_billboard k m index data
    (<[k := Layer.with_billboards (<[m := BatchedBillboardEntry.Build slot v]> B) layer]>
       layers)
  = <[k := Layer.with_billboards
             (<[m := BatchedBillboardEntry.Build slot (<[index := data]> v)]> B) layer]>
      layers.
Proof.
  unfold store_billboard. rewrite alter_insert_eq. f_equal.
  unfold Layer.with_billboards; simpl. rewrite alter_insert_eq. reflexivity.
Qed.

Lemma store_billboards_insert (k : Z) (m : MaterialPtr) (prevSize : nat)
    (item : nat -> BillboardData.t) (slot : option MaterialPtr)
    (B : gmap MaterialPtr BatchedBillboardEntry.t) (layer : Layer.t) (layers : Layers)
    (indices : list nat) (v : list BillboardData.t) :
  foldl (fun layers i => store_billboard k m (prevSize + i) (item i) layers)
    (<[k := Layer.with_billboards (<[m := BatchedBillboardEntry.Build slot v]> B) layer]>
       layers)
    indices
  = <[k := Layer.with_billboards
             (<[m := BatchedBillboardEntry.Build slot
                       (foldl (fun v i => <[prevSize + i := item i]> v) v indices)]> B)
             layer]> layers.
Proof.
  revert v. induction indices as [| i indices IH]; intros v; simpl; [reflexivity |].
  rewrite store_billboard_insert. apply IH.
Qed.

(** What a call of [AddBillboards] amounts to: the layer is found or made,
    its clear count reset, and the [count] items are at the end of the
    vector of the entry of the material. *)
Lemma fill_billboards_eq (k : Z) (m : MaterialPtr) (count : nat)
    (item : nat -> BillboardData.t) (layers : Layers) :
  fill_billboards k m count item layers =
    <[k := Layer.with_billboards
             (<[m := BatchedBillboardEntry.Build
                       (BatchedBillboardEntry.materialReleaseSlot
                          (found_billboards layers k m))
                       (BatchedBillboardEntry.billboards (found_billboards layers k m)
                          ++ (item <$> seq 0 count))]>
                (Layer.billboards (default Layer.new (layers !! k))))
             (Layer.with_clearCount 0 (default Layer.new (layers !! k)))]> layers.
Proof.
  unfold fill_billboards, GetBillboardData. rewrite GetLayer_eq. cbv zeta.
  change (Layer.billboards (Layer.with_clearCount 0 (default Layer.new (layers !! k))))
    with (Layer.billboards (default Layer.new (layers !! k))).
  fold (found_billboards layers k m).
  unfold BatchedBillboardEntry.with_billboards.
  rewrite insert_insert_eq, store_billboards_insert.
  pose proof (fill_vector item
                (BatchedBillboardEntry.billboards (found_billboards layers k m))
                count 0) as Hfill.
  simpl in Hfill. rewrite Hfill. reflexivity.
Qed.

Lemma billboards_of_found (layers : Layers) (k : Z) (m : MaterialPtr) :
  billboards_of layers k m = BatchedBillboardEntry.billboards (found_billboards layers k m).
Proof.
  unfold billboards_of, found_billboards.
  destruct (layers !! k) as [layer |]; simpl; [| rewrite lookup_empty; reflexivity].
  destruct (Layer.billboards layer !! m); reflexivity.
Qed.

Lemma billboards_of_fill (k : Z) (m : MaterialPtr) (count : nat)
    (item : nat -> BillboardData.t) (layers : Layers) :
  billboards_of (fill_billboards k m count item layers) k m
  = billboards_of layers k m ++ (item <$> seq 0 count).
Proof.
  rewrite fill_billboards_eq, (billboards_of_found layers).
  unfold billboards_of. rewrite lookup_insert_eq. simpl. rewrite lookup_insert_eq.
  reflexivity.
Qed.

Section Billboards.
Context `{Platform}.

Lemma AddBillboards_overload_eq (k : Z) (m : MaterialPtr) (count : nat)
    (positionPtr : nat -> Vector3f.t) (sizes : BillboardSizes)
    (rotations : BillboardRotations) (tints : BillboardTints) (layers : Layers) :
  AddBillboards_overload k m count positionPtr sizes rotations tints layers
  = fill_billboards k m count (overload_item positionPtr sizes rotations tints) layers.
Proof. destruct sizes, rotations, tints; reflexivity. Qed.

Lemma found_billboards_absent (layers : Layers) (k : Z) (m : MaterialPtr) :
  billboard_entry layers k m = None ->
  found_billboards layers k m = BatchedBillboardEntry.Build (Some m) [].
Proof.
  unfold billboard_entry, found_billboards.
  destruct (layers !! k) as [layer |]; simpl.
  - intros ->. reflexivity.
  - rewrite lookup_empty. reflexivity.
Qed.

(** C10.  [AddBillboards] called with [count = 0] and a material that has
    no billboard batch in the target layer leaves that layer with a
    billboard batch entry keyed by the material: its release slot is
    connected to the material and its vector of billboards is empty. *)
Theorem AddBillboards_zero_creates_entry (k : Z) (m : MaterialPtr)
    (positionPtr : nat -> Vector3f.t) (sizes : BillboardSizes)
    (rotations : BillboardRotations) (tints : BillboardTints) (layers : Layers) :
  billboard_entry layers k m = None ->
  billboard_entry
    (AddBillboards_overload k m 0 positionPtr sizes rotations tints layers) k m
  = Some (BatchedBillboardEntry.Build (Some m) []).
Proof.
  intros Habsent. rewrite AddBillboards_overload_eq, fill_billboards_eq.
  rewrite (found_billboards_absent _ _ _ Habsent).
  unfold billboard_entry. rewrite lookup_insert_eq. simpl.
  rewrite lookup_insert_eq. reflexivity.
Qed.

Lemma float_to_UInt8_floor (x : float) :
  (0 <= x)%Q -> (x < 256)%Q -> float_to_UInt8 x = Qfloor x.
Proof.
  intros H0 H256. unfold float_to_UInt8.
  assert (Hnum : (0 <= Qnum x)%Z).
  { destruct x as [n d]. unfold Qle in H0. simpl in *. lia. }
  rewrite Z.quot_div_nonneg by lia.
  replace (Qnum x / Z.pos (Qden x))%Z with (Qfloor x) by (destruct x; reflexivity).
  apply Z.mod_small. split.
  - change 0%Z with (Qfloor 0). apply Qfloor_resp_le, H0.
  - assert (Hle : (Qfloor x <= 255)%Z); [| lia].
    apply Z.lt_succ_r. rewrite Zlt_Qlt.
    eapply Qle_lt_trans; [apply Qfloor_le |]. exact H256.
Qed.

(** What [static_cast<UInt8>(255.f * alpha)] keeps of an alpha between 0
    and 1: the integer part of the product. *)
Lemma alpha_channel_truncates (alpha : float) :
  (0 <= alpha)%Q -> (alpha <= 1)%Q ->
  (inject_Z (float_to_UInt8 (255 * alpha)) <= 255 * alpha)%Q
  /\ (255 * alpha < inject_Z (float_to_UInt8 (255 * alpha)) + 1)%Q.
Proof.
  intros H0 H1.
  assert (Hlo : (0 <= 255 * alpha)%Q).
  { apply Qmult_le_0_compat; [discriminate | exact H0]. }
  assert (Hhi : (255 * alpha < 256)%Q).
  { apply Qle_lt_trans with (255 * 1)%Q; [| reflexivity].
    apply Qmult_le_l; [reflexivity | exact H1]. }
  rewrite (float_to_UInt8_floor _ Hlo Hhi). split.
  - apply Qfloor_le.
  - pose proof (Qlt_floor (255 * alpha)) as Hlt.
    rewrite inject_Z_plus in Hlt. exact Hlt.
Qed.

(** C6, as amended.  Every overload of [AddBillboards] appends [count]
    entries to the batch of the material.  With a null rotation pointer,
    be it to (sin, cos) pairs or to angles, each has the pair (0, 1) as
    its sine and cosine; with a null color pointer each is opaque white;
    with a null alpha pointer each is white with alpha 255; and an alpha
    between 0 and 1 is stored as white with the alpha channel the integer
    part of 255×alpha (truncated, not rounded). *)
Theorem AddBillboards_defaults (k : Z) (m : MaterialPtr) (count : nat)
    (positionPtr : nat -> Vector3f.t) (sizes : BillboardSizes)
    (rotations : BillboardRotations) (tints : BillboardTints) (layers : Layers) :
  exists new : list BillboardData.t,
    billboards_of
      (AddBillboards_overload k m count positionPtr sizes rotations tints layers) k m
    = billboards_of layers k m ++ new
    /\ length new = count
    /\ (rotations = SinCosPairs None ->
        Forall (fun d => BillboardData.sinCos d = Vector2f.Build 0 1) new)
    /\ (rotations = Angles None ->
        Forall (fun d => BillboardData.sinCos d = Vector2f.Build 0 1) new)
    /\ (tints = Colors None ->
        Forall (fun d => BillboardData.color d = Color.White) new)
    /\ (tints = Alphas None ->
        Forall (fun d => BillboardData.color d = Color.Build 255 255 255 255) new)
    /\ (forall alphaPtr : nat -> float, tints = Alphas (Some alphaPtr) ->
        forall (i : nat) (d : BillboardData.t), new !! i = Some d ->
        (0 <= alphaPtr i)%Q -> (alphaPtr i <= 1)%Q ->
        Color.r (BillboardData.color d) = 255%Z
        /\ Color.g (BillboardData.color d) = 255%Z
        /\ Color.b (BillboardData.color d) = 255%Z
        /\ (inject_Z (Color.a (BillboardData.color d)) <= 255 * alphaPtr i)%Q
        /\ (255 * alphaPtr i < inject_Z (Color.a (BillboardData.color d)) + 1)%Q).
Proof.
  exists (overload_item positionPtr sizes rotations tints <$> seq 0 count).
  split; [| split].
  - rewrite AddBillboards_overload_eq. apply billboards_of_fill.
  - rewrite length_fmap. apply length_seq.
  - repeat apply conj.
    + intros ->. apply Forall_fmap, Forall_forall. reflexivity.
    + intros ->. apply Forall_fmap, Forall_forall. intros i _.
      cbn [compose overload_item reset_if_null BillboardData.sinCos].
      rewrite std_sin_ToRadians_0, std_cos_ToRadians_0. reflexivity.
    + intros ->. apply Forall_fmap, Forall_forall. reflexivity.
    + intros ->. apply Forall_fmap, Forall_forall. reflexivity.
    + intros alphaPtr -> i d Hd H0 H1.
      rewrite list_lookup_fmap in Hd.
      destruct (seq 0 count !! i) as [j |] eqn:Hj; [| discriminate].
      apply lookup_seq in Hj as [-> _]. simpl in Hd.
      injection Hd as <-. simpl.
      pose proof (alpha_channel_truncates (alphaPtr i) H0 H1) as [Hlo Hhi].
      repeat apply conj; trivial.
Qed.

End Billboards.

(** C6, as stated, fails: an alpha of 511/512 is stored as 254, and
    255 × 511/512 = 254.50..., which rounds to 255. *)
Lemma AddBillboards_alpha_not_rounded :
  let alpha := (511 # 512)%Q in
  let layers :=
    AddBillboards_alpha 0 1%positive 1
      (fun _ => Vector3f.Build 0 0 0) (fun _ => Vector2f.Build 1 1)
      None (Some (fun _ => alpha)) ∅ in
  exists d : BillboardData.t,
    billboards_of layers 0 1%positive = [d]
    /\ Color.a (BillboardData.color d) = 254%Z
    /\ round_nearest (255 * alpha) = 255%Z
    /\ Color.a (BillboardData.color d) <> round_nearest (255 * alpha).
Proof.
  eexists. split; [vm_compute; reflexivity |].
  vm_compute. repeat split; congruence.
Qed.

(** *** [AddMesh] *)

Section Meshes.
Context `{Platform}.

Lemma AddMesh_blend_eq (materials : Materials) (k : Z) (m : MaterialPtr)
    (meshData : MeshData.t) (meshAABB : Boxf.t) (transformMatrix : Matrix4f.t)
    (layers : Layers) :
  Material.blend (materials m) = true ->
  AddMesh materials k m meshData meshAABB transformMatrix layers =
    let layer := default Layer.new (layers !! k) in
    <[k := Layer.Build (Layer.billboards layer) (Layer.basicSprites layer)
             (Layer.opaqueModels layer)
             (Layer.transparentModels layer ++ [length (Layer.transparentModelData layer)])
             (Layer.transparentModelData layer
                ++ [TransparentModelData.Build transformMatrix meshData
                      (transparent_sphere meshAABB transformMatrix) m])
             (Layer.otherDrawables layer) 0]> layers.
Proof.
  intros Hblend. unfold AddMesh. rewrite Hblend, GetLayer_eq. cbv zeta. simpl.
  rewrite insert_insert_eq. reflexivity.
Qed.

Lemma opaque_entry_default (layers : Layers) (k : Z) (m : MaterialPtr) :
  Layer.opaqueModels (default Layer.new (layers !! k)) !! m = opaque_entry layers k m.
Proof.
  unfold opaque_entry. destruct (layers !! k); simpl; [reflexivity | apply lookup_empty].
Qed.

Lemma AddMesh_opaque_eq (materials : Materials) (k : Z) (m : MaterialPtr)
    (meshData : MeshData.t) (meshAABB : Boxf.t) (transformMatrix : Matrix4f.t)
    (layers : Layers) :
  Material.blend (materials m) = false ->
  AddMesh materials k m meshData meshAABB transformMatrix layers =
    let layer := Layer.with_clearCount 0 (default Layer.new (layers !! k)) in
    <[k := Layer.with_opaqueModels
             (<[m := added_opaque layers k m meshData meshAABB transformMatrix]>
                (Layer.opaqueModels layer))
             layer]> layers.
Proof.
  intros Hblend. unfold AddMesh. rewrite Hblend, GetLayer_eq. cbv zeta.
  rewrite insert_insert_eq.
  unfold added_opaque, found_instances, found_opaque.
  rewrite <- opaque_entry_default. reflexivity.
Qed.

Lemma opaque_entry_AddMesh_opaque (materials : Materials) (k : Z) (m : MaterialPtr)
    (meshData : MeshData.t) (meshAABB : Boxf.t) (transformMatrix : Matrix4f.t)
    (layers : Layers) (k' : Z) (m' : MaterialPtr) :
  Material.blend (materials m) = false ->
  opaque_entry (AddMesh materials k m meshData meshAABB transformMatrix layers) k' m' =
    if decide (k = k' /\ m = m')
    then Some (added_opaque layers k m meshData meshAABB transformMatrix)
    else opaque_entry layers k' m'.
Proof.
  intros Hblend. rewrite (AddMesh_opaque_eq _ _ _ _ _ _ _ Hblend). cbv zeta.
  rewrite opaque_entry_insert. simpl.
  destruct (decide (k = k')) as [<- | Hk].
  - rewrite lookup_insert. destruct (decide (m = m')) as [<- | Hm].
    + rewrite decide_True by auto. reflexivity.
    + rewrite decide_False by tauto. apply opaque_entry_default.
  - rewrite decide_False by tauto. reflexivity.
Qed.

Lemma opaque_entry_AddMesh_blend (materials : Materials) (k : Z) (m : MaterialPtr)
    (meshData : MeshData.t) (meshAABB : Boxf.t) (transformMatrix : Matrix4f.t)
    (layers : Layers) (k' : Z) (m' : MaterialPtr) :
  Material.blend (materials m) = true ->
  opaque_entry (AddMesh materials k m meshData meshAABB transformMatrix layers) k' m'
  = opaque_entry layers k' m'.
Proof.
  intros Hblend. rewrite (AddMesh_blend_eq _ _ _ _ _ _ _ Hblend). cbv zeta.
  apply opaque_entry_insert_same. reflexivity.
Qed.

(** C2.  [AddMesh] with a material that has alpha blending enabled appends
    one model to the transparent list of the layer: its index at the end
    of [transparentModels], and at the end of [transparentModelData] the
    material, the mesh and the transform of the call with a bounding sphere
    whose center is the translation of the transform plus the center of
    the box, and whose (squared) radius is the squared radius of the box.
    No opaque batch entry of any layer is created or changed. *)
Theorem AddMesh_transparent (materials : Materials) (k : Z) (m : MaterialPtr)
    (meshData : MeshData.t) (meshAABB : Boxf.t) (transformMatrix : Matrix4f.t)
    (layers : Layers) :
  Material.blend (materials m) = true ->
  let before := default Layer.new (layers !! k) in
  let layers' := AddMesh materials k m meshData meshAABB transformMatrix layers in
  exists (after : Layer.t) (data : TransparentModelData.t),
    layers' !! k = Some after
    /\ Layer.transparentModelData after = Layer.transparentModelData before ++ [data]
    /\ Layer.transparentModels after
       = Layer.transparentModels before ++ [length (Layer.transparentModelData before)]
    /\ TransparentModelData.material data = m
    /\ TransparentModelData.meshData data = meshData
    /\ TransparentModelData.transformMatrix data = transformMatrix
    /\ Spheref.GetPosition (TransparentModelData.squaredBoundingSphere data)
       = Vector3f.add (Matrix4f.GetTranslation transformMatrix)
                      (Boxf.GetCenter meshAABB)
    /\ Spheref.radius (TransparentModelData.squaredBoundingSphere data)
       = Boxf.GetSquaredRadius meshAABB
    /\ (forall (k' : Z) (m' : MaterialPtr),
          opaque_entry layers' k' m' = opaque_entry layers k' m').
Proof.
  intros Hblend before layers'. subst layers'.
  assert (Hopaque := fun k' m' =>
            opaque_entry_AddMesh_blend materials k m meshData meshAABB transformMatrix
              layers k' m' Hblend).
  rewrite (AddMesh_blend_eq _ _ _ _ _ _ _ Hblend) in *. cbv zeta in *. fold before.
  eexists _, _. split; [apply lookup_insert_eq |]. simpl.
  repeat apply conj; try reflexivity.
  exact Hopaque.
Qed.

Lemma flags_follow_counts_empty : flags_follow_counts ∅.
Proof. intros k m entry Hentry. unfold opaque_entry in Hentry. simplify_map_eq. Qed.

Lemma found_opaque_follows (layers : Layers) (k : Z) (m : MaterialPtr) :
  flags_follow_counts layers ->
  BatchedModelEntry.instancingEnabled (found_opaque layers k m) = true
  <-> some_mesh_reached (found_opaque layers k m).
Proof.
  intros Hinv. unfold found_opaque.
  destruct (opaque_entry layers k m) as [entry |] eqn:Hentry; [eauto |].
  simpl. split; [discriminate |].
  intros (md & ie & Hie & _). simpl in Hie. rewrite lookup_empty in Hie. discriminate.
Qed.

Lemma found_instances_lookup (layers : Layers) (k : Z) (m : MaterialPtr)
    (meshData : MeshData.t) (meshAABB : Boxf.t) (instanceEntry : MeshInstanceEntry.t) :
  BatchedModelEntry.meshMap (found_opaque layers k m) !! meshData = Some instanceEntry ->
  found_instances layers k m meshData meshAABB = instanceEntry.
Proof. unfold found_instances. intros ->. reflexivity. Qed.

Lemma added_opaque_follows (layers : Layers) (k : Z) (m : MaterialPtr)
    (meshData : MeshData.t) (meshAABB : Boxf.t) (transformMatrix : Matrix4f.t) :
  flags_follow_counts layers ->
  BatchedModelEntry.instancingEnabled
    (added_opaque layers k m meshData meshAABB transformMatrix) = true
  <-> some_mesh_reached (added_opaque layers k m meshData meshAABB transformMatrix).
Proof.
  intros Hinv. pose proof (found_opaque_follows layers k m Hinv) as Hfound.
  unfold added_opaque. cbv zeta. simpl.
  destruct (Nat.leb_spec NAZARA_GRAPHICS_INSTANCING_MIN_INSTANCES_COUNT
              (length (MeshInstanceEntry.instances
                         (found_instances layers k m meshData meshAABB)
                       ++ [transformMatrix]))) as [Hreached | Hbelow].
  - split; [| reflexivity]. intros _.
    eexists meshData, _. simpl. rewrite lookup_insert_eq. split; [reflexivity |].
    exact Hreached.
  - rewrite Hfound. split.
    + intros (md & ie & Hie & Hlen). exists md, ie. split; [| exact Hlen]. simpl.
      rewrite lookup_insert_ne; [exact Hie |]. intros <-.
      rewrite (found_instances_lookup _ _ _ _ meshAABB _ Hie) in Hbelow.
      rewrite length_app in Hbelow. simpl in Hbelow. lia.
    + intros (md & ie & Hie & Hlen). simpl in Hie.
      rewrite lookup_insert in Hie. destruct (decide (meshData = md)) as [<- | Hmd].
      * injection Hie as <-. simpl in Hlen. lia.
      * exists md, ie. split; assumption.
Qed.

Lemma flags_follow_counts_AddMesh (materials : Materials) (k : Z) (m : MaterialPtr)
    (meshData : MeshData.t) (meshAABB : Boxf.t) (transformMatrix : Matrix4f.t)
    (layers : Layers) :
  Material.blend (materials m) = false ->
  flags_follow_counts layers ->
  flags_follow_counts (AddMesh materials k m meshData meshAABB transformMatrix layers).
Proof.
  intros Hblend Hinv k' m' entry.
  rewrite (opaque_entry_AddMesh_opaque _ _ _ _ _ _ _ _ _ Hblend).
  destruct (decide (k = k' /\ m = m')) as [_ | _].
  - intros [= <-]. apply added_opaque_follows, Hinv.
  - apply Hinv.
Qed.

Lemma flags_follow_counts_run (calls : list Call) (layers : Layers) :
  Forall opaque_AddMesh calls ->
  flags_follow_counts layers ->
  flags_follow_counts (run calls layers).
Proof.
  intros Hcalls. revert layers.
  induction Hcalls as [| c calls Hc _ IH]; intros layers Hinv; [exact Hinv |].
  unfold run. simpl. apply IH.
  destruct c; simpl in Hc; try contradiction.
  simpl. apply flags_follow_counts_AddMesh; assumption.
Qed.

Lemma run_snoc (calls : list Call) (c : Call) (layers : Layers) :
  run (calls ++ [c]) layers = exec c (run calls layers).
Proof. unfold run. rewrite foldl_snoc. reflexivity. Qed.

(** The same mesh submitted [S n] times to an empty queue: one mesh entry,
    of [S n] instances. *)
Lemma run_repeated_AddMesh (materials : Materials) (k : Z) (m : MaterialPtr)
    (meshData : MeshData.t) (meshAABB : Boxf.t) (transformMatrix : Matrix4f.t) (n : nat) :
  Material.blend (materials m) = false ->
  exists (entry : BatchedModelEntry.t) (instanceEntry : MeshInstanceEntry.t),
    opaque_entry
      (run (replicate (S n)
              (CallAddMesh materials k m meshData meshAABB transformMatrix)) ∅) k m
    = Some entry
    /\ BatchedModelEntry.meshMap entry = {[meshData := instanceEntry]}
    /\ length (MeshInstanceEntry.instances instanceEntry) = S n.
Proof.
  intros Hblend. induction n as [| n (entry & instanceEntry & Hentry & Hmap & Hlen)].
  - change (run _ ∅)
      with (AddMesh materials k m meshData meshAABB transformMatrix ∅).
    rewrite (opaque_entry_AddMesh_opaque _ _ _ _ _ _ _ _ _ Hblend).
    rewrite decide_True by auto. eexists _, _. split; [reflexivity |].
    unfold added_opaque, found_instances, found_opaque, opaque_entry.
    rewrite lookup_empty. simpl. rewrite lookup_empty. simpl.
    split; [apply insert_empty | reflexivity].
  - rewrite replicate_S_end, run_snoc. cbn [exec].
    rewrite (opaque_entry_AddMesh_opaque _ _ _ _ _ _ _ _ _ Hblend).
    rewrite decide_True by auto. eexists _, _. split; [reflexivity |].
    unfold added_opaque, found_instances, found_opaque.
    rewrite Hentry, Hmap, lookup_singleton_eq. simpl.
    split; [apply insert_singleton_eq |].
    cbn [MeshInstanceEntry.instances]. rewrite length_app, Hlen. simpl. lia.
Qed.

(** Whatever the threshold, from 2 on: once a mesh has reached it, another
    mesh of the same material has the flag of the batch from its first
    instance. *)
Lemma flag_shared_by_meshes (materials : Materials) (k : Z) (m : MaterialPtr)
    (meshA meshB : MeshData.t) (meshAABB : Boxf.t) (transformMatrix : Matrix4f.t) :
  Material.blend (materials m) = false ->
  meshA <> meshB ->
  (2 <= NAZARA_GRAPHICS_INSTANCING_MIN_INSTANCES_COUNT)%nat ->
  exists (entry : BatchedModelEntry.t) (instanceEntry : MeshInstanceEntry.t),
    opaque_entry
      (run (replicate NAZARA_GRAPHICS_INSTANCING_MIN_INSTANCES_COUNT
              (CallAddMesh materials k m meshA meshAABB transformMatrix)
            ++ [CallAddMesh materials k m meshB meshAABB transformMatrix]) ∅) k m
    = Some entry
    /\ BatchedModelEntry.meshMap entry !! meshB = Some instanceEntry
    /\ length (MeshInstanceEntry.instances instanceEntry) = 1%nat
    /\ BatchedModelEntry.instancingEnabled entry = true.
Proof.
  intros Hblend Hmesh Hthreshold.
  destruct NAZARA_GRAPHICS_INSTANCING_MIN_INSTANCES_COUNT as [| n] eqn:Hn; [lia |].
  destruct (run_repeated_AddMesh materials k m meshA meshAABB transformMatrix n Hblend)
    as (entry & instanceEntry & Hentry & Hmap & Hlen).
  assert (Hflag : BatchedModelEntry.instancingEnabled entry = true).
  { refine (proj2 (flags_follow_counts_run _ ∅ _ flags_follow_counts_empty k m entry
                     Hentry) _).
    - apply Forall_replicate. exact Hblend.
    - exists meshA, instanceEntry. rewrite Hmap, lookup_singleton_eq, Hn. split; [reflexivity | lia]. }
  rewrite run_snoc. cbn [exec].
  rewrite (opaque_entry_AddMesh_opaque _ _ _ _ _ _ _ _ _ Hblend).
  rewrite decide_True by auto. eexists _, _. split; [reflexivity |].
  unfold added_opaque, found_instances, found_opaque.
  rewrite Hentry, Hmap, lookup_singleton_ne by exact Hmesh. simpl.
  rewrite lookup_insert_eq. split; [reflexivity |]. split; [reflexivity |].
  rewrite Hflag. destruct (_ <=? _)%nat; reflexivity.
Qed.

(** C3, as amended.  After any sequence of [AddMesh] calls with materials
    that do not blend, on a queue that starts empty, the instancing flag
    of the opaque batch of a material in a layer is true if and only if
    some mesh entry of that batch has accumulated at least the threshold
    number of instances.  (The flag belongs to the batch of the material,
    which all its meshes share.) *)
Theorem instancing_flag_iff_some_mesh_reached (calls : list Call) (k : Z)
    (m : MaterialPtr) (entry : BatchedModelEntry.t) :
  Forall opaque_AddMesh calls ->
  opaque_entry (run calls ∅) k m = Some entry ->
  BatchedModelEntry.instancingEnabled entry = true
  <-> exists (meshData : MeshData.t) (instanceEntry : MeshInstanceEntry.t),
        BatchedModelEntry.meshMap entry !! meshData = Some instanceEntry
        /\ (NAZARA_GRAPHICS_INSTANCING_MIN_INSTANCES_COUNT
            <= length (MeshInstanceEntry.instances instanceEntry))%nat.
Proof.
  intros Hcalls Hentry.
  exact (flags_follow_counts_run calls ∅ Hcalls flags_follow_counts_empty k m entry Hentry).
Qed.

End Meshes.

(** *** What each call does to the opaque batches *)

Lemma opaque_entry_fmap (f : Layer.t -> Layer.t) (layers : Layers) (k : Z)
    (m : MaterialPtr) :
  opaque_entry (f <$> layers) k m =
    match layers !! k with
    | Some layer => Layer.opaqueModels (f layer) !! m
    | None => None
    end.
Proof. unfold opaque_entry. rewrite lookup_fmap. destruct (layers !! k); reflexivity. Qed.

Lemma opaque_entry_AddBillboard (k : Z) (m : MaterialPtr) (position : Vector3f.t)
    (size sinCos : Vector2f.t) (color : Color.t) (layers : Layers)
    (k' : Z) (m' : MaterialPtr) :
  opaque_entry (AddBillboard k m position size sinCos color layers) k' m'
  = opaque_entry layers k' m'.
Proof.
  unfold AddBillboard. rewrite GetLayer_eq. cbv zeta. rewrite insert_insert_eq.
  apply opaque_entry_insert_same. reflexivity.
Qed.

Lemma opaque_entry_fill_billboards (k : Z) (m : MaterialPtr) (count : nat)
    (item : nat -> BillboardData.t) (layers : Layers) (k' : Z) (m' : MaterialPtr) :
  opaque_entry (fill_billboards k m count item layers) k' m' = opaque_entry layers k' m'.
Proof. rewrite fill_billboards_eq. apply opaque_entry_insert_same. reflexivity. Qed.

Lemma opaque_entry_AddDrawable (k : Z) (drawable : option DrawablePtr) (layers : Layers)
    (k' : Z) (m' : MaterialPtr) :
  opaque_entry (AddDrawable k drawable layers) k' m' = opaque_entry layers k' m'.
Proof.
  destruct drawable as [drawable |]; [| reflexivity].
  unfold AddDrawable. rewrite GetLayer_eq. cbv zeta. rewrite insert_insert_eq.
  apply opaque_entry_insert_same. reflexivity.
Qed.

Lemma opaque_entry_AddSprites (k : Z) (m : MaterialPtr) (vertices : VerticesPtr)
    (spriteCount : nat) (overlay : option TexturePtr) (layers : Layers)
    (k' : Z) (m' : MaterialPtr) :
  opaque_entry (AddSprites k m vertices spriteCount overlay layers) k' m'
  = opaque_entry layers k' m'.
Proof.
  unfold AddSprites. rewrite GetLayer_eq. cbv zeta. rewrite insert_insert_eq.
  apply opaque_entry_insert_same. reflexivity.
Qed.

Lemma opaque_entry_Sort (materials : Materials) (viewer : Viewer.t) (layers : Layers)
    (k' : Z) (m' : MaterialPtr) :
  opaque_entry (Sort materials viewer layers) k' m' = opaque_entry layers k' m'.
Proof. unfold Sort. cbv zeta. rewrite opaque_entry_fmap. reflexivity. Qed.

Lemma opaque_entry_OnTextureInvalidation (texture : option TexturePtr) (layers : Layers)
    (k' : Z) (m' : MaterialPtr) :
  opaque_entry (OnTextureInvalidation texture layers) k' m' = opaque_entry layers k' m'.
Proof. unfold OnTextureInvalidation. rewrite opaque_entry_fmap. reflexivity. Qed.

Lemma opaque_entry_OnMaterialInvalidation (material : MaterialPtr) (layers : Layers)
    (k' : Z) (m' : MaterialPtr) :
  opaque_entry (OnMaterialInvalidation material layers) k' m' =
    if decide (material = m') then None else opaque_entry layers k' m'.
Proof.
  unfold OnMaterialInvalidation. rewrite opaque_entry_fmap. unfold opaque_entry.
  destruct (layers !! k') as [layer |]; simpl.
  - rewrite lookup_delete. reflexivity.
  - destruct (decide (material = m')); reflexivity.
Qed.

(** A buffer invalidation erases mesh entries of a batch; the batch itself,
    and its flags, stay. *)
Lemma opaque_entry_OnIndexBufferInvalidation (indexBuffer : option IndexBufferPtr)
    (layers : Layers) (k' : Z) (m' : MaterialPtr) :
  opaque_entry (OnIndexBufferInvalidation indexBuffer layers) k' m'
  = (fun entry =>
       BatchedModelEntry.with_meshMap
         (filter (fun kv => MeshData.indexBuffer kv.1 <> indexBuffer)
                 (BatchedModelEntry.meshMap entry)) entry)
    <$> opaque_entry layers k' m'.
Proof.
  unfold OnIndexBufferInvalidation. rewrite opaque_entry_fmap. unfold opaque_entry.
  destruct (layers !! k') as [layer |]; simpl; [| reflexivity].
  apply lookup_fmap.
Qed.

Lemma opaque_entry_OnVertexBufferInvalidation (vertexBuffer : VertexBufferPtr)
    (layers : Layers) (k' : Z) (m' : MaterialPtr) :
  opaque_entry (OnVertexBufferInvalidation vertexBuffer layers) k' m'
  = (fun entry =>
       BatchedModelEntry.with_meshMap
         (filter (fun kv => MeshData.vertexBuffer kv.1 <> vertexBuffer)
                 (BatchedModelEntry.meshMap entry)) entry)
    <$> opaque_entry layers k' m'.
Proof.
  unfold OnVertexBufferInvalidation. rewrite opaque_entry_fmap. unfold opaque_entry.
  destruct (layers !! k') as [layer |]; simpl; [| reflexivity].
  apply lookup_fmap.
Qed.

Lemma Clear_lookup (layers : Layers) (k : Z) :
  Clear false layers !! k =
    match layers !! k with
    | Some layer =>
        if (100 <=? Layer.clearCount layer)%nat then None
        else Some (Layer.Build (Layer.billboards layer) (Layer.basicSprites layer)
                     (Layer.opaqueModels layer) [] [] [] (S (Layer.clearCount layer)))
    | None => None
    end.
Proof. unfold Clear. rewrite lookup_omap. destruct (layers !! k); reflexivity. Qed.

Section FlagKept.
Context `{Platform}.

(** C9.  Whatever the call made on the queue, an opaque batch whose
    instancing flag is set and that is still in its layer after the call
    still has the flag set: the flag only goes with the batch, when the
    material is invalidated, or with the layer, when [Clear(true)] drops
    every layer or a lightweight [Clear] drops an idle one. *)
Theorem instancing_flag_kept (c : Call) (layers : Layers) (k : Z) (m : MaterialPtr)
    (entry entry' : BatchedModelEntry.t) :
  opaque_entry layers k m = Some entry ->
  BatchedModelEntry.instancingEnabled entry = true ->
  opaque_entry (exec c layers) k m = Some entry' ->
  BatchedModelEntry.instancingEnabled entry' = true.
Proof.
  intros Hentry Hflag.
  destruct c as [ ko mo position size sinCos color
                | ko mo count positionPtr sizes rotations tints
                | ko drawable
                | materials ko mo meshData meshAABB transformMatrix
                | ko mo vertices spriteCount overlay
                | fully
                | materials viewer
                | indexBuffer | material | texture | vertexBuffer ]; simpl.
  - rewrite opaque_entry_AddBillboard, Hentry. intros [= <-]. exact Hflag.
  - rewrite AddBillboards_overload_eq, opaque_entry_fill_billboards, Hentry.
    intros [= <-]. exact Hflag.
  - rewrite opaque_entry_AddDrawable, Hentry. intros [= <-]. exact Hflag.
  - destruct (Material.blend (materials mo)) eqn:Hblend.
    + rewrite (opaque_entry_AddMesh_blend _ _ _ _ _ _ _ _ _ Hblend), Hentry.
      intros [= <-]. exact Hflag.
    + rewrite (opaque_entry_AddMesh_opaque _ _ _ _ _ _ _ _ _ Hblend).
      destruct (decide (ko = k /\ mo = m)) as [[-> ->] | _].
      * intros [= <-]. unfold added_opaque, found_opaque. cbv zeta. simpl.
        rewrite Hentry, Hflag. destruct (_ <=? _)%nat; reflexivity.
      * rewrite Hentry. intros [= <-]. exact Hflag.
  - rewrite opaque_entry_AddSprites, Hentry. intros [= <-]. exact Hflag.
  - destruct fully.
    + unfold Clear, opaque_entry. rewrite lookup_empty. discriminate.
    + unfold opaque_entry in *. rewrite Clear_lookup.
      destruct (layers !! k) as [layer |]; [| discriminate].
      destruct (_ <=? _)%nat; [discriminate |]. simpl.
      rewrite Hentry. intros [= <-]. exact Hflag.
  - rewrite opaque_entry_Sort, Hentry. intros [= <-]. exact Hflag.
  - rewrite opaque_entry_OnIndexBufferInvalidation, Hentry.
    intros [= <-]. exact Hflag.
  - rewrite opaque_entry_OnMaterialInvalidation.
    destruct (decide (material = m)); [discriminate |].
    rewrite Hentry. intros [= <-]. exact Hflag.
  - rewrite opaque_entry_OnTextureInvalidation, Hentry. intros [= <-]. exact Hflag.
  - rewrite opaque_entry_OnVertexBufferInvalidation, Hentry.
    intros [= <-]. exact Hflag.
Qed.

End FlagKept.

(** *** Invalidation of a material *)

(** C4, as amended.  After [OnMaterialInvalidation(material)] the material
    is a key of none of the three batch maps (opaque models, sprites,
    billboards) of any layer: no batch entry of the queue is keyed by
    it. *)
Theorem OnMaterialInvalidation_erases_batches (material : MaterialPtr) (layers : Layers)
    (k : Z) (after : Layer.t) :
  OnMaterialInvalidation material layers !! k = Some after ->
  Layer.opaqueModels after !! material = None
  /\ Layer.basicSprites after !! material = None
  /\ Layer.billboards after !! material = None.
Proof.
  unfold OnMaterialInvalidation. rewrite lookup_fmap.
  destruct (layers !! k) as [before |]; [| discriminate].
  intros [= <-]. simpl. rewrite !lookup_delete_eq. auto.
Qed.

(** *** Lightweight clears *)

Lemma Clear_iter_S (n : nat) (layers : Layers) :
  Nat.iter (S n) (Clear false) layers = Clear false (Nat.iter n (Clear false) layers).
Proof. reflexivity. Qed.

Lemma Clear_iter_kept (n : nat) (layers : Layers) (k : Z) (layer : Layer.t) :
  layers !! k = Some layer ->
  (Layer.clearCount layer + S n <= 100)%nat ->
  Nat.iter (S n) (Clear false) layers !! k
  = Some (Layer.Build (Layer.billboards layer) (Layer.basicSprites layer)
            (Layer.opaqueModels layer) [] [] [] (Layer.clearCount layer + S n)).
Proof.
  intros Hlayer. induction n as [| n IH]; intros Hle.
  - rewrite Clear_iter_S. cbn [Nat.iter nat_rect]. rewrite Clear_lookup, Hlayer.
    destruct (Nat.leb_spec 100 (Layer.clearCount layer)); [lia |].
    do 2 f_equal. lia.
  - rewrite Clear_iter_S, Clear_lookup, IH by lia.
    cbn [Layer.billboards Layer.basicSprites Layer.opaqueModels Layer.clearCount].
    destruct (Nat.leb_spec 100 (Layer.clearCount layer + S n)); [lia |].
    do 2 f_equal. lia.
Qed.

Lemma Clear_iter_dropped (n : nat) (layers : Layers) (k : Z) (layer : Layer.t) :
  layers !! k = Some layer ->
  (100 < Layer.clearCount layer + S n)%nat ->
  Nat.iter (S n) (Clear false) layers !! k = None.
Proof.
  intros Hlayer. induction n as [| n IH]; intros Hlt.
  - rewrite Clear_iter_S. cbn [Nat.iter nat_rect]. rewrite Clear_lookup, Hlayer.
    destruct (Nat.leb_spec 100 (Layer.clearCount layer)); [reflexivity | lia].
  - rewrite Clear_iter_S, Clear_lookup.
    destruct (le_lt_dec (Layer.clearCount layer + S n) 100) as [Hle | Hgt].
    + rewrite (Clear_iter_kept n layers k layer Hlayer Hle).
      cbn [Layer.billboards Layer.basicSprites Layer.opaqueModels Layer.clearCount].
      destruct (Nat.leb_spec 100 (Layer.clearCount layer + S n)); [reflexivity | lia].
    + rewrite (IH Hgt). reflexivity.
Qed.

(** C5, as amended.  A lightweight clear that finds fewer than 100
    lightweight clears counted for a layer empties its transparent models
    and custom drawables, keeps its three batch maps and counts one more;
    a lightweight clear that finds 100 counted removes the layer.  So after
    a submission to the layer (which resets the count to 0) and with no
    other submission to it, the layer is still in the registry, emptied,
    after each of the first 100 lightweight clears, and it is removed by
    the 101st. *)
Theorem Clear_lightweight (layers : Layers) (k : Z) (layer : Layer.t) :
  layers !! k = Some layer ->
  ((Layer.clearCount layer < 100)%nat ->
   Clear false layers !! k
   = Some (Layer.Build (Layer.billboards layer) (Layer.basicSprites layer)
             (Layer.opaqueModels layer) [] [] [] (S (Layer.clearCount layer))))
  /\ ((100 <= Layer.clearCount layer)%nat -> Clear false layers !! k = None)
  /\ (Layer.clearCount layer = 0%nat ->
      forall n : nat,
        ((1 <= n <= 100)%nat ->
         Nat.iter n (Clear false) layers !! k
         = Some (Layer.Build (Layer.billboards layer) (Layer.basicSprites layer)
                   (Layer.opaqueModels layer) [] [] [] n))
        /\ ((100 < n)%nat -> Nat.iter n (Clear false) layers !! k = None)).
Proof.
  intros Hlayer. repeat apply conj.
  - intros Hlt. rewrite Clear_lookup, Hlayer.
    destruct (Nat.leb_spec 100 (Layer.clearCount layer)); [lia | reflexivity].
  - intros Hge. rewrite Clear_lookup, Hlayer.
    destruct (Nat.leb_spec 100 (Layer.clearCount layer)); [reflexivity | lia].
  - intros Hzero n. split; intros Hn.
    + destruct n as [| n]; [lia |].
      rewrite (Clear_iter_kept n layers k layer Hlayer) by lia.
      rewrite Hzero. reflexivity.
    + destruct n as [| n]; [lia |].
      apply (Clear_iter_dropped n layers k layer Hlayer). lia.
Qed.

(** *** Invalidation of a texture *)

(** C8.  [OnTextureInvalidation(texture)] keeps every layer, and in a
    layer every sprite batch; from the overlay map of each sprite batch it
    removes the bucket keyed by the texture and leaves every other bucket
    as it was (its sprite chains and their counts with it).  The slot and
    the flag of a sprite batch, the billboard and opaque batches, the
    transparent models, the custom drawables and the clear count of the
    layer are unchanged. *)
Theorem OnTextureInvalidation_removes_bucket (texture : option TexturePtr)
    (layers : Layers) (k : Z) :
  match layers !! k with
  | None => OnTextureInvalidation texture layers !! k = None
  | Some before =>
      exists after : Layer.t,
        OnTextureInvalidation texture layers !! k = Some after
        /\ Layer.billboards after = Layer.billboards before
        /\ Layer.opaqueModels after = Layer.opaqueModels before
        /\ Layer.transparentModels after = Layer.transparentModels before
        /\ Layer.transparentModelData after = Layer.transparentModelData before
        /\ Layer.otherDrawables after = Layer.otherDrawables before
        /\ Layer.clearCount after = Layer.clearCount before
        /\ forall m : MaterialPtr,
             match Layer.basicSprites before !! m with
             | None => Layer.basicSprites after !! m = None
             | Some entry =>
                 exists entry' : BatchedBasicSpriteEntry.t,
                   Layer.basicSprites after !! m = Some entry'
                   /\ BatchedBasicSpriteEntry.materialReleaseSlot entry'
                      = BatchedBasicSpriteEntry.materialReleaseSlot entry
                   /\ BatchedBasicSpriteEntry.enabled entry'
                      = BatchedBasicSpriteEntry.enabled entry
                   /\ BatchedBasicSpriteEntry.overlayMap entry' !! texture = None
                   /\ forall overlay : option TexturePtr,
                        overlay <> texture ->
                        BatchedBasicSpriteEntry.overlayMap entry' !! overlay
                        = BatchedBasicSpriteEntry.overlayMap entry !! overlay
             end
  end.
Proof.
  unfold OnTextureInvalidation. rewrite lookup_fmap.
  destruct (layers !! k) as [before |]; [| reflexivity].
  eexists. split; [reflexivity |]. simpl. repeat apply conj; try reflexivity.
  intros m. rewrite lookup_fmap.
  destruct (Layer.basicSprites before !! m) as [entry |]; [| reflexivity].
  eexists. split; [reflexivity |]. simpl. repeat apply conj; try reflexivity.
  - apply lookup_delete_eq.
  - intros overlay Hne. apply lookup_delete_ne. congruence.
Qed.

(** *** [Sort] *)

Lemma Sort_lookup (materials : Materials) (viewer : Viewer.t) (layers : Layers) (k : Z) :
  Sort materials viewer layers !! k = sorted_layer materials viewer <$> layers !! k.
Proof. unfold Sort. cbv zeta. apply lookup_fmap. Qed.

Section Sorting.
Context `{Platform}.

(** What [Sort] does with the transparent list: in every layer it leaves,
    the list holds the models the layer had, by descending compared
    distance: a model is never followed, at any place further in the list,
    by one of a greater compared distance.  Three submissions of one box
    at compared distances 10, 5 and 20 come out in the order 20, 10, 5. *)
Lemma Sort_transparent_by_compared_distance :
  (forall (materials : Materials) (viewer : Viewer.t) (layers : Layers)
          (k : Z) (after : Layer.t),
     Sort materials viewer layers !! k = Some after ->
     StronglySorted (descending (compared_distance viewer after))
                    (Layer.transparentModels after)
     /\ exists before : Layer.t,
          layers !! k = Some before
          /\ Layer.transparentModels after ≡ₚ Layer.transparentModels before
          /\ Layer.transparentModelData after = Layer.transparentModelData before)
  /\ (let submitted :=
        run [submit_transparent_at 14; submit_transparent_at 9; submit_transparent_at 24]
            ∅ in
      yielded_distances example_viewer submitted 0 = [10; 5; 20]%Q
      /\ yielded_distances example_viewer
           (Sort blending_materials example_viewer submitted) 0
         = [20; 10; 5]%Q).
Proof.
  split.
  - intros materials viewer layers k after. rewrite Sort_lookup.
    destruct (layers !! k) as [before |]; [| discriminate].
    intros [= <-]. split.
    + apply (std_sort_descending (compared_distance viewer before)).
    + exists before. split; [reflexivity |]. split; [| reflexivity].
      apply std_sort_Permutation.
  - vm_compute. split; reflexivity.
Qed.

(** C7.  [Sort(viewer)] keeps every billboard batch of every layer.  The
    entries of a batch whose material has depth sorting enabled are the
    entries it had, ordered by descending squared distance from the eye of
    the viewer to their centers; a batch whose material has not is
    unchanged, its entries in the order of their submission. *)
Theorem Sort_billboards (materials : Materials) (viewer : Viewer.t) (layers : Layers)
    (k : Z) (before : Layer.t) (m : MaterialPtr) (entry : BatchedBillboardEntry.t) :
  layers !! k = Some before ->
  Layer.billboards before !! m = Some entry ->
  exists (after : Layer.t) (entry' : BatchedBillboardEntry.t),
    Sort materials viewer layers !! k = Some after
    /\ Layer.billboards after !! m = Some entry'
    /\ if Material.depthSorting (materials m)
       then StronglySorted (descending (eye_distance viewer))
                           (BatchedBillboardEntry.billboards entry')
            /\ BatchedBillboardEntry.billboards entry'
               ≡ₚ BatchedBillboardEntry.billboards entry
            /\ BatchedBillboardEntry.materialReleaseSlot entry'
               = BatchedBillboardEntry.materialReleaseSlot entry
       else entry' = entry.
Proof.
  intros Hbefore Hentry. rewrite Sort_lookup, Hbefore. simpl.
  eexists _, _. split; [reflexivity |]. simpl.
  rewrite map_lookup_imap, Hentry. simpl. split; [reflexivity |].
  destruct (Material.depthSorting (materials m)); [| reflexivity].
  simpl. repeat apply conj; [| apply std_sort_Permutation | reflexivity].
  apply (std_sort_descending (eye_distance viewer)).
Qed.

End Sorting.

(** *** The indices of the transparent list

    [transparentModels] holds indices into [transparentModelData]; the
    comparator of [Sort] reads the data at the indices it is given.  In
    every state the queue reaches, the indices of a layer are exactly the
    positions of its data, so these reads are in range. *)

Lemma all_indexed_insert (layers : Layers) (k : Z) (layer : Layer.t) :
  all_indexed layers -> transparent_indexed layer -> all_indexed (<[k := layer]> layers).
Proof.
  intros Hall Hlayer k' layer'. rewrite lookup_insert.
  destruct (decide (k = k')); [intros [= <-]; exact Hlayer | apply Hall].
Qed.

Lemma transparent_indexed_default (layers : Layers) (k : Z) :
  all_indexed layers -> transparent_indexed (default Layer.new (layers !! k)).
Proof.
  intros Hall. destruct (layers !! k) as [layer |] eqn:Hlayer; simpl.
  - exact (Hall k layer Hlayer).
  - unfold transparent_indexed. simpl. constructor.
Qed.

Lemma all_indexed_fmap (f : Layer.t -> Layer.t) (layers : Layers) :
  (forall layer, transparent_indexed layer -> transparent_indexed (f layer)) ->
  all_indexed layers -> all_indexed (f <$> layers).
Proof.
  intros Hf Hall k layer'. rewrite lookup_fmap.
  destruct (layers !! k) as [layer |] eqn:Hlayer; [| discriminate].
  intros [= <-]. apply Hf. exact (Hall k layer Hlayer).
Qed.

Section Indices.
Context `{Platform}.

Lemma all_indexed_exec (c : Call) (layers : Layers) :
  all_indexed layers -> all_indexed (exec c layers).
Proof.
  intros Hall.
  destruct c as [ ko mo position size sinCos color
                | ko mo count positionPtr sizes rotations tints
                | ko drawable
                | materials ko mo meshData meshAABB transformMatrix
                | ko mo vertices spriteCount overlay
                | fully
                | materials viewer
                | indexBuffer | material | texture | vertexBuffer ]; simpl.
  - unfold AddBillboard. rewrite GetLayer_eq. cbv zeta. rewrite insert_insert_eq.
    apply all_indexed_insert; [exact Hall |].
    exact (transparent_indexed_default layers ko Hall).
  - rewrite AddBillboards_overload_eq, fill_billboards_eq.
    apply all_indexed_insert; [exact Hall |].
    exact (transparent_indexed_default layers ko Hall).
  - destruct drawable as [drawable |]; [| exact Hall].
    unfold AddDrawable. rewrite GetLayer_eq. cbv zeta. rewrite insert_insert_eq.
    apply all_indexed_insert; [exact Hall |].
    exact (transparent_indexed_default layers ko Hall).
  - destruct (Material.blend (materials mo)) eqn:Hblend.
    + rewrite (AddMesh_blend_eq _ _ _ _ _ _ _ Hblend). cbv zeta.
      apply all_indexed_insert; [exact Hall |].
      unfold transparent_indexed. simpl.
      rewrite length_app, Nat.add_1_r, seq_S. simpl.
      apply Permutation_app; [| reflexivity].
      exact (transparent_indexed_default layers ko Hall).
    + rewrite (AddMesh_opaque_eq _ _ _ _ _ _ _ Hblend). cbv zeta.
      apply all_indexed_insert; [exact Hall |].
      exact (transparent_indexed_default layers ko Hall).
  - unfold AddSprites. rewrite GetLayer_eq. cbv zeta. rewrite insert_insert_eq.
    apply all_indexed_insert; [exact Hall |].
    exact (transparent_indexed_default layers ko Hall).
  - destruct fully.
    + intros k layer. unfold Clear. rewrite lookup_empty. discriminate.
    + intros k layer'. rewrite Clear_lookup.
      destruct (layers !! k) as [layer |]; [| discriminate].
      destruct (_ <=? _)%nat; [discriminate |]. intros [= <-].
      unfold transparent_indexed. simpl. constructor.
  - apply all_indexed_fmap; [| exact Hall]. intros layer Hlayer.
    unfold transparent_indexed in *. simpl.
    rewrite std_sort_Permutation. exact Hlayer.
  - apply all_indexed_fmap; [| exact Hall]. intros layer Hlayer. exact Hlayer.
  - apply all_indexed_fmap; [| exact Hall]. intros layer Hlayer. exact Hlayer.
  - apply all_indexed_fmap; [| exact Hall]. intros layer Hlayer. exact Hlayer.
  - apply all_indexed_fmap; [| exact Hall]. intros layer Hlayer. exact Hlayer.
Qed.

Lemma all_indexed_run (calls : list Call) (layers : Layers) :
  all_indexed layers -> all_indexed (run calls layers).
Proof.
  revert layers. induction calls as [| c calls IH]; intros layers Hall; [exact Hall |].
  apply IH, all_indexed_exec, Hall.
Qed.

(** X16.  Whatever calls were made on a queue that started empty, every
    index of the transparent list of a layer is the position of a model of
    the layer, and every model has its index in the list. *)
Lemma transparent_indices_in_range (calls : list Call) (k : Z) (layer : Layer.t)
    (index : nat) :
  run calls ∅ !! k = Some layer ->
  index ∈ Layer.transparentModels layer
  <-> is_Some (Layer.transparentModelData layer !! index).
Proof.
  intros Hlayer.
  assert (Hindexed : transparent_indexed layer).
  { apply (all_indexed_run calls ∅) with k; [| exact Hlayer].
    intros k' layer'. rewrite lookup_empty. discriminate. }
  unfold transparent_indexed in Hindexed. rewrite Hindexed.
  rewrite elem_of_seq, lookup_lt_is_Some. lia.
Qed.

End Indices.

(** *** The comparators *)

Ltac compare_cases :=
  repeat match goal with
         | H : context [(?a =? ?b)%N] |- _ => destruct (N.eqb_spec a b); simpl in H
         | |- context [(?a =? ?b)%N] => destruct (N.eqb_spec a b); simpl
         | H : context [(?a <? ?b)%N] |- _ => destruct (N.ltb_spec a b); simpl in H
         | |- context [(?a <? ?b)%N] => destruct (N.ltb_spec a b); simpl
         | H : context [(?a <? ?b)%positive] |- _ => destruct (Pos.ltb_spec a b); simpl in H
         | |- context [(?a <? ?b)%positive] => destruct (Pos.ltb_spec a b); simpl
         | H : context [(?a <? ?b)%nat] |- _ => destruct (Nat.ltb_spec a b); simpl in H
         | |- context [(?a <? ?b)%nat] => destruct (Nat.ltb_spec a b); simpl
         end;
  try congruence; try lia.

(** A comparator that goes through three addresses and ends on the pointer
    itself. *)
Lemma lexicographic_on_pointer (k1 k2 k3 : MaterialPtr -> N) :
  strict_total_order
    (fun mat1 mat2 =>
       if negb (k1 mat1 =? k1 mat2)%N then (k1 mat1 <? k1 mat2)%N
       else if negb (k2 mat1 =? k2 mat2)%N then (k2 mat1 <? k2 mat2)%N
       else if negb (k3 mat1 =? k3 mat2)%N then (k3 mat1 <? k3 mat2)%N
       else (mat1 <? mat2)%positive).
Proof.
  repeat apply conj.
  - intros a. compare_cases.
  - intros a b c Hab Hbc. compare_cases.
  - intros a b Hab Hba. compare_cases.
Qed.

Section ComparatorProperties.
Context `{ShaderFlags}.

(** X1.  Each of the three comparators on materials is a strict total
    order on the material pointers, whatever the shaders and textures of the
    materials: no material is before itself, the order is transitive, and
    of two different pointers one is before the other.  So two keys of a
    batch map are equivalent only when they are the same material. *)
Theorem material_comparators_total (materials : MaterialPtr -> MaterialIdentity.t) :
  strict_total_order (BatchedBillboardComparator materials)
  /\ strict_total_order (BatchedModelMaterialComparator materials)
  /\ strict_total_order (BatchedSpriteMaterialComparator materials).
Proof.
  split; [| split].
  - exact (lexicographic_on_pointer
             (fun m => MaterialIdentity.GetShader (materials m))
             (fun m => MaterialIdentity.GetShaderInstance (materials m)
                         (N.lor ShaderFlags_Billboard ShaderFlags_VertexColor))
             (fun m => MaterialIdentity.GetDiffuseMap (materials m))).
  - exact (lexicographic_on_pointer
             (fun m => MaterialIdentity.GetShader (materials m))
             (fun m => MaterialIdentity.GetShaderInstance (materials m) ShaderFlags_None)
             (fun m => MaterialIdentity.GetDiffuseMap (materials m))).
  - exact (lexicographic_on_pointer
             (fun m => MaterialIdentity.GetShader (materials m))
             (fun m => MaterialIdentity.GetShaderInstance (materials m) ShaderFlags_None)
             (fun m => MaterialIdentity.GetDiffuseMap (materials m))).
Qed.

End ComparatorProperties.

Lemma MeshDataComparator_storage (storage : BufferStorage.t) (data1 data2 : MeshData.t) :
  MeshDataComparator storage data1 data2 =
    let '(i1, v1, p1) := mesh_storage storage data1 in
    let '(i2, v2, p2) := mesh_storage storage data2 in
    if negb (i1 =? i2)%N then (i1 <? i2)%N
    else if negb (v1 =? v2)%N then (v1 <? v2)%N
    else (p1 <? p2)%nat.
Proof. reflexivity. Qed.

(** X2.  The comparator on mesh data is a strict weak order: no mesh is
    before itself, the order is transitive, and two meshes are equivalent
    keys exactly when they have the same index storage (none counting as
    one more storage), the same vertex storage and the same primitive mode.
    Where no two buffers share a storage and no index buffer has a null
    storage, equivalent meshes are equal: a mesh map has one entry for each
    triple of index buffer, vertex buffer and primitive mode. *)
Theorem MeshDataComparator_weak_order (storage : BufferStorage.t) :
  (forall a, MeshDataComparator storage a a = false)
  /\ (forall a b c,
        MeshDataComparator storage a b = true ->
        MeshDataComparator storage b c = true ->
        MeshDataComparator storage a c = true)
  /\ (forall a b,
        equivalent_keys (MeshDataComparator storage) a b
        <-> mesh_storage storage a = mesh_storage storage b)
  /\ (Inj eq eq (BufferStorage.ofIndexBuffer storage) ->
      Inj eq eq (BufferStorage.ofVertexBuffer storage) ->
      (forall indexBuffer, BufferStorage.ofIndexBuffer storage indexBuffer <> 0%N) ->
      forall a b, equivalent_keys (MeshDataComparator storage) a b <-> a = b).
Proof.
  assert (Hequiv : forall a b,
             equivalent_keys (MeshDataComparator storage) a b
             <-> mesh_storage storage a = mesh_storage storage b).
  { intros a b. unfold equivalent_keys. rewrite !MeshDataComparator_storage.
    destruct (mesh_storage storage a) as [[i1 v1] p1].
    destruct (mesh_storage storage b) as [[i2 v2] p2]. cbv zeta beta iota.
    split.
    - intros [Hab Hba]. compare_cases. repeat f_equal; lia.
    - intros [= -> -> ->]. split; compare_cases. }
  repeat apply conj.
  - intros a. rewrite MeshDataComparator_storage.
    destruct (mesh_storage storage a) as [[i1 v1] p1]. cbv zeta beta iota. compare_cases.
  - intros a b c. rewrite !MeshDataComparator_storage.
    destruct (mesh_storage storage a) as [[i1 v1] p1].
    destruct (mesh_storage storage b) as [[i2 v2] p2].
    destruct (mesh_storage storage c) as [[i3 v3] p3]. cbv zeta beta iota.
    intros Hab Hbc. compare_cases.
  - exact Hequiv.
  - intros Hindex Hvertex Hnull a b. rewrite Hequiv. split; [| intros ->; reflexivity].
    destruct a as [ia va pa], b as [ib vb pb]. unfold mesh_storage. simpl.
    intros [= Hi Hv Hp]. apply Hvertex in Hv. subst.
    destruct ia as [ia |], ib as [ib |].
    + apply Hindex in Hi. subst. reflexivity.
    + exfalso. exact (Hnull ia Hi).
    + exfalso. exact (Hnull ib (eq_sym Hi)).
    + reflexivity.
Qed.

(** *** Submissions, layer by layer *)

Lemma layer_or_new_insert (layers : Layers) (k k' : Z) (layer : Layer.t) :
  layer_or_new (<[k := layer]> layers) k'
  = if decide (k = k') then layer else layer_or_new layers k'.
Proof.
  unfold layer_or_new. rewrite lookup_insert. destruct (decide (k = k')); reflexivity.
Qed.

Lemma layer_or_new_empty (k : Z) : layer_or_new ∅ k = Layer.new.
Proof. unfold layer_or_new. rewrite lookup_empty. reflexivity. Qed.

Lemma billboards_of_in (layers : Layers) (k : Z) (m : MaterialPtr) :
  billboards_of layers k m = billboards_in (layer_or_new layers k) m.
Proof.
  unfold billboards_of, billboards_in, layer_or_new.
  destruct (layers !! k); simpl; [reflexivity | rewrite lookup_empty; reflexivity].
Qed.

Section SubmissionProperties.
Context `{Platform}.

(** Every submission finds its layer with [GetLayer], which resets the
    clear count, changes it, and leaves the other layers alone. *)
Lemma exec_submission (c : Call) (layers : Layers) :
  submission c ->
  exec c layers =
    match target c with
    | Some k =>
        <[k := submit_layer c (Layer.with_clearCount 0 (layer_or_new layers k))]> layers
    | None => layers
    end.
Proof.
  destruct c as [ ko mo position size sinCos color
                | ko mo count positionPtr sizes rotations tints
                | ko drawable
                | materials ko mo meshData meshAABB transformMatrix
                | ko mo vertices spriteCount overlay
                | | | | | | ]; simpl; try contradiction; intros _.
  - unfold AddBillboard. rewrite GetLayer_eq. cbv zeta. rewrite insert_insert_eq.
    reflexivity.
  - rewrite AddBillboards_overload_eq, fill_billboards_eq. reflexivity.
  - destruct drawable as [drawable |]; [| reflexivity].
    unfold AddDrawable. rewrite GetLayer_eq. cbv zeta. rewrite insert_insert_eq.
    reflexivity.
  - destruct (Material.blend (materials mo)) eqn:Hblend.
    + rewrite (AddMesh_blend_eq _ _ _ _ _ _ _ Hblend). reflexivity.
    + unfold AddMesh. rewrite Hblend, GetLayer_eq. cbv zeta. rewrite insert_insert_eq.
      reflexivity.
  - unfold AddSprites. rewrite GetLayer_eq. cbv zeta. rewrite insert_insert_eq.
    reflexivity.
Qed.

Lemma layer_or_new_exec (c : Call) (layers : Layers) (k : Z) :
  submission c ->
  layer_or_new (exec c layers) k =
    if decide (target c = Some k)
    then submit_layer c (Layer.with_clearCount 0 (layer_or_new layers k))
    else layer_or_new layers k.
Proof.
  intros Hc. rewrite (exec_submission c layers Hc).
  destruct (target c) as [kc |].
  - rewrite layer_or_new_insert. destruct (decide (kc = k)) as [-> | Hk].
    + rewrite decide_True by reflexivity. reflexivity.
    + rewrite decide_False by congruence. reflexivity.
  - rewrite decide_False by discriminate. reflexivity.
Qed.

Lemma run_cons (c : Call) (calls : list Call) (layers : Layers) :
  run (c :: calls) layers = run calls (exec c layers).
Proof. reflexivity. Qed.

(** **** Opaque meshes *)

Lemma extend_with_Some (md : MeshData.t) (instanceEntry : MeshInstanceEntry.t)
    (submitted : list (Boxf.t * Matrix4f.t)) :
  extend_with md (Some instanceEntry) submitted =
    Some (MeshInstanceEntry.Build
            (MeshInstanceEntry.indexBufferReleaseSlot instanceEntry)
            (MeshInstanceEntry.vertexBufferReleaseSlot instanceEntry)
            (MeshInstanceEntry.instances instanceEntry ++ (snd <$> submitted))
            (MeshInstanceEntry.squaredBoundingSphere instanceEntry)).
Proof.
  revert instanceEntry. induction submitted as [| [aabb tr] submitted IH];
    intros instanceEntry.
  - simpl. rewrite app_nil_r. destruct instanceEntry; reflexivity.
  - unfold extend_with in *. simpl. rewrite IH. simpl.
    rewrite <- app_assoc. reflexivity.
Qed.

Lemma extend_with_None (md : MeshData.t) (submitted : list (Boxf.t * Matrix4f.t)) :
  extend_with md None submitted = batch_of md submitted.
Proof.
  destruct submitted as [| [aabb tr] submitted]; [reflexivity |].
  unfold extend_with. simpl.
  exact (extend_with_Some md _ submitted).
Qed.

Lemma mesh_entry_in_submit (c : Call) (layer : Layer.t) (k : Z) (m : MaterialPtr)
    (md : MeshData.t) :
  target c = Some k ->
  mesh_entry_in (submit_layer c (Layer.with_clearCount 0 layer)) m md
  = extend_with md (mesh_entry_in layer m md) (mesh_submission k m md c).
Proof.
  destruct c as [ ko mo position size sinCos color
                | ko mo count positionPtr sizes rotations tints
                | ko [drawable |]
                | materials ko mo meshData meshAABB transformMatrix
                | ko mo vertices spriteCount overlay
                | | | | | | ]; simpl; try discriminate; intros [= ->];
    try reflexivity.
  destruct (Material.blend (materials mo)) eqn:Hblend; simpl.
  - rewrite andb_false_r. reflexivity.
  - rewrite andb_true_r. unfold mesh_entry_in. simpl.
    destruct (decide (mo = m)) as [-> | Hm].
    + rewrite lookup_insert_eq. simpl.
      destruct (decide (meshData = md)) as [-> | Hmd].
      * rewrite bool_decide_true by auto. rewrite lookup_insert_eq. simpl.
        destruct (Layer.opaqueModels layer !! m) as [entry |]; simpl; [reflexivity |].
        rewrite lookup_empty. reflexivity.
      * rewrite bool_decide_false by tauto. rewrite lookup_insert_ne by exact Hmd.
        simpl. destruct (Layer.opaqueModels layer !! m) as [entry |]; simpl;
          [reflexivity | apply lookup_empty].
    + rewrite bool_decide_false by tauto. rewrite lookup_insert_ne by exact Hm.
      reflexivity.
Qed.

Lemma mesh_submission_elsewhere (c : Call) (k : Z) (m : MaterialPtr) (md : MeshData.t) :
  target c <> Some k -> mesh_submission k m md c = [].
Proof.
  destruct c; simpl; try reflexivity. intros Hk.
  rewrite bool_decide_false; [reflexivity |]. intros (-> & _). congruence.
Qed.

Lemma mesh_entry_exec (c : Call) (layers : Layers) (k : Z) (m : MaterialPtr)
    (md : MeshData.t) :
  submission c ->
  mesh_entry (exec c layers) k m md
  = extend_with md (mesh_entry layers k m md) (mesh_submission k m md c).
Proof.
  intros Hc. unfold mesh_entry. rewrite (layer_or_new_exec c layers k Hc).
  destruct (decide (target c = Some k)) as [Hk | Hk].
  - apply mesh_entry_in_submit, Hk.
  - rewrite (mesh_submission_elsewhere c k m md Hk). reflexivity.
Qed.

Lemma mesh_entry_run (calls : list Call) (layers : Layers) (k : Z) (m : MaterialPtr)
    (md : MeshData.t) :
  Forall submission calls ->
  mesh_entry (run calls layers) k m md
  = extend_with md (mesh_entry layers k m md) (calls ≫= mesh_submission k m md).
Proof.
  intros Hcalls. revert layers.
  induction Hcalls as [| c calls Hc _ IH]; intros layers; [reflexivity |].
  rewrite run_cons, IH, (mesh_entry_exec c layers k m md Hc), bind_cons.
  unfold extend_with. rewrite foldl_app. reflexivity.
Qed.

(** Where no two buffers share a storage and no index buffer has a null
    storage, the comparator of the mesh map separates any two different
    meshes. *)
Lemma separated_meshes (storage : BufferStorage.t) (a b : MeshData.t) :
  Inj eq eq (BufferStorage.ofIndexBuffer storage) ->
  Inj eq eq (BufferStorage.ofVertexBuffer storage) ->
  (forall indexBuffer, BufferStorage.ofIndexBuffer storage indexBuffer <> 0%N) ->
  equivalent_keys (MeshDataComparator storage) a b <-> a = b.
Proof.
  intros Hindex Hvertex Hnull. unfold equivalent_keys.
  rewrite !MeshDataComparator_storage. split.
  - destruct a as [ia va pa], b as [ib vb pb]. unfold mesh_storage. simpl.
    intros [Hab Hba].
    assert (Hv : BufferStorage.ofVertexBuffer storage va
                 = BufferStorage.ofVertexBuffer storage vb) by compare_cases.
    assert (Hp : pa = pb) by compare_cases.
    apply Hvertex in Hv. subst.
    destruct ia as [ia |], ib as [ib |].
    + assert (Hi : BufferStorage.ofIndexBuffer storage ia
                   = BufferStorage.ofIndexBuffer storage ib) by compare_cases.
      apply Hindex in Hi. subst. reflexivity.
    + exfalso. apply (Hnull ia). compare_cases.
    + exfalso. apply (Hnull ib). compare_cases.
    + reflexivity.
  - intros ->. destruct (mesh_storage storage b) as [[i v] p]. cbv zeta beta iota.
    split; compare_cases.
Qed.

Lemma equivalent_mesh_submission_eq (storage : BufferStorage.t) (k : Z) (m : MaterialPtr)
    (md : MeshData.t) (c : Call) :
  Inj eq eq (BufferStorage.ofIndexBuffer storage) ->
  Inj eq eq (BufferStorage.ofVertexBuffer storage) ->
  (forall indexBuffer, BufferStorage.ofIndexBuffer storage indexBuffer <> 0%N) ->
  equivalent_mesh_submission storage k m md c = mesh_submission k m md c.
Proof.
  intros Hindex Hvertex Hnull.
  destruct c as [| | | materials ko mo meshData meshAABB transformMatrix | | | | | | |];
    try reflexivity.
  unfold equivalent_mesh_submission, mesh_submission.
  rewrite (bool_decide_ext _ (ko = k /\ mo = m /\ meshData = md)); [reflexivity |].
  rewrite (separated_meshes storage meshData md Hindex Hvertex Hnull). reflexivity.
Qed.

(** X3.  Where no two buffers share a storage and no index buffer has a
    null storage, so that the mesh map has one entry for each mesh data:
    after any sequence of submissions to a queue that starts empty, the
    entry of a mesh in the opaque batch of a material in a layer is made of
    the [AddMesh] calls for that layer and material whose material did not
    blend and whose mesh [MeshDataComparator] does not separate from the
    mesh.  There is none if there was no such call; otherwise its
    instances are the transforms of these calls in the order of the calls,
    its slots are connected to the buffers of the mesh, and its squared
    bounding sphere is that of the box of the first of these calls (the
    boxes of the later ones are not looked at). *)
Theorem opaque_batch_of_submissions (storage : BufferStorage.t) (calls : list Call)
    (k : Z) (m : MaterialPtr) (md : MeshData.t) :
  Inj eq eq (BufferStorage.ofIndexBuffer storage) ->
  Inj eq eq (BufferStorage.ofVertexBuffer storage) ->
  (forall indexBuffer, BufferStorage.ofIndexBuffer storage indexBuffer <> 0%N) ->
  Forall submission calls ->
  mesh_entry (run calls ∅) k m md
  = batch_of md (calls ≫= equivalent_mesh_submission storage k m md).
Proof.
  intros Hindex Hvertex Hnull Hcalls.
  replace (calls ≫= equivalent_mesh_submission storage k m md)
    with (calls ≫= mesh_submission k m md).
  2:{ clear Hcalls. induction calls as [| c calls IH]; [reflexivity |].
      rewrite !bind_cons, IH.
      rewrite (equivalent_mesh_submission_eq storage k m md c Hindex Hvertex Hnull).
      reflexivity. }
  rewrite (mesh_entry_run calls ∅ k m md Hcalls).
  unfold mesh_entry. rewrite layer_or_new_empty. apply extend_with_None.
Qed.

Lemma instances_of_run (calls : list Call) (k : Z) (m : MaterialPtr) (md : MeshData.t) :
  Forall submission calls ->
  instances_of (run calls ∅) k m md = snd <$> (calls ≫= mesh_submission k m md).
Proof.
  intros Hcalls. unfold instances_of. rewrite (mesh_entry_run calls ∅ k m md Hcalls).
  unfold mesh_entry. rewrite layer_or_new_empty, extend_with_None.
  destruct (calls ≫= mesh_submission k m md) as [| [aabb tr] submitted]; reflexivity.
Qed.

(** X4.  The instances batched for a mesh do not depend on the order of
    the submissions, up to their own order: two sequences of submissions
    that are permutations of each other give, for every layer, material and
    mesh, instance lists that are permutations of each other. *)
Theorem instances_permuted (calls calls' : list Call) (k : Z) (m : MaterialPtr)
    (md : MeshData.t) :
  Forall submission calls ->
  calls ≡ₚ calls' ->
  instances_of (run calls ∅) k m md ≡ₚ instances_of (run calls' ∅) k m md.
Proof.
  intros Hcalls Hperm.
  assert (Hcalls' : Forall submission calls') by (rewrite <- Hperm; exact Hcalls).
  rewrite (instances_of_run calls k m md Hcalls).
  rewrite (instances_of_run calls' k m md Hcalls').
  rewrite Hperm. reflexivity.
Qed.

End SubmissionProperties.

Section MoreSubmissionProperties.
Context `{Platform}.

(** **** Sprites *)

Lemma extend_bucket_app (o : option TexturePtr) (found : option BatchedSpriteEntry.t)
    (s1 s2 : list SpriteChain.t) :
  extend_bucket o (extend_bucket o found s1) s2 = extend_bucket o found (s1 ++ s2).
Proof.
  destruct s1 as [| x s1]; [reflexivity |].
  destruct s2 as [| y s2]; [rewrite app_nil_r; reflexivity |].
  simpl. rewrite <- app_assoc. reflexivity.
Qed.

Lemma sprite_bucket_in_submit (c : Call) (layer : Layer.t) (k : Z) (m : MaterialPtr)
    (o : option TexturePtr) :
  target c = Some k ->
  sprite_bucket_in (submit_layer c (Layer.with_clearCount 0 layer)) m o
  = extend_bucket o (sprite_bucket_in layer m o) (sprite_submission k m o c).
Proof.
  destruct c as [ ko mo position size sinCos color
                | ko mo count positionPtr sizes rotations tints
                | ko [drawable |]
                | materials ko mo meshData meshAABB transformMatrix
                | ko mo vertices spriteCount overlay
                | | | | | | ]; simpl; try discriminate; intros [= ->];
    try reflexivity.
  - destruct (Material.blend (materials mo)); reflexivity.
  - unfold sprite_bucket_in. simpl.
    destruct (decide (mo = m)) as [-> | Hm].
    + rewrite lookup_insert_eq. simpl.
      destruct (decide (overlay = o)) as [-> | Ho].
      * rewrite bool_decide_true by auto. rewrite lookup_insert_eq. simpl.
        destruct (Layer.basicSprites layer !! m) as [entry |]; simpl.
        -- destruct (BatchedBasicSpriteEntry.overlayMap entry !! o); reflexivity.
        -- rewrite lookup_empty. reflexivity.
      * rewrite bool_decide_false by tauto. rewrite lookup_insert_ne by exact Ho.
        simpl. destruct (Layer.basicSprites layer !! m) as [entry |]; simpl;
          [reflexivity | apply lookup_empty].
    + rewrite bool_decide_false by tauto. rewrite lookup_insert_ne by exact Hm.
      reflexivity.
Qed.

Lemma sprite_submission_elsewhere (c : Call) (k : Z) (m : MaterialPtr)
    (o : option TexturePtr) :
  target c <> Some k -> sprite_submission k m o c = [].
Proof.
  destruct c; simpl; try reflexivity. intros Hk.
  rewrite bool_decide_false; [reflexivity |]. intros (-> & _). congruence.
Qed.

Lemma sprite_bucket_run (calls : list Call) (layers : Layers) (k : Z) (m : MaterialPtr)
    (o : option TexturePtr) :
  Forall submission calls ->
  sprite_bucket (run calls layers) k m o
  = extend_bucket o (sprite_bucket layers k m o) (calls ≫= sprite_submission k m o).
Proof.
  intros Hcalls. revert layers.
  induction Hcalls as [| c calls Hc _ IH]; intros layers; [reflexivity |].
  rewrite run_cons, IH, bind_cons, <- extend_bucket_app. f_equal.
  unfold sprite_bucket. rewrite (layer_or_new_exec c layers k Hc).
  destruct (decide (target c = Some k)) as [Hk | Hk].
  - apply sprite_bucket_in_submit, Hk.
  - rewrite (sprite_submission_elsewhere c k m o Hk). reflexivity.
Qed.

(** X5.  After any sequence of submissions to a queue that starts empty,
    the bucket of an overlay texture in the sprite batch of a material in a
    layer is made of the [AddSprites] calls for that layer, material and
    overlay: there is none if there was no such call; otherwise it holds
    the chains of these calls in the order of the calls, and its slot is
    connected to the texture, or to nothing for the bucket of the sprites
    without overlay. *)
Theorem sprite_bucket_of_submissions (calls : list Call) (k : Z) (m : MaterialPtr)
    (o : option TexturePtr) :
  Forall submission calls ->
  sprite_bucket (run calls ∅) k m o = bucket_of o (calls ≫= sprite_submission k m o).
Proof.
  intros Hcalls. rewrite (sprite_bucket_run calls ∅ k m o Hcalls).
  unfold sprite_bucket. rewrite layer_or_new_empty.
  destruct (calls ≫= sprite_submission k m o); reflexivity.
Qed.

(** **** Billboards and drawables *)

Lemma billboards_in_submit (c : Call) (layer : Layer.t) (k : Z) (m : MaterialPtr) :
  target c = Some k ->
  billboards_in (submit_layer c (Layer.with_clearCount 0 layer)) m
  = billboards_in layer m ++ billboard_submission k m c.
Proof.
  destruct c as [ ko mo position size sinCos color
                | ko mo count positionPtr sizes rotations tints
                | ko [drawable |]
                | materials ko mo meshData meshAABB transformMatrix
                | ko mo vertices spriteCount overlay
                | | | | | | ]; simpl; try discriminate; intros [= ->];
    try (rewrite app_nil_r; reflexivity).
  - unfold billboards_in. simpl. destruct (decide (mo = m)) as [-> | Hm].
    + rewrite bool_decide_true by auto. rewrite lookup_insert_eq. simpl.
      destruct (Layer.billboards layer !! m); reflexivity.
    + rewrite bool_decide_false by tauto. rewrite lookup_insert_ne by exact Hm.
      rewrite app_nil_r. reflexivity.
  - unfold billboards_in. simpl. destruct (decide (mo = m)) as [-> | Hm].
    + rewrite bool_decide_true by auto. rewrite lookup_insert_eq. simpl.
      destruct (Layer.billboards layer !! m); reflexivity.
    + rewrite bool_decide_false by tauto. rewrite lookup_insert_ne by exact Hm.
      rewrite app_nil_r. reflexivity.
  - destruct (Material.blend (materials mo)); simpl; rewrite app_nil_r; reflexivity.
Qed.

Lemma billboard_submission_elsewhere (c : Call) (k : Z) (m : MaterialPtr) :
  target c <> Some k -> billboard_submission k m c = [].
Proof.
  destruct c; simpl; try reflexivity; intros Hk;
    (rewrite bool_decide_false; [reflexivity |]; intros (-> & _); congruence).
Qed.

(** X6.  The billboards batched for a material in a layer are those the
    submissions gave it, in the order of the calls, the single ones
    ([AddBillboard]) and the arrays ([AddBillboards], element by element)
    alike: a sequence of submissions appends them to those the batch
    had. *)
Theorem billboards_of_submissions (calls : list Call) (layers : Layers) (k : Z)
    (m : MaterialPtr) :
  Forall submission calls ->
  billboards_of (run calls layers) k m
  = billboards_of layers k m ++ (calls ≫= billboard_submission k m).
Proof.
  intros Hcalls. revert layers.
  induction Hcalls as [| c calls Hc _ IH]; intros layers;
    [simpl; rewrite app_nil_r; reflexivity |].
  rewrite run_cons, IH, bind_cons, app_assoc. f_equal.
  rewrite !billboards_of_in, (layer_or_new_exec c layers k Hc).
  destruct (decide (target c = Some k)) as [Hk | Hk].
  - apply billboards_in_submit, Hk.
  - rewrite (billboard_submission_elsewhere c k m Hk), app_nil_r. reflexivity.
Qed.

Lemma drawables_submit (c : Call) (layer : Layer.t) (k : Z) :
  target c = Some k ->
  Layer.otherDrawables (submit_layer c (Layer.with_clearCount 0 layer))
  = Layer.otherDrawables layer ++ drawable_submission k c.
Proof.
  destruct c as [ ko mo position size sinCos color
                | ko mo count positionPtr sizes rotations tints
                | ko [drawable |]
                | materials ko mo meshData meshAABB transformMatrix
                | ko mo vertices spriteCount overlay
                | | | | | | ]; simpl; try discriminate; intros [= ->];
    try (rewrite app_nil_r; reflexivity).
  - rewrite bool_decide_true by reflexivity. reflexivity.
  - destruct (Material.blend (materials mo)); simpl; rewrite app_nil_r; reflexivity.
Qed.

Lemma drawable_submission_elsewhere (c : Call) (k : Z) :
  target c <> Some k -> drawable_submission k c = [].
Proof.
  destruct c as [| | ko [drawable |] | | | | | | | |]; simpl; try reflexivity.
  intros Hk. rewrite bool_decide_false; [reflexivity | congruence].
Qed.

(** X7.  The custom drawables of a layer are those submitted to it, in
    the order of the calls; a null drawable is left out, and so is every
    drawable submitted to another layer. *)
Theorem drawables_of_submissions (calls : list Call) (layers : Layers) (k : Z) :
  Forall submission calls ->
  drawables_of (run calls layers) k
  = drawables_of layers k ++ (calls ≫= drawable_submission k).
Proof.
  intros Hcalls. revert layers.
  induction Hcalls as [| c calls Hc _ IH]; intros layers;
    [simpl; rewrite app_nil_r; reflexivity |].
  rewrite run_cons, IH, bind_cons, app_assoc. f_equal.
  unfold drawables_of. rewrite (layer_or_new_exec c layers k Hc).
  destruct (decide (target c = Some k)) as [Hk | Hk].
  - apply drawables_submit, Hk.
  - rewrite (drawable_submission_elsewhere c k Hk), app_nil_r. reflexivity.
Qed.

(** **** A submission keeps its layer *)

Lemma target_submission (c : Call) (k : Z) : target c = Some k -> submission c.
Proof. destruct c; simpl; trivial; discriminate. Qed.

Lemma clearCount_submit (c : Call) (layer : Layer.t) :
  Layer.clearCount (submit_layer c layer) = Layer.clearCount layer.
Proof.
  destruct c as [| | ko [drawable |] | materials ko mo meshData meshAABB transformMatrix
                | | | | | | |]; simpl; try reflexivity.
  destruct (Material.blend (materials mo)); reflexivity.
Qed.

(** X8.  A submission to a layer, whatever it submits (a billboard, an
    array of billboards, even an empty one, a drawable that is not null,
    a mesh or sprites), leaves the layer registered with a clear count of
    zero, whatever the count was: the layer is then still registered after
    each of the next 100 lightweight clears. *)
Theorem submission_keeps_layer (c : Call) (layers : Layers) (k : Z) (n : nat) :
  target c = Some k ->
  (n <= 100)%nat ->
  (exists layer : Layer.t,
      exec c layers !! k = Some layer /\ Layer.clearCount layer = 0%nat)
  /\ is_Some (Nat.iter n (Clear false) (exec c layers) !! k).
Proof.
  intros Hk Hn.
  assert (Hlayer :
            exec c layers !! k
            = Some (submit_layer c (Layer.with_clearCount 0 (layer_or_new layers k)))).
  { rewrite (exec_submission c layers (target_submission c k Hk)), Hk.
    apply lookup_insert_eq. }
  assert (Hcount :
            Layer.clearCount
              (submit_layer c (Layer.with_clearCount 0 (layer_or_new layers k))) = 0%nat).
  { rewrite clearCount_submit. reflexivity. }
  split; [eauto |].
  destruct n as [| n]; [simpl; eauto |].
  rewrite (Clear_iter_kept n _ k _ Hlayer) by (rewrite Hcount; lia). eauto.
Qed.

End MoreSubmissionProperties.

(** *** One billboard, many billboards *)

Section BillboardCalls.
Context `{Platform}.

(** X9.  [AddBillboard] does what [AddBillboards] does for one billboard
    given through pointers that are not null: the two leave the same
    queue. *)
Theorem AddBillboard_is_AddBillboards_of_one (k : Z) (m : MaterialPtr)
    (position : Vector3f.t) (size sinCos : Vector2f.t) (color : Color.t)
    (layers : Layers) :
  AddBillboard k m position size sinCos color layers
  = AddBillboards k m 1 (fun _ => position) (fun _ => size)
      (Some (fun _ => sinCos)) (Some (fun _ => color)) layers.
Proof.
  unfold AddBillboard, AddBillboards. rewrite GetLayer_eq, fill_billboards_eq.
  cbv zeta. rewrite insert_insert_eq. reflexivity.
Qed.

Lemma overload_item_advance (n : nat) (positionPtr : nat -> Vector3f.t)
    (sizes : BillboardSizes) (rotations : BillboardRotations) (tints : BillboardTints)
    (i : nat) :
  overload_item (advance n positionPtr) (advance_sizes n sizes)
    (advance_rotations n rotations) (advance_tints n tints) i
  = overload_item positionPtr sizes rotations tints (n + i).
Proof.
  destruct sizes, rotations as [[r |] | [r |]], tints as [[t |] | [t |]]; reflexivity.
Qed.

Lemma fill_billboards_insert (k : Z) (m : MaterialPtr) (n : nat)
    (item : nat -> BillboardData.t) (entry : BatchedBillboardEntry.t)
    (B : gmap MaterialPtr BatchedBillboardEntry.t) (layer : Layer.t) (layers : Layers) :
  fill_billboards k m n item
    (<[k := Layer.with_billboards (<[m := entry]> B) layer]> layers)
  = <[k := Layer.with_billboards
             (<[m := BatchedBillboardEntry.Build
                       (BatchedBillboardEntry.materialReleaseSlot entry)
                       (BatchedBillboardEntry.billboards entry ++ (item <$> seq 0 n))]> B)
             (Layer.with_clearCount 0 layer)]> layers.
Proof.
  rewrite fill_billboards_eq. unfold found_billboards.
  rewrite !lookup_insert_eq.
  cbn [default from_option id Layer.billboards Layer.with_billboards].
  rewrite !lookup_insert_eq, !insert_insert_eq. reflexivity.
Qed.

(** X10.  An array of billboards can be submitted in two calls: the
    first [n1] elements, then the [n2] that follow with every pointer that
    is not null moved forward by [n1].  The queue is the same as after one
    call for the [n1 + n2] elements. *)
Theorem AddBillboards_in_two_calls (k : Z) (m : MaterialPtr) (n1 n2 : nat)
    (positionPtr : nat -> Vector3f.t) (sizes : BillboardSizes)
    (rotations : BillboardRotations) (tints : BillboardTints) (layers : Layers) :
  AddBillboards_overload k m n2 (advance n1 positionPtr) (advance_sizes n1 sizes)
    (advance_rotations n1 rotations) (advance_tints n1 tints)
    (AddBillboards_overload k m n1 positionPtr sizes rotations tints layers)
  = AddBillboards_overload k m (n1 + n2) positionPtr sizes rotations tints layers.
Proof.
  rewrite !AddBillboards_overload_eq.
  rewrite (fill_billboards_eq k m n1 _ layers), fill_billboards_insert.
  rewrite (fill_billboards_eq k m (n1 + n2) _ layers).
  cbn [BatchedBillboardEntry.materialReleaseSlot BatchedBillboardEntry.billboards].
  assert (Hseq : seq (0 + n1) n2 = Nat.add n1 <$> seq 0 n2)
    by (rewrite fmap_add_seq; f_equal; lia).
  rewrite <- app_assoc, seq_app, fmap_app, Hseq, <- list_fmap_compose.
  rewrite (list_fmap_ext
             (overload_item (advance n1 positionPtr) (advance_sizes n1 sizes)
                (advance_rotations n1 rotations) (advance_tints n1 tints))
             (overload_item positionPtr sizes rotations tints ∘ Nat.add n1)
             (seq 0 n2))
    by (intros i j _; apply overload_item_advance).
  reflexivity.
Qed.

End BillboardCalls.

(** *** Invalidation of a buffer *)

Section FilterOut.
Context {V : Type} (P : MeshData.t -> Prop).
Context `{Hdec : forall kv : MeshData.t * V, Decision (~ P kv.1)}.

(** The mesh map without the meshes of a property, whatever the way the
    property is decided. *)
Lemma filter_out_erased (meshes : gmap MeshData.t V) (md : MeshData.t) :
  P md -> filter (fun kv : MeshData.t * V => ~ P kv.1) meshes !! md = None.
Proof.
  intros HP. apply map_lookup_filter_None. right. intros x _ Hnot. exact (Hnot HP).
Qed.

Lemma filter_out_kept (meshes : gmap MeshData.t V) (md : MeshData.t) :
  ~ P md -> filter (fun kv : MeshData.t * V => ~ P kv.1) meshes !! md = meshes !! md.
Proof.
  intros HP. destruct (meshes !! md) as [x |] eqn:Hx.
  - apply map_lookup_filter_Some. auto.
  - apply map_lookup_filter_None. auto.
Qed.

End FilterOut.

(** X11.  [OnVertexBufferInvalidation(vertexBuffer)] keeps every opaque
    batch, with its slot and its two flags, and removes from the mesh map
    of each exactly the entries of the meshes that use the vertex buffer:
    the entry of any other mesh is as it was.  A batch left without any
    mesh stays in its layer. *)
Theorem OnVertexBufferInvalidation_erases_meshes (vertexBuffer : VertexBufferPtr)
    (layers : Layers) (k : Z) (m : MaterialPtr) :
  match opaque_entry layers k m with
  | None => opaque_entry (OnVertexBufferInvalidation vertexBuffer layers) k m = None
  | Some entry =>
      exists entry' : BatchedModelEntry.t,
        opaque_entry (OnVertexBufferInvalidation vertexBuffer layers) k m = Some entry'
        /\ BatchedModelEntry.materialReleaseSlot entry'
           = BatchedModelEntry.materialReleaseSlot entry
        /\ BatchedModelEntry.enabled entry' = BatchedModelEntry.enabled entry
        /\ BatchedModelEntry.instancingEnabled entry'
           = BatchedModelEntry.instancingEnabled entry
        /\ forall md : MeshData.t,
             BatchedModelEntry.meshMap entry' !! md
             = if decide (MeshData.vertexBuffer md = vertexBuffer) then None
               else BatchedModelEntry.meshMap entry !! md
  end.
Proof.
  rewrite opaque_entry_OnVertexBufferInvalidation.
  destruct (opaque_entry layers k m) as [entry |]; [| reflexivity].
  eexists. split; [reflexivity |]. simpl. repeat apply conj; try reflexivity.
  intros md. destruct (decide (MeshData.vertexBuffer md = vertexBuffer)) as [Hmd | Hmd].
  - exact (filter_out_erased (fun md => MeshData.vertexBuffer md = vertexBuffer) _ md Hmd).
  - exact (filter_out_kept (fun md => MeshData.vertexBuffer md = vertexBuffer) _ md Hmd).
Qed.

(** X12.  [OnIndexBufferInvalidation(indexBuffer)] keeps every opaque
    batch, with its slot and its two flags, and removes from the mesh map
    of each exactly the entries of the meshes whose index buffer is the
    one invalidated: the entry of any other mesh, a mesh without index
    buffer included, is as it was. *)
Theorem OnIndexBufferInvalidation_erases_meshes (indexBuffer : IndexBufferPtr)
    (layers : Layers) (k : Z) (m : MaterialPtr) :
  match opaque_entry layers k m with
  | None => opaque_entry (OnIndexBufferInvalidation (Some indexBuffer) layers) k m = None
  | Some entry =>
      exists entry' : BatchedModelEntry.t,
        opaque_entry (OnIndexBufferInvalidation (Some indexBuffer) layers) k m
        = Some entry'
        /\ BatchedModelEntry.materialReleaseSlot entry'
           = BatchedModelEntry.materialReleaseSlot entry
        /\ BatchedModelEntry.enabled entry' = BatchedModelEntry.enabled entry
        /\ BatchedModelEntry.instancingEnabled entry'
           = BatchedModelEntry.instancingEnabled entry
        /\ forall md : MeshData.t,
             BatchedModelEntry.meshMap entry' !! md
             = if decide (MeshData.indexBuffer md = Some indexBuffer) then None
               else BatchedModelEntry.meshMap entry !! md
  end.
Proof.
  rewrite opaque_entry_OnIndexBufferInvalidation.
  destruct (opaque_entry layers k m) as [entry |]; [| reflexivity].
  eexists. split; [reflexivity |]. simpl. repeat apply conj; try reflexivity.
  intros md.
  destruct (decide (MeshData.indexBuffer md = Some indexBuffer)) as [Hmd | Hmd].
  - exact (filter_out_erased
             (fun md => MeshData.indexBuffer md = Some indexBuffer) _ md Hmd).
  - exact (filter_out_kept
             (fun md => MeshData.indexBuffer md = Some indexBuffer) _ md Hmd).
Qed.

(** *** What [Sort] leaves alone *)

(** X13.  [Sort] keeps every layer and adds none.  In a layer it leaves
    the opaque batches, the sprite batches, the data of the transparent
    models, the custom drawables and the clear count as they were, and it
    keeps the billboard batch of every material, with its slot and as many
    billboards: sorting only reorders the transparent list and the
    billboards of a batch. *)
Theorem Sort_leaves_other_batches (materials : Materials) (viewer : Viewer.t)
    (layers : Layers) (k : Z) :
  match layers !! k with
  | None => Sort materials viewer layers !! k = None
  | Some before =>
      exists after : Layer.t,
        Sort materials viewer layers !! k = Some after
        /\ Layer.opaqueModels after = Layer.opaqueModels before
        /\ Layer.basicSprites after = Layer.basicSprites before
        /\ Layer.transparentModelData after = Layer.transparentModelData before
        /\ Layer.otherDrawables after = Layer.otherDrawables before
        /\ Layer.clearCount after = Layer.clearCount before
        /\ length (Layer.transparentModels after) = length (Layer.transparentModels before)
        /\ forall m : MaterialPtr,
             match Layer.billboards before !! m with
             | None => Layer.billboards after !! m = None
             | Some entry =>
                 exists entry' : BatchedBillboardEntry.t,
                   Layer.billboards after !! m = Some entry'
                   /\ BatchedBillboardEntry.materialReleaseSlot entry'
                      = BatchedBillboardEntry.materialReleaseSlot entry
                   /\ length (BatchedBillboardEntry.billboards entry')
                      = length (BatchedBillboardEntry.billboards entry)
             end
  end.
Proof.
  rewrite Sort_lookup. destruct (layers !! k) as [before |]; [| reflexivity].
  eexists. split; [reflexivity |]. simpl. repeat apply conj; try reflexivity.
  - apply Permutation_length, std_sort_Permutation.
  - intros m. rewrite map_lookup_imap.
    destruct (Layer.billboards before !! m) as [entry |]; [| reflexivity].
    simpl. eexists. split; [reflexivity |].
    destruct (Material.depthSorting (materials m)); simpl; split; try reflexivity.
    apply Permutation_length, std_sort_Permutation.
Qed.

(** *** Notifications for what the queue does not hold *)

Lemma fmap_fixed {K : Type} `{Countable K} {A : Type} (f : A -> A) (m : gmap K A) :
  (forall i x, m !! i = Some x -> f x = x) -> f <$> m = m.
Proof.
  intros Hf. rewrite <- (map_fmap_id m) at 2. apply map_fmap_ext. exact Hf.
Qed.

Lemma OnMaterialInvalidation_unknown (material : MaterialPtr) (layers : Layers) :
  material_unknown material layers -> OnMaterialInvalidation material layers = layers.
Proof.
  intros Hunknown. apply fmap_fixed. intros k layer Hlayer.
  destruct (Hunknown k layer Hlayer) as (Hb & Hs & Ho).
  rewrite !delete_id by assumption. destruct layer; reflexivity.
Qed.

Lemma OnTextureInvalidation_unknown (texture : option TexturePtr) (layers : Layers) :
  texture_unknown texture layers -> OnTextureInvalidation texture layers = layers.
Proof.
  intros Hunknown. apply fmap_fixed. intros k layer Hlayer.
  rewrite (fmap_fixed _ (Layer.basicSprites layer)); [destruct layer; reflexivity |].
  intros m entry Hentry. rewrite delete_id by exact (Hunknown k layer m entry Hlayer Hentry).
  destruct entry; reflexivity.
Qed.

Lemma OnVertexBufferInvalidation_unknown (vertexBuffer : VertexBufferPtr)
    (layers : Layers) :
  no_mesh_with (fun md => MeshData.vertexBuffer md = vertexBuffer) layers ->
  OnVertexBufferInvalidation vertexBuffer layers = layers.
Proof.
  intros Hunknown. apply fmap_fixed. intros k layer Hlayer.
  rewrite (fmap_fixed _ (Layer.opaqueModels layer)); [destruct layer; reflexivity |].
  intros m entry Hentry. rewrite map_filter_id; [destruct entry; reflexivity |].
  intros md x Hx. simpl. apply (Hunknown k m entry md); [| eauto].
  unfold opaque_entry. rewrite Hlayer. exact Hentry.
Qed.

Lemma OnIndexBufferInvalidation_unknown (indexBuffer : option IndexBufferPtr)
    (layers : Layers) :
  no_mesh_with (fun md => MeshData.indexBuffer md = indexBuffer) layers ->
  OnIndexBufferInvalidation indexBuffer layers = layers.
Proof.
  intros Hunknown. apply fmap_fixed. intros k layer Hlayer.
  rewrite (fmap_fixed _ (Layer.opaqueModels layer)); [destruct layer; reflexivity |].
  intros m entry Hentry. rewrite map_filter_id; [destruct entry; reflexivity |].
  intros md x Hx. simpl. apply (Hunknown k m entry md); [| eauto].
  unfold opaque_entry. rewrite Hlayer. exact Hentry.
Qed.

(** X14.  A release notification for a resource the queue has not indexed
    changes nothing: a material that keys no batch, a texture that keys no
    bucket of a sprite batch, a vertex or an index buffer that no batched
    mesh uses. *)
Theorem invalidation_of_unknown_resource (layers : Layers) :
  (forall material : MaterialPtr,
      material_unknown material layers ->
      OnMaterialInvalidation material layers = layers)
  /\ (forall texture : option TexturePtr,
        texture_unknown texture layers ->
        OnTextureInvalidation texture layers = layers)
  /\ (forall vertexBuffer : VertexBufferPtr,
        no_mesh_with (fun md => MeshData.vertexBuffer md = vertexBuffer) layers ->
        OnVertexBufferInvalidation vertexBuffer layers = layers)
  /\ (forall indexBuffer : option IndexBufferPtr,
        no_mesh_with (fun md => MeshData.indexBuffer md = indexBuffer) layers ->
        OnIndexBufferInvalidation indexBuffer layers = layers).
Proof.
  repeat apply conj.
  - intros material. apply OnMaterialInvalidation_unknown.
  - intros texture. apply OnTextureInvalidation_unknown.
  - intros vertexBuffer. apply OnVertexBufferInvalidation_unknown.
  - intros indexBuffer. apply OnIndexBufferInvalidation_unknown.
Qed.

Lemma material_unknown_after (material : MaterialPtr) (layers : Layers) :
  material_unknown material (OnMaterialInvalidation material layers).
Proof.
  intros k layer. unfold OnMaterialInvalidation. rewrite lookup_fmap.
  destruct (layers !! k) as [before |]; [| discriminate].
  intros [= <-]. simpl. rewrite !lookup_delete_eq. auto.
Qed.

Lemma texture_unknown_after (texture : option TexturePtr) (layers : Layers) :
  texture_unknown texture (OnTextureInvalidation texture layers).
Proof.
  intros k layer m entry. unfold OnTextureInvalidation. rewrite lookup_fmap.
  destruct (layers !! k) as [before |]; [| discriminate].
  intros [= <-]. simpl. rewrite lookup_fmap.
  destruct (Layer.basicSprites before !! m) as [entry0 |]; [| discriminate].
  intros [= <-]. simpl. apply lookup_delete_eq.
Qed.

Lemma vertex_buffer_unknown_after (vertexBuffer : VertexBufferPtr) (layers : Layers) :
  no_mesh_with (fun md => MeshData.vertexBuffer md = vertexBuffer)
    (OnVertexBufferInvalidation vertexBuffer layers).
Proof.
  intros k m entry md. rewrite opaque_entry_OnVertexBufferInvalidation.
  destruct (opaque_entry layers k m) as [entry0 |]; [| discriminate].
  intros [= <-]. simpl. intros [x Hx] Hmd.
  rewrite (filter_out_erased (fun md => MeshData.vertexBuffer md = vertexBuffer) _ md Hmd)
    in Hx.
  discriminate.
Qed.

Lemma index_buffer_unknown_after (indexBuffer : option IndexBufferPtr) (layers : Layers) :
  no_mesh_with (fun md => MeshData.indexBuffer md = indexBuffer)
    (OnIndexBufferInvalidation indexBuffer layers).
Proof.
  intros k m entry md. rewrite opaque_entry_OnIndexBufferInvalidation.
  destruct (opaque_entry layers k m) as [entry0 |]; [| discriminate].
  intros [= <-]. simpl. intros [x Hx] Hmd.
  rewrite (filter_out_erased (fun md => MeshData.indexBuffer md = indexBuffer) _ md Hmd)
    in Hx.
  discriminate.
Qed.

(** X15.  Each of the four release notifications can be delivered twice:
    the second delivery finds nothing left to remove and leaves the queue
    as the first left it. *)
Theorem invalidation_twice (layers : Layers) :
  (forall material : MaterialPtr,
      OnMaterialInvalidation material (OnMaterialInvalidation material layers)
      = OnMaterialInvalidation material layers)
  /\ (forall texture : option TexturePtr,
        OnTextureInvalidation texture (OnTextureInvalidation texture layers)
        = OnTextureInvalidation texture layers)
  /\ (forall vertexBuffer : VertexBufferPtr,
        OnVertexBufferInvalidation vertexBuffer
          (OnVertexBufferInvalidation vertexBuffer layers)
        = OnVertexBufferInvalidation vertexBuffer layers)
  /\ (forall indexBuffer : option IndexBufferPtr,
        OnIndexBufferInvalidation indexBuffer
          (OnIndexBufferInvalidation indexBuffer layers)
        = OnIndexBufferInvalidation indexBuffer layers).
Proof.
  repeat apply conj.
  - intros material. apply OnMaterialInvalidation_unknown, material_unknown_after.
  - intros texture. apply OnTextureInvalidation_unknown, texture_unknown_after.
  - intros vertexBuffer.
    apply OnVertexBufferInvalidation_unknown, vertex_buffer_unknown_after.
  - intros indexBuffer.
    apply OnIndexBufferInvalidation_unknown, index_buffer_unknown_after.
Qed.

(** *** Checking that a queue does not hold a resource *)

Lemma material_unknown_checked (material : MaterialPtr) (layers : Layers) :
  map_Forall (fun (_ : Z) (layer : Layer.t) =>
                Layer.billboards layer !! material = None
                /\ Layer.basicSprites layer !! material = None
                /\ Layer.opaqueModels layer !! material = None) layers ->
  material_unknown material layers.
Proof. intros Hall k layer Hlayer. exact (Hall k layer Hlayer). Qed.

Lemma texture_unknown_checked (texture : option TexturePtr) (layers : Layers) :
  map_Forall (fun (_ : Z) (layer : Layer.t) =>
                map_Forall (fun (_ : MaterialPtr) (entry : BatchedBasicSpriteEntry.t) =>
                              BatchedBasicSpriteEntry.overlayMap entry !! texture = None)
                  (Layer.basicSprites layer)) layers ->
  texture_unknown texture layers.
Proof. intros Hall k layer m entry Hlayer Hentry. exact (Hall k layer Hlayer m entry Hentry). Qed.

Lemma no_mesh_with_checked (P : MeshData.t -> Prop) (layers : Layers) :
  map_Forall (fun (_ : Z) (layer : Layer.t) =>
                map_Forall (fun (_ : MaterialPtr) (entry : BatchedModelEntry.t) =>
                              map_Forall (fun (md : MeshData.t) (_ : MeshInstanceEntry.t) =>
                                            ~ P md)
                                (BatchedModelEntry.meshMap entry))
                  (Layer.opaqueModels layer)) layers ->
  no_mesh_with P layers.
Proof.
  intros Hall k m entry md. unfold opaque_entry.
  destruct (layers !! k) as [layer |] eqn:Hlayer; [| discriminate].
  intros Hentry [instanceEntry Hmd].
  exact (Hall k layer Hlayer m entry Hentry md instanceEntry Hmd).
Qed.

(** *** Every key is watched *)

Section Watched.
Context `{Platform}.

Lemma layer_watched_new : layer_watched Layer.new.
Proof. split; [| split]; apply map_Forall_empty. Qed.

Lemma layer_watched_or_new (layers : Layers) (k : Z) :
  watched layers -> layer_watched (layer_or_new layers k).
Proof.
  intros Hwatched. unfold layer_or_new.
  destruct (layers !! k) as [layer |] eqn:Hlayer; [| exact layer_watched_new].
  exact (Hwatched k layer Hlayer).
Qed.

Lemma layer_watched_submit (c : Call) (layer : Layer.t) :
  layer_watched layer -> layer_watched (submit_layer c (Layer.with_clearCount 0 layer)).
Proof.
  intros (Hbillboards & Hsprites & Hmodels).
  destruct c as [ ko mo position size sinCos color
                | ko mo count positionPtr sizes rotations tints
                | ko [drawable |]
                | materials ko mo meshData meshAABB transformMatrix
                | ko mo vertices spriteCount overlay
                | | | | | |]; cbn [submit_layer];
    try (split; [| split]; assumption).
  - split; [| split; assumption]. cbn.
    apply map_Forall_insert_2; [| exact Hbillboards].
    destruct (Layer.billboards layer !! mo) as [entry |] eqn:Hentry; [| reflexivity].
    exact (Hbillboards mo entry Hentry).
  - split; [| split; assumption]. cbn.
    apply map_Forall_insert_2; [| exact Hbillboards].
    destruct (Layer.billboards layer !! mo) as [entry |] eqn:Hentry; [| reflexivity].
    exact (Hbillboards mo entry Hentry).
  - cbn. destruct (Material.blend (materials mo)); [split; [| split]; assumption |].
    split; [exact Hbillboards |]. split; [exact Hsprites |]. cbn.
    apply map_Forall_insert_2; [| exact Hmodels].
    destruct (Layer.opaqueModels layer !! mo) as [entry |] eqn:Hentry.
    + destruct (Hmodels mo entry Hentry) as [Hslot Hmeshes].
      split; [exact Hslot |]. cbn.
      apply map_Forall_insert_2; [| exact Hmeshes].
      destruct (BatchedModelEntry.meshMap entry !! meshData) as [instanceEntry |] eqn:Hmesh;
        [| split; reflexivity].
      exact (Hmeshes meshData instanceEntry Hmesh).
    + split; [reflexivity |]. cbn.
      apply map_Forall_insert_2; [| apply map_Forall_empty].
      rewrite lookup_empty. split; reflexivity.
  - split; [exact Hbillboards |]. split; [| exact Hmodels]. cbn.
    apply map_Forall_insert_2; [| exact Hsprites].
    destruct (Layer.basicSprites layer !! mo) as [entry |] eqn:Hentry.
    + destruct (Hsprites mo entry Hentry) as [Hslot Hbuckets].
      split; [exact Hslot |]. cbn.
      apply map_Forall_insert_2; [| exact Hbuckets].
      destruct (BatchedBasicSpriteEntry.overlayMap entry !! overlay)
        as [overlayEntry |] eqn:Hbucket; [| reflexivity].
      exact (Hbuckets overlay overlayEntry Hbucket).
    + split; [reflexivity |]. cbn.
      apply map_Forall_insert_2; [| apply map_Forall_empty].
      rewrite lookup_empty. reflexivity.
Qed.

Lemma watched_fmap (f : Layer.t -> Layer.t) (layers : Layers) :
  (forall layer, layer_watched layer -> layer_watched (f layer)) ->
  watched layers -> watched (f <$> layers).
Proof.
  intros Hf Hwatched k layer'. rewrite lookup_fmap.
  destruct (layers !! k) as [layer |] eqn:Hlayer; [| discriminate].
  intros [= <-]. exact (Hf layer (Hwatched k layer Hlayer)).
Qed.

Lemma watched_exec (c : Call) (layers : Layers) : watched layers -> watched (exec c layers).
Proof.
  intros Hwatched.
  assert (Hsubmitted : submission c -> watched (exec c layers)).
  { intros Hc. rewrite (exec_submission c layers Hc).
    destruct (target c) as [k |]; [| exact Hwatched].
    apply map_Forall_insert_2; [| exact Hwatched].
    apply layer_watched_submit, layer_watched_or_new, Hwatched. }
  destruct c as [| | | | | fully | materials viewer | indexBuffer | material | texture
                | vertexBuffer]; try exact (Hsubmitted I); clear Hsubmitted; cbn [exec].
  - destruct fully; [apply map_Forall_empty |].
    intros k layer'. rewrite Clear_lookup.
    destruct (layers !! k) as [layer |] eqn:Hlayer; [| discriminate].
    destruct (100 <=? Layer.clearCount layer)%nat; [discriminate |].
    intros [= <-]. exact (Hwatched k layer Hlayer).
  - intros k layer'. rewrite Sort_lookup.
    destruct (layers !! k) as [layer |] eqn:Hlayer; [| discriminate].
    intros [= <-]. destruct (Hwatched k layer Hlayer) as (Hbillboards & Hsprites & Hmodels).
    split; [| split; assumption]. cbn.
    intros m entry'. rewrite map_lookup_imap.
    destruct (Layer.billboards layer !! m) as [entry |] eqn:Hentry; [| discriminate].
    cbn. intros [= <-].
    destruct (Material.depthSorting (materials m)); exact (Hbillboards m entry Hentry).
  - apply watched_fmap; [| exact Hwatched].
    intros layer (Hbillboards & Hsprites & Hmodels).
    split; [exact Hbillboards |]. split; [exact Hsprites |]. cbn.
    intros m entry'. rewrite lookup_fmap.
    destruct (Layer.opaqueModels layer !! m) as [entry |] eqn:Hentry; [| discriminate].
    intros [= <-]. destruct (Hmodels m entry Hentry) as [Hslot Hmeshes].
    split; [exact Hslot |]. cbn.
    intros md instanceEntry Hmd. apply map_lookup_filter_Some in Hmd as [Hmd _].
    exact (Hmeshes md instanceEntry Hmd).
  - apply watched_fmap; [| exact Hwatched].
    intros layer (Hbillboards & Hsprites & Hmodels).
    split; [| split]; cbn; apply map_Forall_delete; assumption.
  - apply watched_fmap; [| exact Hwatched].
    intros layer (Hbillboards & Hsprites & Hmodels).
    split; [exact Hbillboards |]. split; [| exact Hmodels]. cbn.
    intros m entry'. rewrite lookup_fmap.
    destruct (Layer.basicSprites layer !! m) as [entry |] eqn:Hentry; [| discriminate].
    intros [= <-]. destruct (Hsprites m entry Hentry) as [Hslot Hbuckets].
    split; [exact Hslot |]. cbn. apply map_Forall_delete. exact Hbuckets.
  - apply watched_fmap; [| exact Hwatched].
    intros layer (Hbillboards & Hsprites & Hmodels).
    split; [exact Hbillboards |]. split; [exact Hsprites |]. cbn.
    intros m entry'. rewrite lookup_fmap.
    destruct (Layer.opaqueModels layer !! m) as [entry |] eqn:Hentry; [| discriminate].
    intros [= <-]. destruct (Hmodels m entry Hentry) as [Hslot Hmeshes].
    split; [exact Hslot |]. cbn.
    intros md instanceEntry Hmd. apply map_lookup_filter_Some in Hmd as [Hmd _].
    exact (Hmeshes md instanceEntry Hmd).
Qed.

(** X23.  Every key of the queue is watched.  Whatever calls were made on
    a queue that started empty (submissions, clears, sorts, release
    notifications), every entry of a billboard, sprite or opaque batch map
    is connected to the release of the material that keys it, every bucket
    of a sprite batch to the release of its overlay texture (and to
    nothing for the sprites without overlay), and every mesh entry to the
    release of the vertex buffer and of the index buffer, if any, of the
    mesh that keys it. *)
Theorem every_key_is_watched (calls : list Call) : watched (run calls ∅).
Proof.
  assert (Hrun : forall layers, watched layers -> watched (run calls layers)).
  { induction calls as [| c calls IH]; intros layers Hwatched; [exact Hwatched |].
    rewrite run_cons. apply IH, watched_exec, Hwatched. }
  apply Hrun, map_Forall_empty.
Qed.

End Watched.

(** *** A sprite in the queue *)

Section SpriteProperties.
Context `{Platform}.

(** X17.  A sprite with no material leaves the queue as it is.  A sprite
    with a material adds one chain of one sprite, at the address of the
    instance data, to the bucket of the sprites without overlay of its
    material, in the layer of the render order of the instance: the chain
    comes after those the bucket had, and a new bucket is connected to no
    texture.  Every other bucket of the queue is as it was. *)
Theorem Sprite_AddToRenderQueue_one_chain (sprite : Sprite.t)
    (instanceData : InstanceData.t) (renderQueue : Layers) :
  match Sprite.m_material sprite with
  | None => Sprite.AddToRenderQueue sprite instanceData renderQueue = renderQueue
  | Some material =>
      forall (k : Z) (m : MaterialPtr) (o : option TexturePtr),
        sprite_bucket (Sprite.AddToRenderQueue sprite instanceData renderQueue) k m o
        = if decide (InstanceData.renderOrder instanceData = k /\ material = m /\ None = o)
          then
            Some (BatchedSpriteEntry.Build
                    match sprite_bucket renderQueue k m o with
                    | Some overlayEntry => BatchedSpriteEntry.textureReleaseSlot overlayEntry
                    | None => None
                    end
                    (match sprite_bucket renderQueue k m o with
                     | Some overlayEntry => BatchedSpriteEntry.spriteChains overlayEntry
                     | None => []
                     end ++ [SpriteChain.Build (InstanceData.data instanceData) 1]))
          else sprite_bucket renderQueue k m o
  end.
Proof.
  unfold Sprite.AddToRenderQueue.
  destruct (Sprite.m_material sprite) as [material |]; [| reflexivity].
  intros k m o.
  pose (c := CallAddSprites (InstanceData.renderOrder instanceData) material
               (InstanceData.data instanceData) 1 None).
  change (AddSprites _ _ _ _ _ renderQueue) with (run [c] renderQueue).
  rewrite (sprite_bucket_run [c] renderQueue k m o) by (repeat constructor).
  simpl. rewrite app_nil_r.
  destruct (decide (InstanceData.renderOrder instanceData = k /\ material = m /\ None = o))
    as [(<- & <- & <-) | Hother].
  - rewrite bool_decide_eq_true_2 by auto. reflexivity.
  - rewrite bool_decide_eq_false_2 by exact Hother. reflexivity.
Qed.

End SpriteProperties.

(** *** The text drawer *)

Section TextDrawerProperties.
Import SimpleTextDrawer.
Context `{TextPlatform}.

Ltac drawer_fields :=
  cbn [m_atlasChangedSlot m_atlasLayerChangedSlot m_fontReleaseSlot
       m_glyphCacheClearedSlot m_bounds m_color m_font m_glyphs m_text m_style
       m_drawPos m_previousCharacter m_workingBounds m_colorUpdated m_glyphUpdated
       m_characterSize
       with_bounds with_color with_font with_glyphs with_text with_style with_drawPos
       with_previousCharacter with_workingBounds with_colorUpdated with_glyphUpdated
       with_characterSize with_slots].

Ltac option_steps := cbn [fmap option_fmap option_map mbind option_bind].

(** The cases of the body of the loop, for a drawer given by its members. *)
Ltac character_cases :=
  unfold GenerateGlyphs_character; drawer_fields;
  repeat match goal with
         | |- context [if ?b then _ else _] =>
             lazymatch b with
             | context [if _ then _ else _] => fail
             | _ => case b
             end; drawer_fields
         | |- context [@mbind option _ _ _ _ ?m] => case m; [intro |]; option_steps
         end;
  option_steps; drawer_fields.

(** **** What the loop reads and what it writes *)

Lemma character_with_text (font : Font.t) (sizeInfo : SizeInfo.t) (character : N)
    (text : list N) (drawer : t) :
  GenerateGlyphs_character font sizeInfo character (with_text text drawer)
  = with_text text <$> GenerateGlyphs_character font sizeInfo character drawer.
Proof. destruct drawer. character_cases; reflexivity. Qed.

Lemma character_with_bounds (font : Font.t) (sizeInfo : SizeInfo.t) (character : N)
    (bounds : Recti.t) (drawer : t) :
  GenerateGlyphs_character font sizeInfo character (with_bounds bounds drawer)
  = with_bounds bounds <$> GenerateGlyphs_character font sizeInfo character drawer.
Proof. destruct drawer. character_cases; reflexivity. Qed.

Lemma character_with_colorUpdated (font : Font.t) (sizeInfo : SizeInfo.t) (character : N)
    (updated : bool) (drawer : t) :
  GenerateGlyphs_character font sizeInfo character (with_colorUpdated updated drawer)
  = with_colorUpdated updated <$> GenerateGlyphs_character font sizeInfo character drawer.
Proof. destruct drawer. character_cases; reflexivity. Qed.

Lemma character_paint (font : Font.t) (sizeInfo : SizeInfo.t) (character : N)
    (color : Color.t) (drawer : t) :
  GenerateGlyphs_character font sizeInfo character (paint color drawer)
  = paint color <$> GenerateGlyphs_character font sizeInfo character drawer.
Proof.
  destruct drawer. unfold paint. character_cases; try reflexivity.
  all: rewrite fmap_app; reflexivity.
Qed.

Lemma character_relayout (font : Font.t) (sizeInfo : SizeInfo.t) (character : N)
    (drawer drawer' : t) :
  GenerateGlyphs_character font sizeInfo character drawer = Some drawer' ->
  drawer' = relayout drawer' drawer.
Proof.
  destruct drawer. character_cases; intros [= <-]; reflexivity.
Qed.

Lemma relayout_relayout (layout drawer' drawer : t) :
  relayout layout (relayout drawer' drawer) = relayout layout drawer.
Proof. destruct drawer. reflexivity. Qed.

Lemma relayout_self (drawer : t) : relayout drawer drawer = drawer.
Proof. destruct drawer. reflexivity. Qed.

Lemma characters_relayout (font : Font.t) (sizeInfo : SizeInfo.t) (characters : list N)
    (drawer drawer' : t) :
  GenerateGlyphs_characters font sizeInfo characters drawer = Some drawer' ->
  drawer' = relayout drawer' drawer.
Proof.
  revert drawer. induction characters as [| character characters IH]; intros drawer.
  - intros [= <-]. symmetry. apply relayout_self.
  - simpl.
    destruct (GenerateGlyphs_character font sizeInfo character drawer) as [drawer1 |] eqn:H1;
      [| discriminate].
    option_steps. intros H2. apply IH in H2. apply character_relayout in H1.
    rewrite H2, H1 at 1. rewrite relayout_relayout. reflexivity.
Qed.

Lemma characters_app (font : Font.t) (sizeInfo : SizeInfo.t) (a b : list N) (drawer : t) :
  GenerateGlyphs_characters font sizeInfo (a ++ b) drawer
  = GenerateGlyphs_characters font sizeInfo a drawer
      ≫= GenerateGlyphs_characters font sizeInfo b.
Proof.
  revert drawer. induction a as [| character a IH]; intros drawer; [reflexivity |].
  simpl. destruct (GenerateGlyphs_character font sizeInfo character drawer); option_steps;
    [apply IH | reflexivity].
Qed.

Section Commuting.
Variable f : t -> t.
Hypothesis character_f :
  forall font sizeInfo character drawer,
    GenerateGlyphs_character font sizeInfo character (f drawer)
    = f <$> GenerateGlyphs_character font sizeInfo character drawer.

Lemma characters_commute (font : Font.t) (sizeInfo : SizeInfo.t) (characters : list N)
    (drawer : t) :
  GenerateGlyphs_characters font sizeInfo characters (f drawer)
  = f <$> GenerateGlyphs_characters font sizeInfo characters drawer.
Proof.
  revert drawer. induction characters as [| character characters IH]; intros drawer;
    [reflexivity |].
  simpl. rewrite character_f.
  destruct (GenerateGlyphs_character font sizeInfo character drawer); option_steps;
    [apply IH | reflexivity].
Qed.

Hypothesis font_f : forall drawer, m_font (f drawer) = m_font drawer.
Hypothesis characterSize_f :
  forall drawer, m_characterSize (f drawer) = m_characterSize drawer.
Hypothesis workingBounds_f :
  forall drawer, m_workingBounds (f drawer) = m_workingBounds drawer.
Hypothesis bounds_f :
  forall bounds drawer, f (with_bounds bounds drawer) = with_bounds bounds (f drawer).

Lemma GenerateGlyphs_commute (text : list N) (drawer : t) :
  GenerateGlyphs text (f drawer) = f <$> GenerateGlyphs text drawer.
Proof.
  destruct text as [| character text]; [reflexivity |].
  unfold GenerateGlyphs. rewrite font_f, characterSize_f.
  destruct (m_font drawer) as [font |]; option_steps; [| reflexivity].
  rewrite characters_commute.
  destruct (GenerateGlyphs_characters _ _ _ drawer) as [drawer' |]; option_steps;
    [| reflexivity].
  rewrite workingBounds_f, bounds_f. reflexivity.
Qed.

End Commuting.

Lemma GenerateGlyphs_with_text (str text : list N) (drawer : t) :
  GenerateGlyphs str (with_text text drawer) = with_text text <$> GenerateGlyphs str drawer.
Proof.
  apply (GenerateGlyphs_commute (with_text text)); intros.
  - apply character_with_text.
  - reflexivity.
  - reflexivity.
  - reflexivity.
  - reflexivity.
Qed.

Lemma GenerateGlyphs_with_colorUpdated (str : list N) (updated : bool) (drawer : t) :
  GenerateGlyphs str (with_colorUpdated updated drawer)
  = with_colorUpdated updated <$> GenerateGlyphs str drawer.
Proof.
  apply (GenerateGlyphs_commute (with_colorUpdated updated)); intros.
  - apply character_with_colorUpdated.
  - reflexivity.
  - reflexivity.
  - reflexivity.
  - reflexivity.
Qed.

Lemma GenerateGlyphs_paint (str : list N) (color : Color.t) (drawer : t) :
  GenerateGlyphs str (paint color drawer) = paint color <$> GenerateGlyphs str drawer.
Proof.
  apply (GenerateGlyphs_commute (paint color)); intros.
  - apply character_paint.
  - reflexivity.
  - reflexivity.
  - reflexivity.
  - reflexivity.
Qed.

Lemma GenerateGlyphs_relayout (text : list N) (drawer drawer' : t) :
  GenerateGlyphs text drawer = Some drawer' ->
  drawer' = with_bounds (m_bounds drawer') (relayout drawer' drawer).
Proof.
  destruct text as [| character text].
  - intros [= <-]. destruct drawer; reflexivity.
  - unfold GenerateGlyphs.
    destruct (m_font drawer) as [font |]; option_steps; [| discriminate].
    destruct (GenerateGlyphs_characters _ _ _ drawer) as [drawer1 |] eqn:H1; option_steps;
      [| discriminate].
    intros [= <-]. apply characters_relayout in H1.
    destruct drawer, drawer1. cbv in H1. injection H1; intros; subst. reflexivity.
Qed.

Lemma GenerateGlyphs_not_empty (text : list N) (drawer : t) :
  text <> [] ->
  GenerateGlyphs text drawer
  = font ← m_font drawer;
    drawer' ← GenerateGlyphs_characters (fonts font)
                (Font.GetSizeInfo (fonts font) (m_characterSize drawer)) text drawer;
    Some (with_bounds
            (Recti_Set
               (Rectf.Build (inject_Z (Qfloor (Rectf.x (m_workingBounds drawer'))))
                  (inject_Z (Qfloor (Rectf.y (m_workingBounds drawer'))))
                  (inject_Z (Qceiling (Rectf.width (m_workingBounds drawer'))))
                  (inject_Z (Qceiling (Rectf.height (m_workingBounds drawer'))))))
            drawer').
Proof. destruct text; [congruence | reflexivity]. Qed.

(** [GenerateGlyphs] on a text in two parts. *)
Lemma GenerateGlyphs_app (a b : list N) (drawer : t) :
  GenerateGlyphs (a ++ b) drawer = GenerateGlyphs a drawer ≫= GenerateGlyphs b.
Proof.
  destruct (decide (a = [])) as [-> | Ha]; [reflexivity |].
  destruct (decide (b = [])) as [-> | Hb].
  { rewrite app_nil_r. destruct (GenerateGlyphs a drawer); reflexivity. }
  rewrite (GenerateGlyphs_not_empty (a ++ b)) by (destruct a; [done | discriminate]).
  rewrite (GenerateGlyphs_not_empty a) by done.
  destruct (m_font drawer) as [font |] eqn:Hfont; option_steps; [| reflexivity].
  rewrite characters_app.
  destruct (GenerateGlyphs_characters _ _ a drawer) as [drawer1 |] eqn:H1;
    option_steps; [| reflexivity].
  pose proof (characters_relayout _ _ _ _ _ H1) as Hframe.
  rewrite (GenerateGlyphs_not_empty b) by done.
  assert (Hfont1 : forall bounds, m_font (with_bounds bounds drawer1) = Some font).
  { intros bounds. rewrite Hframe. destruct drawer; exact Hfont. }
  assert (Hsize1 : forall bounds,
             m_characterSize (with_bounds bounds drawer1) = m_characterSize drawer).
  { intros bounds. rewrite Hframe. destruct drawer; reflexivity. }
  rewrite Hfont1, Hsize1. option_steps.
  rewrite (characters_commute (with_bounds _))
    by (intros; apply character_with_bounds).
  destruct (GenerateGlyphs_characters _ _ b drawer1) as [drawer2 |];
    option_steps; [| reflexivity].
  destruct drawer2; reflexivity.
Qed.

(** **** What generating glyphs keeps *)

(** The functions that only move members, computed. *)
Ltac drawer_compute :=
  cbv [ClearGlyphs Clear UpdateGlyphColor SetText SetColor SetStyle SetCharacterSize
       paint relayout ConnectFontSlots DisconnectFontSlots
       m_atlasChangedSlot m_atlasLayerChangedSlot m_fontReleaseSlot
       m_glyphCacheClearedSlot m_bounds m_color m_font m_glyphs m_text m_style
       m_drawPos m_previousCharacter m_workingBounds m_colorUpdated m_glyphUpdated
       m_characterSize
       with_bounds with_color with_font with_glyphs with_text with_style with_drawPos
       with_previousCharacter with_workingBounds with_colorUpdated with_glyphUpdated
       with_characterSize with_slots fmap list_fmap].

Ltac by_frame Hframe :=
  rewrite Hframe;
  match goal with drawer : t |- _ => destruct drawer; reflexivity end.

Lemma GenerateGlyphs_keeps (text : list N) (drawer drawer' : t) :
  GenerateGlyphs text drawer = Some drawer' ->
  m_text drawer' = m_text drawer
  /\ m_color drawer' = m_color drawer
  /\ m_font drawer' = m_font drawer
  /\ m_glyphUpdated drawer' = m_glyphUpdated drawer
  /\ m_colorUpdated drawer' = m_colorUpdated drawer
  /\ ClearGlyphs drawer' = ClearGlyphs drawer
  /\ (listening drawer -> listening drawer').
Proof.
  intros Hframe. apply GenerateGlyphs_relayout in Hframe.
  repeat apply conj; try (rewrite Hframe; destruct drawer; reflexivity).
  rewrite Hframe. destruct drawer. exact id.
Qed.

Lemma UpdateGlyphColor_paint (drawer : t) :
  UpdateGlyphColor drawer = with_colorUpdated true (paint (m_color drawer) drawer).
Proof. destruct drawer. reflexivity. Qed.

Lemma GenerateGlyphs_UpdateGlyphColor (text : list N) (drawer drawer' : t) :
  GenerateGlyphs text drawer = Some drawer' ->
  GenerateGlyphs text (UpdateGlyphColor drawer) = Some (UpdateGlyphColor drawer').
Proof.
  intros Hgenerated.
  destruct (GenerateGlyphs_keeps _ _ _ Hgenerated) as (_ & Hcolor & _).
  rewrite !UpdateGlyphColor_paint, GenerateGlyphs_with_colorUpdated, GenerateGlyphs_paint.
  rewrite Hgenerated, Hcolor. reflexivity.
Qed.

Lemma recolor_recolored (color color' : Color.t) (glyphs : list Glyph.t) :
  Glyph.with_color color <$> (Glyph.with_color color' <$> glyphs)
  = Glyph.with_color color <$> glyphs.
Proof. rewrite <- list_fmap_compose. apply list_fmap_ext. intros _ [] _. reflexivity. Qed.

Lemma UpdateGlyphColor_twice (drawer : t) :
  UpdateGlyphColor (UpdateGlyphColor drawer) = UpdateGlyphColor drawer.
Proof.
  destruct drawer. unfold UpdateGlyphColor. drawer_fields.
  rewrite recolor_recolored. reflexivity.
Qed.

Lemma regenerated_UpdateGlyphColor (drawer : t) :
  regenerated (UpdateGlyphColor drawer) = regenerated drawer.
Proof. destruct drawer. reflexivity. Qed.

(** The glyphs made from a cleared drawer have the color of the drawer. *)
Lemma regenerated_colored (drawer fresh : t) :
  regenerated drawer = Some fresh -> UpdateGlyphColor fresh = fresh.
Proof.
  unfold regenerated. intros Hfresh.
  pose proof (GenerateGlyphs_UpdateGlyphColor _ _ _ Hfresh) as Hcolored.
  replace (UpdateGlyphColor (ClearGlyphs drawer)) with (ClearGlyphs drawer) in Hcolored
    by (destruct drawer; reflexivity).
  congruence.
Qed.

Lemma regenerated_regenerated (drawer fresh : t) :
  regenerated drawer = Some fresh -> regenerated fresh = Some fresh.
Proof.
  unfold regenerated. intros Hfresh.
  destruct (GenerateGlyphs_keeps _ _ _ Hfresh) as (Htext & _ & _ & _ & _ & Hclear & _).
  rewrite Htext, Hclear.
  replace (m_text (ClearGlyphs drawer)) with (m_text drawer) in *
    by (destruct drawer; reflexivity).
  replace (ClearGlyphs (ClearGlyphs drawer)) with (ClearGlyphs drawer)
    by (destruct drawer; reflexivity).
  exact Hfresh.
Qed.

Lemma regenerated_glyphUpdated (drawer fresh : t) :
  regenerated drawer = Some fresh ->
  m_glyphUpdated fresh = true /\ m_colorUpdated fresh = true.
Proof.
  unfold regenerated. intros Hfresh.
  destruct (GenerateGlyphs_keeps _ _ _ Hfresh) as (_ & _ & _ & -> & -> & _).
  destruct drawer; split; reflexivity.
Qed.

(** **** Appending is generating the whole text *)

Lemma UpdateGlyphs_regenerated (drawer : t) :
  UpdateGlyphs drawer
  = if NazaraAssert_enabled
       && negb match m_font drawer with
               | Some font => Font.IsValid (fonts font)
               | None => false
               end
    then None
    else regenerated drawer.
Proof.
  unfold UpdateGlyphs, regenerated. cbv zeta.
  replace (m_text (ClearGlyphs drawer)) with (m_text drawer)
    by (destruct drawer; reflexivity).
  reflexivity.
Qed.

Lemma regenerated_appended (a b : list N) (drawer : t) :
  regenerated (SetText (a ++ b) drawer)
  = regenerated (SetText a drawer) ≫= AppendText (OtherString b).
Proof.
  unfold regenerated.
  replace (m_text (SetText (a ++ b) drawer)) with (a ++ b) by (destruct drawer; reflexivity).
  replace (m_text (SetText a drawer)) with a by (destruct drawer; reflexivity).
  replace (ClearGlyphs (SetText (a ++ b) drawer))
    with (with_text (a ++ b) (ClearGlyphs (SetText a drawer)))
    by (destruct drawer; reflexivity).
  rewrite GenerateGlyphs_with_text, GenerateGlyphs_app.
  destruct (GenerateGlyphs a (ClearGlyphs (SetText a drawer))) as [drawer1 |] eqn:H1;
    option_steps; [| reflexivity].
  destruct (GenerateGlyphs_keeps _ _ _ H1) as (Htext & _ & _ & Hupdated & _).
  unfold AppendText. cbv zeta. cbn [read].
  replace (m_glyphUpdated (with_text (m_text drawer1 ++ b) drawer1)) with true
    by (symmetry; exact Hupdated).
  rewrite Htext.
  replace (m_text (ClearGlyphs (SetText a drawer))) with a by (destruct drawer; reflexivity).
  rewrite GenerateGlyphs_with_text. reflexivity.
Qed.

(** X18.  Appending to a text whose glyphs are up to date lays out the
    appended characters only, and gives what laying out the whole text
    gives: setting a text, reading it (which generates its glyphs) and
    appending a second text, given in a string that is not the text of the
    drawer itself, leaves the drawer as setting the two texts as one and
    reading does, glyphs, bounds and draw position alike, and one fails
    where the other does. *)
Theorem AppendText_is_regeneration (a b : list N) (drawer : t) :
  UpdateGlyphs (SetText a drawer) ≫= AppendText (OtherString b)
  = UpdateGlyphs (SetText (a ++ b) drawer).
Proof.
  rewrite !UpdateGlyphs_regenerated.
  replace (m_font (SetText (a ++ b) drawer)) with (m_font drawer)
    by (destruct drawer; reflexivity).
  replace (m_font (SetText a drawer)) with (m_font drawer)
    by (destruct drawer; reflexivity).
  destruct (NazaraAssert_enabled && _); [reflexivity |].
  symmetry. apply regenerated_appended.
Qed.

(** **** What the drawer holds is what its text gives *)

Lemma coherent_stale (drawer : t) : m_glyphUpdated drawer = false -> coherent drawer.
Proof. intros Hstale Hupdated. congruence. Qed.

Lemma coherent_regenerated (drawer fresh : t) :
  regenerated drawer = Some fresh -> coherent fresh.
Proof.
  intros Hfresh _. rewrite (regenerated_colored _ _ Hfresh).
  split; [exact (regenerated_regenerated _ _ Hfresh) | reflexivity].
Qed.

Lemma coherent_UpdateGlyphs (drawer drawer' : t) :
  UpdateGlyphs drawer = Some drawer' -> coherent drawer'.
Proof.
  rewrite UpdateGlyphs_regenerated. destruct (NazaraAssert_enabled && _); [discriminate |].
  apply coherent_regenerated.
Qed.

Lemma coherent_UpdateGlyphColor (drawer : t) :
  coherent drawer -> m_glyphUpdated drawer = true -> coherent (UpdateGlyphColor drawer).
Proof.
  intros Hcoherent Hupdated _. destruct (Hcoherent Hupdated) as [Hfresh _].
  rewrite regenerated_UpdateGlyphColor, UpdateGlyphColor_twice. split; [exact Hfresh | reflexivity].
Qed.

Lemma coherent_Clear (drawer : t) : coherent (Clear drawer).
Proof.
  intros _. unfold regenerated.
  replace (m_text (Clear drawer)) with (@nil N) by (destruct drawer; reflexivity).
  cbn [GenerateGlyphs].
  destruct drawer. drawer_compute. split; [| intros _]; reflexivity.
Qed.

Lemma coherent_SetColor (color : Color.t) (drawer : t) :
  coherent drawer -> coherent (SetColor color drawer).
Proof.
  intros Hcoherent Hupdated.
  assert (Hupdated' : m_glyphUpdated drawer = true)
    by (destruct drawer; exact Hupdated).
  destruct (Hcoherent Hupdated') as [Hfresh _].
  split; [| destruct drawer; discriminate].
  unfold regenerated in *.
  replace (m_text (SetColor color drawer)) with (m_text drawer)
    by (destruct drawer; reflexivity).
  replace (ClearGlyphs (SetColor color drawer)) with (paint color (ClearGlyphs drawer))
    by (destruct drawer; reflexivity).
  rewrite GenerateGlyphs_paint, Hfresh. option_steps. f_equal.
  destruct drawer. unfold UpdateGlyphColor, SetColor, paint. drawer_fields.
  rewrite recolor_recolored. reflexivity.
Qed.

Lemma coherent_SetFont (font : option FontPtr) (drawer : t) :
  coherent drawer -> coherent (SetFont font drawer).
Proof.
  intros Hcoherent. unfold SetFont.
  destruct (decide (m_font drawer <> font)); [| exact Hcoherent].
  apply coherent_stale. cbv zeta.
  destruct drawer, font; reflexivity.
Qed.

Lemma coherent_AppendText (str : list N) (drawer drawer' : t) :
  coherent drawer -> AppendText (OtherString str) drawer = Some drawer' ->
  coherent drawer'.
Proof.
  intros Hcoherent. unfold AppendText. cbv zeta. cbn [read].
  replace (m_glyphUpdated (with_text (m_text drawer ++ str) drawer))
    with (m_glyphUpdated drawer) by (destruct drawer; reflexivity).
  destruct (m_glyphUpdated drawer) eqn:Hupdated.
  2:{ intros [= <-]. apply coherent_stale. destruct drawer; exact Hupdated. }
  destruct (Hcoherent Hupdated) as [Hfresh Hcolored].
  rewrite GenerateGlyphs_with_text.
  destruct (GenerateGlyphs str drawer) as [drawer1 |] eqn:H1; option_steps; [| discriminate].
  intros [= <-] _.
  pose proof (GenerateGlyphs_UpdateGlyphColor _ _ _ H1) as H1c.
  destruct (GenerateGlyphs_keeps _ _ _ H1) as (_ & _ & _ & _ & Hcolor & Hclear & _).
  split.
  - unfold regenerated in *.
    replace (m_text (with_text (m_text drawer ++ str) drawer1)) with (m_text drawer ++ str)
      by (destruct drawer1; reflexivity).
    replace (ClearGlyphs (with_text (m_text drawer ++ str) drawer1))
      with (with_text (m_text drawer ++ str) (ClearGlyphs drawer1))
      by (destruct drawer1; reflexivity).
    rewrite Hclear, GenerateGlyphs_with_text, GenerateGlyphs_app, Hfresh. option_steps.
    rewrite H1c. option_steps. destruct drawer1; reflexivity.
  - intros Hcolored1.
    assert (Hcolored' : m_colorUpdated drawer = true).
    { rewrite <- Hcolor. destruct drawer1; exact Hcolored1. }
    rewrite (Hcolored Hcolored') in H1c. rewrite H1 in H1c. injection H1c as H1c.
    transitivity (with_text (m_text drawer ++ str) (UpdateGlyphColor drawer1));
      [destruct drawer1; reflexivity | congruence].
Qed.

Lemma coherent_read (drawer drawer' : t) :
  coherent drawer ->
  (if negb (m_glyphUpdated drawer) then UpdateGlyphs drawer else Some drawer)
  = Some drawer' ->
  coherent drawer'.
Proof.
  intros Hcoherent. destruct (m_glyphUpdated drawer); simpl.
  - intros [= <-]. exact Hcoherent.
  - apply coherent_UpdateGlyphs.
Qed.

Lemma coherent_exec (c : Call) (drawer drawer' : t) :
  font_unchanged c -> appends_other c -> coherent drawer ->
  exec c drawer = Some drawer' -> coherent drawer'.
Proof.
  intros Hc Hother Hcoherent.
  destruct c as [[str |] | | | index | | characterSize | color | font | style | str | other
                | font oldLayer newLayer | font | font];
    cbn [exec]; try (intros [= <-]).
  - apply coherent_AppendText, Hcoherent.
  - destruct Hother.
  - apply coherent_Clear.
  - unfold GetBounds.
    destruct (if negb (m_glyphUpdated drawer) then _ else _) as [drawer1 |] eqn:H1;
      option_steps; [| discriminate].
    intros [= <-]. exact (coherent_read _ _ Hcoherent H1).
  - unfold GetGlyph.
    destruct (m_glyphUpdated drawer) eqn:Hupdated; cbn [negb].
    + destruct (m_colorUpdated drawer) eqn:Hcolored; cbn [negb]; option_steps;
        destruct (_ !! index); option_steps; intros [= <-];
        [exact Hcoherent | exact (coherent_UpdateGlyphColor _ Hcoherent Hupdated)].
    + destruct (UpdateGlyphs drawer) as [drawer1 |] eqn:H1; option_steps; [| discriminate].
      destruct (_ !! index); option_steps; intros [= <-].
      exact (coherent_UpdateGlyphs _ _ H1).
  - unfold GetGlyphCount.
    destruct (if negb (m_glyphUpdated drawer) then _ else _) as [drawer1 |] eqn:H1;
      option_steps; [| discriminate].
    intros [= <-]. exact (coherent_read _ _ Hcoherent H1).
  - apply coherent_stale. destruct drawer; reflexivity.
  - apply coherent_SetColor, Hcoherent.
  - apply coherent_SetFont, Hcoherent.
  - apply coherent_stale. destruct drawer; reflexivity.
  - apply coherent_stale. destruct drawer; reflexivity.
  - unfold assign. cbv zeta. apply coherent_SetFont, coherent_stale.
    destruct drawer; reflexivity.
  - destruct Hc.
  - unfold OnFontInvalidated. destruct (not_listening font drawer); [exact Hcoherent |].
    apply coherent_stale. destruct drawer; reflexivity.
  - unfold OnFontRelease. destruct (not_listening font drawer); [exact Hcoherent |].
    apply coherent_SetFont, Hcoherent.
Qed.

Lemma coherent_run (calls : list Call) (drawer drawer' : t) :
  Forall font_unchanged calls -> Forall appends_other calls -> coherent drawer ->
  run calls drawer = Some drawer' -> coherent drawer'.
Proof.
  intros Hcalls. revert drawer.
  induction Hcalls as [| c calls Hc _ IH]; intros drawer Hothers Hcoherent.
  - intros [= <-]. exact Hcoherent.
  - apply Forall_cons in Hothers as [Hother Hothers].
    cbn [run]. destruct (exec c drawer) as [drawer1 |] eqn:H1; option_steps; [| discriminate].
    apply IH; [exact Hothers |]. exact (coherent_exec c _ _ Hc Hother Hcoherent H1).
Qed.

(** X19.  Reading a drawer gives what its text gives.  Start from a drawer
    whose glyphs are flagged out of date, and make any calls on it: the
    setters, [AppendText] of a string that is not the text of the drawer
    itself, [Clear], the copy, the readers and the signals of the font,
    short of a change of the layers of its atlas.  Then a
    glyph that [GetGlyph] returns is the glyph of that index among those
    generated from scratch for the text, font, size, style and color the
    drawer has, its color included, and [GetGlyphCount] and [GetBounds]
    return the number and the bounds of these. *)
Theorem reads_are_regenerations (calls : list Call) (drawer0 drawer : t) :
  m_glyphUpdated drawer0 = false ->
  Forall font_unchanged calls ->
  Forall appends_other calls ->
  run calls drawer0 = Some drawer ->
  (forall (index : nat) (glyph : Glyph.t) (drawer' : t),
      GetGlyph index drawer = Some (glyph, drawer') ->
      regenerated drawer = Some drawer' /\ m_glyphs drawer' !! index = Some glyph)
  /\ (forall (count : nat) (drawer' : t),
        GetGlyphCount drawer = Some (count, drawer') ->
        exists fresh : t,
          regenerated drawer = Some fresh /\ count = length (m_glyphs fresh))
  /\ (forall (bounds : Recti.t) (drawer' : t),
        GetBounds drawer = Some (bounds, drawer') ->
        exists fresh : t, regenerated drawer = Some fresh /\ bounds = m_bounds fresh).
Proof.
  intros Hstale Hcalls Hothers Hrun.
  pose proof (coherent_run calls _ _ Hcalls Hothers (coherent_stale _ Hstale) Hrun)
    as Hcoherent.
  assert (Hread : forall drawer1,
             (if negb (m_glyphUpdated drawer) then UpdateGlyphs drawer else Some drawer)
             = Some drawer1 ->
             exists fresh : t,
               regenerated drawer = Some fresh
               /\ length (m_glyphs drawer1) = length (m_glyphs fresh)
               /\ m_bounds drawer1 = m_bounds fresh).
  { intros drawer1. destruct (m_glyphUpdated drawer) eqn:Hupdated; cbn [negb].
    - intros [= <-]. destruct (Hcoherent Hupdated) as [Hfresh _].
      eexists. split; [exact Hfresh |].
      destruct drawer; split; [cbn; rewrite length_fmap |]; reflexivity.
    - rewrite UpdateGlyphs_regenerated.
      destruct (NazaraAssert_enabled && _); [discriminate |]. intros Hfresh.
      eexists. split; [exact Hfresh |]. split; reflexivity. }
  repeat apply conj.
  - intros index glyph drawer'. unfold GetGlyph.
    destruct (m_glyphUpdated drawer) eqn:Hupdated; cbn [negb].
    + destruct (Hcoherent Hupdated) as [Hfresh Hcolored].
      destruct (m_colorUpdated drawer) eqn:Hcolor; cbn [negb]; option_steps;
        destruct (_ !! index) as [glyph' |] eqn:Hglyph; option_steps; intros [= <- <-].
      * rewrite (Hcolored eq_refl) in Hfresh. split; assumption.
      * split; assumption.
    + rewrite UpdateGlyphs_regenerated.
      destruct (NazaraAssert_enabled && _); [discriminate |].
      destruct (regenerated drawer) as [fresh |]; option_steps; [| discriminate].
      destruct (_ !! index) as [glyph' |] eqn:Hglyph; option_steps; intros [= <- <-].
      split; [reflexivity | assumption].
  - intros count drawer'. unfold GetGlyphCount.
    destruct (if negb (m_glyphUpdated drawer) then _ else _) as [drawer1 |] eqn:H1;
      option_steps; [| discriminate].
    intros [= <- <-]. destruct (Hread _ eq_refl) as (fresh & Hfresh & Hlength & _).
    exists fresh. split; assumption.
  - intros bounds drawer'. unfold GetBounds.
    destruct (if negb (m_glyphUpdated drawer) then _ else _) as [drawer1 |] eqn:H1;
      option_steps; [| discriminate].
    intros [= <- <-]. destruct (Hread _ eq_refl) as (fresh & Hfresh & _ & Hbounds).
    exists fresh. split; assumption.
Qed.

(** **** The glyphs of a text *)

Lemma character_glyphs (font : Font.t) (sizeInfo : SizeInfo.t)
    (atlas : N -> option ImagePtr) (character : N) (drawer : t) :
  Font.GetAtlas font = Some atlas ->
  exists drawer' : t,
    GenerateGlyphs_character font sizeInfo character drawer = Some drawer'
    /\ shown <$> m_glyphs drawer'
       = (shown <$> m_glyphs drawer)
         ++ (if visible font (m_characterSize drawer) (m_style drawer) character
             then [loaded font atlas (m_characterSize drawer) (m_style drawer)
                     (m_color drawer) character]
             else []).
Proof.
  intros Hatlas. destruct drawer.
  unfold visible, blank, loaded, GenerateGlyphs_character. drawer_fields. rewrite Hatlas.
  option_steps.
  case (negb (m_previousCharacter0 =? 0)%N); drawer_fields;
    (case (character =? 32)%N;
     [| case (character =? 10)%N;
        [| case (character =? 9)%N; [| case (FontGlyph.valid _)]]]);
    cbn [negb orb andb]; drawer_fields.
  all: repeat match goal with
              | |- context [if ?b then _ else _] =>
                  lazymatch b with
                  | context [if _ then _ else _] => fail
                  | _ => case b
                  end; drawer_fields
              end.
  all: eexists; (split; [reflexivity |]); drawer_fields;
    rewrite ?fmap_app, ?app_nil_r; reflexivity.
Qed.

Lemma characters_glyphs (font : Font.t) (sizeInfo : SizeInfo.t)
    (atlas : N -> option ImagePtr) (characters : list N) (drawer : t) :
  Font.GetAtlas font = Some atlas ->
  exists drawer' : t,
    GenerateGlyphs_characters font sizeInfo characters drawer = Some drawer'
    /\ shown <$> m_glyphs drawer'
       = (shown <$> m_glyphs drawer)
         ++ (loaded font atlas (m_characterSize drawer) (m_style drawer) (m_color drawer)
             <$> List.filter (visible font (m_characterSize drawer) (m_style drawer))
                   characters).
Proof.
  intros Hatlas. revert drawer.
  induction characters as [| character characters IH]; intros drawer.
  - exists drawer. split; [reflexivity |]. cbn [List.filter fmap list_fmap].
    rewrite app_nil_r. reflexivity.
  - destruct (character_glyphs font sizeInfo atlas character drawer Hatlas)
      as (drawer1 & H1 & Hglyphs1).
    destruct (IH drawer1) as (drawer' & H' & Hglyphs').
    exists drawer'. cbn [GenerateGlyphs_characters]. rewrite H1. option_steps.
    split; [exact H' |].
    apply character_relayout in H1.
    assert (Hkept : m_characterSize drawer1 = m_characterSize drawer
                    /\ m_style drawer1 = m_style drawer
                    /\ m_color drawer1 = m_color drawer).
    { rewrite H1. destruct drawer. repeat split. }
    destruct Hkept as (Hsize & Hstyle & Hcolor).
    rewrite Hglyphs', Hglyphs1, Hsize, Hstyle, Hcolor, <- app_assoc. f_equal.
    cbn [List.filter].
    destruct (visible font (m_characterSize drawer) (m_style drawer) character);
      reflexivity.
Qed.

(** X20.  The glyphs of a text are those of its visible characters.  With
    a font that is valid and has an atlas, reading the glyph count after
    setting a text succeeds, and the drawer then holds one glyph for each
    character of the text that is not a space, a new line or a tabulation
    and that the font could load, in the order of the text: the glyph has
    the layer and the rectangle the font gives for the character, it is
    flipped if the font says so, and it has the color of the drawer. *)
Theorem glyphs_of_visible_characters (text : list N) (drawer : t) (font : FontPtr)
    (atlas : N -> option ImagePtr) :
  m_font drawer = Some font ->
  Font.IsValid (fonts font) = true ->
  Font.GetAtlas (fonts font) = Some atlas ->
  let seen :=
    List.filter (visible (fonts font) (m_characterSize drawer) (m_style drawer)) text in
  exists drawer' : t,
    GetGlyphCount (SetText text drawer) = Some (length seen, drawer')
    /\ shown <$> m_glyphs drawer'
       = (loaded (fonts font) atlas (m_characterSize drawer) (m_style drawer)
            (m_color drawer) <$> seen).
Proof.
  intros Hfont Hvalid Hatlas seen.
  assert (Hgenerated :
            exists drawer' : t,
              UpdateGlyphs (SetText text drawer) = Some drawer'
              /\ shown <$> m_glyphs drawer'
                 = (loaded (fonts font) atlas (m_characterSize drawer) (m_style drawer)
                      (m_color drawer) <$> seen)).
  { rewrite UpdateGlyphs_regenerated.
    replace (m_font (SetText text drawer)) with (m_font drawer)
      by (destruct drawer; reflexivity).
    rewrite Hfont, Hvalid, andb_false_r. unfold regenerated.
    replace (m_text (SetText text drawer)) with text by (destruct drawer; reflexivity).
    destruct (decide (text = [])) as [-> | Htext].
    - eexists. split; [reflexivity |]. destruct drawer; reflexivity.
    - rewrite (GenerateGlyphs_not_empty text) by exact Htext.
      replace (m_font (ClearGlyphs (SetText text drawer))) with (m_font drawer)
        by (destruct drawer; reflexivity).
      rewrite Hfont. option_steps.
      destruct (characters_glyphs (fonts font)
                  (Font.GetSizeInfo (fonts font)
                     (m_characterSize (ClearGlyphs (SetText text drawer))))
                  atlas text (ClearGlyphs (SetText text drawer)) Hatlas)
        as (drawer1 & H1 & Hglyphs1).
      rewrite H1. option_steps. eexists. split; [reflexivity |].
      transitivity (shown <$> m_glyphs drawer1); [destruct drawer1; reflexivity |].
      rewrite Hglyphs1. destruct drawer; reflexivity. }
  destruct Hgenerated as (drawer' & Hgenerated & Hshown).
  exists drawer'. split; [| exact Hshown].
  unfold GetGlyphCount.
  replace (m_glyphUpdated (SetText text drawer)) with false
    by (destruct drawer; reflexivity).
  cbn [negb]. rewrite Hgenerated. option_steps.
  rewrite <- (length_fmap shown), Hshown, length_fmap. reflexivity.
Qed.

(** **** The font of the drawer and its signals *)

Lemma listening_SetFont (font : option FontPtr) (drawer : t) :
  listening drawer -> listening (SetFont font drawer).
Proof.
  intros Hlistening. unfold SetFont.
  destruct (decide (m_font drawer <> font)); [| exact Hlistening].
  cbv zeta. destruct drawer, font; repeat split.
Qed.

Lemma listening_UpdateGlyphs (drawer drawer' : t) :
  listening drawer -> UpdateGlyphs drawer = Some drawer' -> listening drawer'.
Proof.
  intros Hlistening. rewrite UpdateGlyphs_regenerated.
  destruct (NazaraAssert_enabled && _); [discriminate |]. unfold regenerated.
  intros Hfresh. apply GenerateGlyphs_keeps in Hfresh.
  apply Hfresh. destruct drawer. exact Hlistening.
Qed.

Lemma listening_read (drawer drawer' : t) :
  listening drawer ->
  (if negb (m_glyphUpdated drawer) then UpdateGlyphs drawer else Some drawer)
  = Some drawer' ->
  listening drawer'.
Proof.
  intros Hlistening. destruct (m_glyphUpdated drawer); cbn [negb].
  - intros [= <-]. exact Hlistening.
  - apply listening_UpdateGlyphs, Hlistening.
Qed.

Lemma listening_exec (c : Call) (drawer drawer' : t) :
  listening drawer -> exec c drawer = Some drawer' -> listening drawer'.
Proof.
  intros Hlistening.
  destruct c as [str | | | index | | characterSize | color | font | style | str | other
                | font oldLayer newLayer | font | font];
    cbn [exec]; try (intros [= <-]).
  - unfold AppendText. cbv zeta.
    destruct (m_glyphUpdated _).
    + intros Hgenerated. apply GenerateGlyphs_keeps in Hgenerated.
      apply Hgenerated. destruct drawer. exact Hlistening.
    + intros [= <-]. destruct drawer. exact Hlistening.
  - destruct drawer. exact Hlistening.
  - unfold GetBounds.
    destruct (if negb (m_glyphUpdated drawer) then _ else _) as [drawer1 |] eqn:H1;
      option_steps; [| discriminate].
    intros [= <-]. exact (listening_read _ _ Hlistening H1).
  - unfold GetGlyph.
    destruct (m_glyphUpdated drawer) eqn:Hupdated; cbn [negb].
    + destruct (m_colorUpdated drawer); cbn [negb]; option_steps;
        destruct (_ !! index); option_steps; intros [= <-];
        [| destruct drawer]; exact Hlistening.
    + destruct (UpdateGlyphs drawer) as [drawer1 |] eqn:H1; option_steps; [| discriminate].
      destruct (_ !! index); option_steps; intros [= <-].
      exact (listening_UpdateGlyphs _ _ Hlistening H1).
  - unfold GetGlyphCount.
    destruct (if negb (m_glyphUpdated drawer) then _ else _) as [drawer1 |] eqn:H1;
      option_steps; [| discriminate].
    intros [= <-]. exact (listening_read _ _ Hlistening H1).
  - destruct drawer. exact Hlistening.
  - destruct drawer. exact Hlistening.
  - apply listening_SetFont, Hlistening.
  - destruct drawer. exact Hlistening.
  - destruct drawer. exact Hlistening.
  - unfold assign. cbv zeta. apply listening_SetFont.
    destruct drawer. exact Hlistening.
  - unfold OnFontAtlasLayerChanged. destruct (not_listening font drawer);
      [| destruct drawer]; exact Hlistening.
  - unfold OnFontInvalidated. destruct (not_listening font drawer);
      [| destruct drawer]; exact Hlistening.
  - unfold OnFontRelease. destruct (not_listening font drawer); [exact Hlistening |].
    apply listening_SetFont, Hlistening.
Qed.

(** X21.  A drawer listens to the font it holds, and to no other: if its
    four slots are connected to the signals of its font (to nothing, for a
    drawer without font), they still are after any sequence of calls,
    whatever fonts the calls set, copy or release. *)
Theorem slots_follow_font (calls : list Call) (drawer drawer' : t) :
  listening drawer -> run calls drawer = Some drawer' -> listening drawer'.
Proof.
  revert drawer. induction calls as [| c calls IH]; intros drawer Hlistening.
  - intros [= <-]. exact Hlistening.
  - cbn [run]. destruct (exec c drawer) as [drawer1 |] eqn:H1; option_steps; [| discriminate].
    apply IH. exact (listening_exec c _ _ Hlistening H1).
Qed.

(** X22.  When its font is released a drawer drops it: it has no font
    left, its slots are disconnected, its text is kept and its glyphs are
    flagged out of date.  Until a font is set, reading its bounds, its
    glyph count or a glyph then has no result, by the assertion on the
    font where assertions are compiled in, and by reading the null font
    where they are not and the text is not empty; with no assertions and
    an empty text, the reads succeed and find no glyph. *)
Theorem OnFontRelease_drops_font (font : FontPtr) (drawer : t) :
  m_font drawer = Some font ->
  let released := OnFontRelease (Some font) drawer in
  m_font released = None
  /\ listening released
  /\ m_text released = m_text drawer
  /\ m_glyphUpdated released = false
  /\ (NazaraAssert_enabled = true \/ m_text drawer <> [] ->
      GetBounds released = None
      /\ GetGlyphCount released = None
      /\ forall index : nat, GetGlyph index released = None)
  /\ (NazaraAssert_enabled = false -> m_text drawer = [] ->
      exists cleared : t,
        GetGlyphCount released = Some (0%nat, cleared)
        /\ forall index : nat, GetGlyph index released = None).
Proof.
  intros Hfont released.
  assert (Hreleased :
            released = with_glyphUpdated false
                         (DisconnectFontSlots (with_font None drawer))).
  { unfold released, OnFontRelease, not_listening, SetFont.
    rewrite Hfont, bool_decide_eq_true_2, andb_false_r by reflexivity.
    destruct (decide (Some font <> None)) as [_ | Hnot]; [| exfalso; apply Hnot; discriminate].
    cbv zeta. destruct drawer; reflexivity. }
  assert (Hnone : m_font released = None) by (rewrite Hreleased; destruct drawer; reflexivity).
  assert (Htext : m_text released = m_text drawer)
    by (rewrite Hreleased; destruct drawer; reflexivity).
  assert (Hstale : m_glyphUpdated released = false)
    by (rewrite Hreleased; destruct drawer; reflexivity).
  assert (Hupdate :
            UpdateGlyphs released
            = if NazaraAssert_enabled then None
              else match m_text drawer with
                   | [] => Some (ClearGlyphs released)
                   | _ => None
                   end).
  { rewrite UpdateGlyphs_regenerated, Hnone. cbn [negb]. rewrite andb_true_r.
    destruct NazaraAssert_enabled; [reflexivity |].
    unfold regenerated. rewrite Htext.
    destruct (m_text drawer) as [| character text]; [reflexivity |].
    rewrite GenerateGlyphs_not_empty by discriminate.
    replace (m_font (ClearGlyphs released)) with (m_font released)
      by (destruct released; reflexivity).
    rewrite Hnone. reflexivity. }
  clearbody released.
  split; [exact Hnone |].
  split; [rewrite Hreleased; destruct drawer; repeat split |].
  split; [exact Htext |]. split; [exact Hstale |]. split.
  - intros Hfails.
    assert (Hnot : UpdateGlyphs released = None).
    { rewrite Hupdate. destruct NazaraAssert_enabled; [reflexivity |].
      destruct Hfails as [? | Hfails]; [discriminate |].
      destruct (m_text drawer); [destruct Hfails |]; reflexivity. }
    unfold GetBounds, GetGlyphCount, GetGlyph. rewrite Hstale, Hnot.
    repeat split.
  - intros Hasserts Hempty. rewrite Hasserts, Hempty in Hupdate.
    exists (ClearGlyphs released). unfold GetGlyphCount, GetGlyph.
    rewrite Hstale, Hupdate. cbn [negb]. option_steps.
    replace (m_glyphs (ClearGlyphs released)) with (@nil Glyph.t)
      by (destruct released; reflexivity).
    split; [reflexivity |]. intros index. rewrite lookup_nil. reflexivity.
Qed.

End TextDrawerProperties.

(** ** The theorems at concrete inputs *)

Section Examples.
#[local] Existing Instance example_platform.

Lemma ten_and_one_opaque : Forall opaque_AddMesh ten_and_one.
Proof. repeat (constructor; [reflexivity |]). constructor. Qed.

(** C3, as stated, fails: with a threshold of 10, after ten instances of
    one mesh and one instance of another mesh under the same material, the
    instancing flag recorded for the second mesh (that of the batch of the
    material) is true while that mesh has one instance. *)
Lemma instancing_flag_shared_by_meshes :
  exists (entry : BatchedModelEntry.t) (instanceEntry : MeshInstanceEntry.t),
    opaque_entry (run ten_and_one ∅) 0 2%positive = Some entry
    /\ BatchedModelEntry.meshMap entry !! mesh_b = Some instanceEntry
    /\ BatchedModelEntry.instancingEnabled entry = true
    /\ length (MeshInstanceEntry.instances instanceEntry) = 1%nat
    /\ ~ (BatchedModelEntry.instancingEnabled entry = true
          <-> (NAZARA_GRAPHICS_INSTANCING_MIN_INSTANCES_COUNT
               <= length (MeshInstanceEntry.instances instanceEntry))%nat).
Proof.
  eexists _, _. split; [vm_compute; reflexivity |].
  split; [vm_compute; reflexivity |].
  split; [reflexivity |]. split; [reflexivity |].
  intros [Hreached _]. specialize (Hreached eq_refl). simpl in Hreached. lia.
Qed.

(** C3, as amended, on the ten-and-one run. *)
Lemma instancing_flag_iff_some_mesh_reached_witness :
  exists entry : BatchedModelEntry.t,
    opaque_entry (run ten_and_one ∅) 0 2%positive = Some entry
    /\ (BatchedModelEntry.instancingEnabled entry = true
        <-> exists (meshData : MeshData.t) (instanceEntry : MeshInstanceEntry.t),
              BatchedModelEntry.meshMap entry !! meshData = Some instanceEntry
              /\ (10 <= length (MeshInstanceEntry.instances instanceEntry))%nat).
Proof.
  eexists. split; [vm_compute; reflexivity |].
  refine (instancing_flag_iff_some_mesh_reached ten_and_one 0 2%positive _
            ten_and_one_opaque _).
  vm_compute; reflexivity.
Defined.

(** C2 on one transparent submission to an empty queue. *)
Lemma AddMesh_transparent_witness :
  let layers' := AddMesh blending_materials 0 1%positive mesh_a cube (at_height 14) ∅ in
  Material.blend (blending_materials 1%positive) = true
  /\ exists (after : Layer.t) (data : TransparentModelData.t),
       layers' !! 0%Z = Some after
       /\ Layer.transparentModelData after = [data]
       /\ Layer.transparentModels after = [0%nat]
       /\ Spheref.GetPosition (TransparentModelData.squaredBoundingSphere data)
          = Vector3f.add (Matrix4f.GetTranslation (at_height 14)) (Boxf.GetCenter cube)
       /\ Spheref.radius (TransparentModelData.squaredBoundingSphere data)
          = Boxf.GetSquaredRadius cube
       /\ forall (k' : Z) (m' : MaterialPtr), opaque_entry layers' k' m' = None.
Proof.
  intros layers'. split; [reflexivity |].
  destruct (AddMesh_transparent blending_materials 0 1%positive mesh_a cube
              (at_height 14) ∅ eq_refl)
    as (after & data & Hafter & Hdata & Hmodels & _ & _ & _ & Hcenter & Hradius & Hopaque).
  exists after, data. repeat apply conj; trivial.
Defined.

(** C4, as stated, fails: a material that blends is submitted for a
    billboard, which subscribes the queue to its release, and for a mesh,
    which goes to the transparent list.  After its invalidation the
    billboard batch is gone, and the transparent model still refers to the
    material. *)
Lemma transparent_model_outlives_material :
  let submitted :=
    run [CallAddBillboard 0 1%positive (Vector3f.Build 0 0 1) (Vector2f.Build 1 1)
           (Vector2f.Build 0 1) Color.White;
         CallAddMesh blending_materials 0 1%positive mesh_a cube (at_height 14)] ∅ in
  exists (before after : Layer.t) (data : TransparentModelData.t),
    submitted !! 0%Z = Some before
    /\ BatchedBillboardEntry.materialReleaseSlot <$> Layer.billboards before !! 1%positive
       = Some (Some 1%positive)
    /\ OnMaterialInvalidation 1%positive submitted !! 0%Z = Some after
    /\ Layer.billboards after !! 1%positive = None
    /\ Layer.transparentModelData after = [data]
    /\ TransparentModelData.material data = 1%positive
    /\ references 1%positive after.
Proof.
  eexists _, _, _. split; [vm_compute; reflexivity |].
  split; [vm_compute; reflexivity |]. split; [vm_compute; reflexivity |].
  split; [vm_compute; reflexivity |]. split; [reflexivity |]. split; [reflexivity |].
  right; right; right. apply Exists_cons_hd. reflexivity.
Qed.

(** C4, as amended, on a material that keys an opaque batch, a sprite batch
    and a billboard batch of layer 0. *)
Lemma OnMaterialInvalidation_erases_batches_witness :
  let submitted :=
    run [CallAddMesh opaque_materials 0 2%positive mesh_a cube (at_height 1);
         CallAddSprites 0 2%positive 9%positive 4 None;
         CallAddBillboard 0 2%positive (Vector3f.Build 0 0 1) (Vector2f.Build 1 1)
           (Vector2f.Build 0 1) Color.White] ∅ in
  exists before after : Layer.t,
    submitted !! 0%Z = Some before
    /\ is_Some (Layer.opaqueModels before !! 2%positive)
    /\ is_Some (Layer.basicSprites before !! 2%positive)
    /\ is_Some (Layer.billboards before !! 2%positive)
    /\ OnMaterialInvalidation 2%positive submitted !! 0%Z = Some after
    /\ Layer.opaqueModels after !! 2%positive = None
    /\ Layer.basicSprites after !! 2%positive = None
    /\ Layer.billboards after !! 2%positive = None.
Proof.
  intros submitted. eexists _, _.
  split; [vm_compute; reflexivity |].
  split; [vm_compute; eauto |]. split; [vm_compute; eauto |]. split; [vm_compute; eauto |].
  split; [vm_compute; reflexivity |].
  pose proof (OnMaterialInvalidation_erases_batches 2%positive submitted 0 _
                ltac:(vm_compute; reflexivity))
    as (Hopaque & Hsprites & Hbillboards).
  repeat apply conj; assumption.
Defined.

(** C5, as stated, fails: after a submission to layer 0 and 100
    lightweight clears the layer is still in the registry; the 101st
    removes it. *)
Lemma hundred_clears_keep_layer :
  let submitted := AddDrawable 0 (Some 1%positive) ∅ in
  is_Some (Nat.iter 100 (Clear false) submitted !! 0%Z)
  /\ Nat.iter 101 (Clear false) submitted !! 0%Z = None.
Proof. split; [vm_compute; eauto | vm_compute; reflexivity]. Qed.

(** C5, as amended, on a layer that has just received a drawable. *)
Lemma Clear_lightweight_witness :
  let submitted := AddDrawable 0 (Some 1%positive) ∅ in
  exists layer : Layer.t,
    submitted !! 0%Z = Some layer
    /\ Clear false submitted !! 0%Z
       = Some (Layer.Build (Layer.billboards layer) (Layer.basicSprites layer)
                 (Layer.opaqueModels layer) [] [] [] 1)
    /\ Nat.iter 100 (Clear false) submitted !! 0%Z
       = Some (Layer.Build (Layer.billboards layer) (Layer.basicSprites layer)
                 (Layer.opaqueModels layer) [] [] [] 100)
    /\ Nat.iter 101 (Clear false) submitted !! 0%Z = None.
Proof.
  intros submitted. eexists. split; [vm_compute; reflexivity |].
  destruct (Clear_lightweight submitted 0 _ ltac:(vm_compute; reflexivity))
    as (Hone & _ & Hiter).
  split; [apply Hone; simpl; lia |].
  split.
  - apply (Hiter eq_refl 100%nat). lia.
  - apply (Hiter eq_refl 101%nat). lia.
Defined.

(** The three submissions of one box at compared distances 10, 5 and
    20. *)
Lemma Sort_transparent_by_compared_distance_of_three :
  let submitted :=
    run [submit_transparent_at 14; submit_transparent_at 9; submit_transparent_at 24] ∅ in
  exists after : Layer.t,
    Sort blending_materials example_viewer submitted !! 0%Z = Some after
    /\ Layer.transparentModels after = [2; 0; 1]%nat
    /\ StronglySorted (descending (compared_distance example_viewer after))
                      (Layer.transparentModels after).
Proof.
  intros submitted. eexists. split; [vm_compute; reflexivity |].
  split; [reflexivity |].
  refine (proj1 (proj1 Sort_transparent_by_compared_distance blending_materials example_viewer
                   submitted 0%Z _ _)).
  vm_compute; reflexivity.
Defined.

(** C1.  The transparent list [Sort] leaves is not always far to near.
    [AddMesh] stores the squared radius of the box in the place of the
    radius of the bounding sphere, and the comparator of [Sort] moves the
    center back by that value to get the negative vertex.  A small box at
    height 10 and a large box at height 12, submitted in this order, are
    left in this order, at the compared distances 35/4 and 7, while the
    negative vertices of their bounding spheres, of radius 1/2 and 2, are
    at distances 17/2 and 9 from the near plane: the nearer model comes
    first. *)
Lemma Sort_transparent_near_before_far :
  let sorted := Sort blending_materials example_viewer (run near_small_far_large ∅) in
  exists (layer : Layer.t) (first second : TransparentModelData.t),
    sorted !! 0%Z = Some layer
    /\ Layer.transparentModels layer = [0; 1]%nat
    /\ Layer.transparentModelData layer !! 0%nat = Some first
    /\ Layer.transparentModelData layer !! 1%nat = Some second
    /\ yielded_distances example_viewer sorted 0 = [35 # 4; 7]%Q
    /\ bounding_radius first (1 # 2)
    /\ bounding_radius second 2
    /\ (negative_vertex_distance example_viewer first (1 # 2) == 17 # 2)%Q
    /\ (negative_vertex_distance example_viewer second 2 == 9)%Q
    /\ (negative_vertex_distance example_viewer first (1 # 2)
        < negative_vertex_distance example_viewer second 2)%Q.
Proof.
  intros sorted. eexists _, _, _.
  split; [vm_compute; reflexivity |]. split; [vm_compute; reflexivity |].
  split; [vm_compute; reflexivity |]. split; [vm_compute; reflexivity |].
  split; [vm_compute; reflexivity |].
  split; [split; [vm_compute; discriminate | vm_compute; reflexivity] |].
  split; [split; [vm_compute; discriminate | vm_compute; reflexivity] |].
  split; [vm_compute; reflexivity |]. split; vm_compute; reflexivity.
Qed.

(** C7 on two batches of three billboards: the batch of material 3 is
    sorted far to near, that of material 4 is as submitted. *)
Lemma Sort_billboards_witness :
  let submitted := run [three_billboards 3%positive; three_billboards 4%positive] ∅ in
  exists (after : Layer.t) (sorted kept : BatchedBillboardEntry.t),
    Sort sorting_materials example_viewer submitted !! 0%Z = Some after
    /\ Layer.billboards after !! 3%positive = Some sorted
    /\ Layer.billboards after !! 4%positive = Some kept
    /\ heights sorted = [3; 2; 1]%Q
    /\ heights kept = [1; 3; 2]%Q
    /\ StronglySorted (descending (eye_distance example_viewer))
                      (BatchedBillboardEntry.billboards sorted).
Proof.
  intros submitted.
  destruct (Sort_billboards sorting_materials example_viewer submitted 0%Z _ 3%positive _
              ltac:(vm_compute; reflexivity) ltac:(vm_compute; reflexivity))
    as (after & sorted & Hafter & Hsorted & Hordered & _ & _).
  vm_compute in Hafter. injection Hafter as <-.
  vm_compute in Hsorted. injection Hsorted as <-.
  eexists _, _, _. split; [vm_compute; reflexivity |].
  split; [vm_compute; reflexivity |]. split; [vm_compute; reflexivity |].
  split; [reflexivity |]. split; [reflexivity |].
  exact Hordered.
Defined.

(** C8 on sprites with two overlay textures: releasing texture 7 removes
    its bucket and leaves that of texture 8, one chain of 6 sprites. *)
Lemma OnTextureInvalidation_removes_bucket_witness :
  let submitted := run two_overlays ∅ in
  let released := OnTextureInvalidation (Some 7%positive) submitted in
  exists (before after : Layer.t) (entry entry' : BatchedBasicSpriteEntry.t),
    submitted !! 0%Z = Some before
    /\ released !! 0%Z = Some after
    /\ Layer.basicSprites before !! 2%positive = Some entry
    /\ Layer.basicSprites after !! 2%positive = Some entry'
    /\ is_Some (BatchedBasicSpriteEntry.overlayMap entry !! Some 7%positive)
    /\ BatchedBasicSpriteEntry.overlayMap entry' !! Some 7%positive = None
    /\ BatchedBasicSpriteEntry.overlayMap entry' !! Some 8%positive
       = Some (BatchedSpriteEntry.Build (Some 8%positive)
                 [SpriteChain.Build 21%positive 6]).
Proof.
  intros submitted released.
  pose proof (OnTextureInvalidation_removes_bucket (Some 7%positive) submitted 0%Z)
    as Hthm.
  destruct (submitted !! 0%Z) as [before |] eqn:Hbefore; [| vm_compute in Hbefore; discriminate].
  destruct Hthm as (after & Hafter & _ & _ & _ & _ & _ & _ & Hsprites).
  specialize (Hsprites 2%positive).
  destruct (Layer.basicSprites before !! 2%positive) as [entry |] eqn:Hentry.
  - destruct Hsprites as (entry' & Hentry' & _ & _ & Hgone & Hothers).
    exists before, after, entry, entry'. repeat apply conj; trivial.
    + vm_compute in Hbefore. injection Hbefore as <-.
      vm_compute in Hentry. injection Hentry as <-. vm_compute. eauto.
    + rewrite (Hothers (Some 8%positive)) by discriminate.
      vm_compute in Hbefore. injection Hbefore as <-.
      vm_compute in Hentry. injection Hentry as <-. vm_compute. reflexivity.
  - vm_compute in Hbefore. injection Hbefore as <-.
    vm_compute in Hentry. discriminate.
Defined.

(** C9 on the ten-and-one run, when the vertex buffer of the mesh with ten
    instances is invalidated: the mesh entry goes, the flag stays. *)
Lemma instancing_flag_kept_witness :
  let submitted := run ten_and_one ∅ in
  exists entry entry' : BatchedModelEntry.t,
    opaque_entry submitted 0 2%positive = Some entry
    /\ BatchedModelEntry.instancingEnabled entry = true
    /\ opaque_entry (exec (CallOnVertexBufferInvalidation 1%positive) submitted)
         0 2%positive = Some entry'
    /\ BatchedModelEntry.meshMap entry' !! mesh_a = None
    /\ BatchedModelEntry.instancingEnabled entry' = true.
Proof.
  intros submitted. eexists _, _.
  split; [vm_compute; reflexivity |]. split; [reflexivity |].
  split; [vm_compute; reflexivity |]. split; [vm_compute; reflexivity |].
  refine (instancing_flag_kept (CallOnVertexBufferInvalidation 1%positive) submitted
            0 2%positive _ _ _ _ _);
    [vm_compute; reflexivity | reflexivity | vm_compute; reflexivity].
Defined.

(** C10 on an empty queue. *)
Lemma AddBillboards_zero_creates_entry_witness :
  billboard_entry ∅ 0 1%positive = None
  /\ billboard_entry
       (AddBillboards_overload 0 1%positive 0 (fun _ => Vector3f.Build 0 0 0)
          (SizeFloats (fun _ => 1%Q)) (Angles None) (Alphas None) ∅)
       0 1%positive
     = Some (BatchedBillboardEntry.Build (Some 1%positive) []).
Proof.
  split; [reflexivity |].
  apply AddBillboards_zero_creates_entry. reflexivity.
Defined.

(** C6, as amended, on two billboards with a null pointer to angles and
    alphas 1/2 and 1. *)
Lemma AddBillboards_defaults_witness :
  let layers :=
    AddBillboards_overload 0 1%positive 2 (fun _ => Vector3f.Build 0 0 0)
      (SizeFloats (fun _ => 1%Q)) (Angles None)
      (Alphas (Some (fun i => if i is O then (1 # 2)%Q else 1%Q))) ∅ in
  exists new : list BillboardData.t,
    billboards_of layers 0 1%positive = new
    /\ length new = 2%nat
    /\ Forall (fun d => BillboardData.sinCos d = Vector2f.Build 0 1) new
    /\ forall d : BillboardData.t, new !! 0%nat = Some d ->
       (inject_Z (Color.a (BillboardData.color d)) <= 255 * (1 # 2))%Q
       /\ (255 * (1 # 2) < inject_Z (Color.a (BillboardData.color d)) + 1)%Q.
Proof.
  intros layers.
  destruct (AddBillboards_defaults 0 1%positive 2 (fun _ => Vector3f.Build 0 0 0)
              (SizeFloats (fun _ => 1%Q)) (Angles None)
              (Alphas (Some (fun i => if i is O then (1 # 2)%Q else 1%Q))) ∅)
    as (new & Hnew & Hlen & _ & HsinCos & _ & _ & Halpha).
  exists new. repeat apply conj; trivial.
  - apply HsinCos. reflexivity.
  - intros d Hd.
    destruct (Halpha _ eq_refl 0%nat d Hd) as (_ & _ & _ & Hlo & Hhi);
      [discriminate | discriminate |].
    split; assumption.
Defined.

Lemma mixed_frame_submissions : Forall submission mixed_frame.
Proof. repeat (constructor; [exact I |]). constructor. Qed.

(** X2 on two meshes, with every buffer in a storage of its own. *)
Lemma MeshDataComparator_weak_order_witness :
  equivalent_keys (MeshDataComparator own_storage) mesh_a mesh_b <-> mesh_a = mesh_b.
Proof.
  destruct (MeshDataComparator_weak_order own_storage) as (_ & _ & _ & Hequal).
  apply Hequal.
  - intros x y [= Hxy]. exact Hxy.
  - intros x y [= Hxy]. exact Hxy.
  - intros indexBuffer. discriminate.
Defined.

(** X3 on the mixed frame, with every buffer in a storage of its own: the
    first mesh has the two transforms given for it, in the order of the
    calls. *)
Lemma opaque_batch_of_submissions_witness :
  mesh_entry (run mixed_frame ∅) 0 2%positive mesh_a
  = Some (MeshInstanceEntry.Build None (Some 1%positive) [at_height 1; at_height 3]
            (GetSquaredBoundingSphere cube)).
Proof.
  assert (Hown : Inj eq eq N.pos) by (intros x y [= Hxy]; exact Hxy).
  assert (Hnull : forall indexBuffer : positive, N.pos indexBuffer <> 0%N)
    by (intros indexBuffer; discriminate).
  exact (opaque_batch_of_submissions own_storage mixed_frame 0 2%positive mesh_a
           Hown Hown Hnull mixed_frame_submissions).
Defined.

(** X4 on the mixed frame and the same calls in the reverse order. *)
Lemma instances_permuted_witness :
  instances_of (run mixed_frame ∅) 0 2%positive mesh_a
  ≡ₚ instances_of (run (reverse mixed_frame) ∅) 0 2%positive mesh_a.
Proof.
  apply (instances_permuted mixed_frame (reverse mixed_frame) 0 2%positive mesh_a).
  - exact mixed_frame_submissions.
  - symmetry. apply reverse_Permutation.
Defined.

(** X5 on the mixed frame: the two chains with the overlay texture 7. *)
Lemma sprite_bucket_of_submissions_witness :
  sprite_bucket (run mixed_frame ∅) 0 2%positive (Some 7%positive)
  = Some (BatchedSpriteEntry.Build (Some 7%positive)
            [SpriteChain.Build 20%positive 4; SpriteChain.Build 21%positive 6]).
Proof.
  exact (sprite_bucket_of_submissions mixed_frame 0 2%positive (Some 7%positive)
           mixed_frame_submissions).
Defined.

(** X6 on the mixed frame: the three billboards of the array, then the
    single one. *)
Lemma billboards_of_submissions_witness :
  (fun data => Vector3f.z (BillboardData.center data))
  <$> billboards_of (run mixed_frame ∅) 0 3%positive
  = [1; 3; 2; 5]%Q.
Proof.
  rewrite (billboards_of_submissions mixed_frame ∅ 0 3%positive mixed_frame_submissions).
  reflexivity.
Defined.

(** X7 on the mixed frame: the one drawable that is not null. *)
Lemma drawables_of_submissions_witness :
  drawables_of (run mixed_frame ∅) 1 = [9%positive].
Proof.
  exact (drawables_of_submissions mixed_frame ∅ 1 mixed_frame_submissions).
Defined.

(** X8 on sprites submitted to an empty queue, and 100 lightweight
    clears. *)
Lemma submission_keeps_layer_witness :
  let c := CallAddSprites 0 2%positive 20%positive 4 None in
  (exists layer : Layer.t,
      exec c ∅ !! 0%Z = Some layer /\ Layer.clearCount layer = 0%nat)
  /\ is_Some (Nat.iter 100 (Clear false) (exec c ∅) !! 0%Z).
Proof.
  intros c. apply (submission_keeps_layer c ∅ 0 100); [reflexivity | lia].
Defined.

(** X14 on the mixed frame: notifications for a material, a texture, a
    vertex buffer and an index buffer that no call of the frame named. *)
Lemma invalidation_of_unknown_resource_witness :
  let layers := run mixed_frame ∅ in
  OnMaterialInvalidation 5%positive layers = layers
  /\ OnTextureInvalidation (Some 8%positive) layers = layers
  /\ OnVertexBufferInvalidation 7%positive layers = layers
  /\ OnIndexBufferInvalidation (Some 4%positive) layers = layers.
Proof.
  intros layers.
  destruct (invalidation_of_unknown_resource layers)
    as (Hmaterial & Htexture & Hvertex & Hindex).
  repeat apply conj.
  - apply Hmaterial, material_unknown_checked.
    apply (bool_decide_unpack _). vm_compute. exact I.
  - apply Htexture, texture_unknown_checked.
    apply (bool_decide_unpack _). vm_compute. exact I.
  - apply Hvertex, no_mesh_with_checked.
    apply (bool_decide_unpack _). vm_compute. exact I.
  - apply Hindex, no_mesh_with_checked.
    apply (bool_decide_unpack _). vm_compute. exact I.
Defined.

(** X16 on two transparent submissions and a sort. *)
Lemma transparent_indices_in_range_witness :
  exists layer : Layer.t,
    run [submit_transparent_at 10; submit_transparent_at 5;
         CallSort blending_materials example_viewer] ∅ !! 0%Z = Some layer
    /\ (1%nat ∈ Layer.transparentModels layer
        <-> is_Some (Layer.transparentModelData layer !! 1%nat)).
Proof.
  eexists. split; [vm_compute; reflexivity |].
  apply (transparent_indices_in_range
           [submit_transparent_at 10; submit_transparent_at 5;
            CallSort blending_materials example_viewer] 0).
  vm_compute; reflexivity.
Defined.

(** X17 on a sprite of material 2 submitted twice to layer 3. *)
Lemma Sprite_AddToRenderQueue_one_chain_witness :
  let sprite := Sprite.Build (Some 2%positive) in
  let once := Sprite.AddToRenderQueue sprite (InstanceData.Build 3 20%positive) ∅ in
  sprite_bucket
    (Sprite.AddToRenderQueue sprite (InstanceData.Build 3 21%positive) once)
    3 2%positive None
  = Some (BatchedSpriteEntry.Build None
            [SpriteChain.Build 20%positive 1; SpriteChain.Build 21%positive 1]).
Proof.
  intros sprite once.
  exact (Sprite_AddToRenderQueue_one_chain sprite (InstanceData.Build 3 21%positive) once
           3%Z 2%positive None).
Defined.

End Examples.

Section TextExamples.
#[local] Existing Instance example_text_platform.

(** X19 on the example drawer: after the calls, the third glyph read is
    the "!" of the text made again from scratch, in the new color. *)
Lemma reads_are_regenerations_witness :
  exists (drawer : SimpleTextDrawer.t) (glyph : Glyph.t) (drawer' : SimpleTextDrawer.t),
    SimpleTextDrawer.run example_text_calls example_drawer = Some drawer
    /\ SimpleTextDrawer.GetGlyph 2 drawer = Some (glyph, drawer')
    /\ SimpleTextDrawer.regenerated drawer = Some drawer'
    /\ SimpleTextDrawer.m_glyphs drawer' !! 2%nat = Some glyph
    /\ SimpleTextDrawer.shown glyph
       = (Some 5%positive, Recti.Build 33 0 8 10, Color.Build 255 0 0 255, false).
Proof.
  eexists _, _, _. split; [vm_compute; reflexivity |].
  split; [vm_compute; reflexivity |].
  refine (let Hread :=
            proj1 (reads_are_regenerations example_text_calls example_drawer _ _ _ _ _)
              2%nat _ _ _ in
          conj (proj1 Hread) (conj (proj2 Hread) _)).
  Unshelve.
  all: first [vm_compute; reflexivity | repeat constructor].
Defined.

(** The text of the drawer appended to itself: after a read, the drawer
    holds "HiHi" and the two glyphs it had followed by the four of the
    doubled text, where its text gives four. *)
Lemma AppendText_of_the_text_of_the_drawer :
  exists drawer : SimpleTextDrawer.t,
    SimpleTextDrawer.run
      [SimpleTextDrawer.CallGetGlyphCount;
       SimpleTextDrawer.CallAppendText SimpleTextDrawer.DrawerText] example_drawer
    = Some drawer
    /\ SimpleTextDrawer.m_text drawer = [72; 105; 72; 105]%N
    /\ fst <$> SimpleTextDrawer.GetGlyphCount drawer = Some 6%nat
    /\ (fun fresh => length (SimpleTextDrawer.m_glyphs fresh))
       <$> SimpleTextDrawer.regenerated drawer = Some 4%nat.
Proof.
  eexists. split; [vm_compute; reflexivity |].
  split; [reflexivity |]. split; vm_compute; reflexivity.
Qed.

(** X20 on "H i" and a character the font does not load. *)
Lemma glyphs_of_visible_characters_witness :
  exists drawer' : SimpleTextDrawer.t,
    SimpleTextDrawer.GetGlyphCount
      (SimpleTextDrawer.SetText [72; 32; 105; 200]%N example_drawer)
    = Some (2%nat, drawer')
    /\ SimpleTextDrawer.shown <$> SimpleTextDrawer.m_glyphs drawer'
       = [(Some 5%positive, Recti.Build 72 0 8 10, Color.White, false);
          (Some 5%positive, Recti.Build 105 0 8 10, Color.White, false)].
Proof.
  exact (glyphs_of_visible_characters [72; 32; 105; 200]%N example_drawer 1%positive
           (fun _ => Some 5%positive) eq_refl eq_refl eq_refl).
Defined.

(** X21 on the example drawer: a second font set, a read, and the release
    of that font. *)
Lemma slots_follow_font_witness :
  exists drawer : SimpleTextDrawer.t,
    SimpleTextDrawer.run
      [SimpleTextDrawer.CallSetFont (Some 2%positive);
       SimpleTextDrawer.CallGetBounds;
       SimpleTextDrawer.CallOnFontRelease (Some 2%positive)] example_drawer
    = Some drawer
    /\ SimpleTextDrawer.listening drawer.
Proof.
  eexists. split; [vm_compute; reflexivity |].
  apply (slots_follow_font
           [SimpleTextDrawer.CallSetFont (Some 2%positive);
            SimpleTextDrawer.CallGetBounds;
            SimpleTextDrawer.CallOnFontRelease (Some 2%positive)] example_drawer).
  - repeat split.
  - vm_compute; reflexivity.
Defined.

(** X22 on the example drawer, whose font is font 1. *)
Lemma OnFontRelease_drops_font_witness :
  let released := SimpleTextDrawer.OnFontRelease (Some 1%positive) example_drawer in
  SimpleTextDrawer.m_font released = None
  /\ SimpleTextDrawer.GetGlyphCount released = None.
Proof.
  intros released.
  destruct (OnFontRelease_drops_font 1%positive example_drawer eq_refl)
    as (Hfont & _ & _ & _ & Hfails & _).
  split; [exact Hfont |]. apply Hfails. left. reflexivity.
Defined.

End TextExamples.

